(** * xgowiz: the provider adaptation layer

    A shallow embedding of the Go packages [llm/history], [llm/openai],
    [llm/anthropic], [cmd/google] and [cmd/ollama]: the common
    Message / ToolCall abstraction, the stored-history reconstruction and
    the four backend adapters, followed by the properties of the
    specification that are settled against them.

    Conventions of the embedding.
    - A Go [string] is a byte string: Rocq's [string] (a list of 8-bit
      [ascii]).  [json.RawMessage] and [[]byte] are byte strings too.
    - A Go [any] holding decoded JSON or caller-supplied content is the
      inductive [any]: nil, [bool], [float64], [string], [[]byte],
      [[]any], [[]string], [map[string]any], and [AOther] for a value of
      any other dynamic type.  A [map[string]any] is a [gmap string any].
      A nil map or slice and an empty one are identified.
    - A Go [int] is the 64-bit two's complement integer of a 64-bit
      platform: a [Z] kept in range by [wrap64].
    - A call that returns [(T, error)] returns a pair
      [option T * option error]; a run-time panic (failed type assertion,
      nil dereference) is the [None] of [option] or of the [Go] monad.
    - Methods of the [llm.Message] interface run in the [Go] monad, which
      threads the number of clock readings taken so far (the Ollama
      adapter stamps tool calls with [time.Now()]) and can panic.
    - The standard library's [encoding/json] and [fmt] are not part of the
      repository: they are the operations of the class [Libraries].
    - Logging calls ([log.Debug], [log.Error]) are left out: the methods
      they call on a message are called again by the code that follows,
      and none of them reads the clock.
    - Of each adapter the response message, [CreateToolResponse] and
      [SendMessage] are embedded, the transport or the vendor client
      being a parameter of [SendMessage]; of the OpenAI and the Anthropic
      client, [Init].  The HTTP round trips ([CreateChatCompletion],
      [CreateMessage]) and the Ollama adapter's [SupportsTools], which
      asks the server, are not. *)

From Stdlib Require Import ZArith String Ascii List DecimalString SpecFloat Lia.
From stdpp Require Import gmap strings list fin_maps.

Set Warnings "-register-all".

Open Scope Z_scope.

(** ** Go values *)

Definition error := string.

(** The dynamic values an [any] holds in this program. *)
Inductive any :=
| ANil
| ABool (b : bool)
| AFloat64 (f : spec_float)
| AString (s : string)
| ABytes (b : string)
| ASlice (l : list any)
| AStrings (l : list string)
| AMap (m : gmap string any)
| AOther (tag : nat).

(** [x.(string)], [x.([]any)] and [x.(map[string]any)] in their
    comma-ok form. *)
Definition asString (x : any) : option string :=
  match x with AString s => Some s | _ => None end.

Definition asSlice (x : any) : option (list any) :=
  match x with ASlice l => Some l | _ => None end.

Definition asMap (x : any) : option (gmap string any) :=
  match x with AMap m => Some m | _ => None end.

(** Indexing a map with an absent key gives the zero value, for [any]
    the nil interface. *)
Definition index (m : gmap string any) (k : string) : any :=
  default ANil (m !! k).

(** ** Machine integers *)

Definition MaxInt64 : Z := 2 ^ 63 - 1.

Definition wrap64 (z : Z) : Z := (z + 2 ^ 63) mod 2 ^ 64 - 2 ^ 63.

Definition int_add (a b : Z) : Z := wrap64 (a + b).

(** [len] of a slice as an [int]. *)
Definition len {A} (l : list A) : Z := Z.of_nat (length l).

(** ** The Go monad *)

(** The state is the number of clock readings taken so far; [None] is a
    panic. *)
Definition Go (A : Type) : Type := nat → option (A * nat).

Definition go_ret {A} (a : A) : Go A := λ t, Some (a, t).

Definition go_bind {A B} (m : Go A) (f : A → Go B) : Go B :=
  λ t, match m t with
       | Some (a, t') => f a t'
       | None => None
       end.

Definition panic {A} : Go A := λ _, None.

(** An unchecked type assertion or a nil dereference. *)
Definition must {A} (o : option A) : Go A :=
  match o with Some a => go_ret a | None => panic end.

Notation "x <- m ;; k" := (go_bind m (λ x, k))
  (at level 100, m at next level, right associativity).

Fixpoint go_mapM {A B} (f : A → Go B) (l : list A) : Go (list B) :=
  match l with
  | [] => go_ret []
  | a :: l' => b <- f a ;; bs <- go_mapM f l' ;; go_ret (b :: bs)
  end.

(** ** The standard library *)

Class Libraries := {
  (** [json.Marshal]: the encoding, or the error. *)
  json_Marshal : any → string + error;
  (** The decoder behind [json.Unmarshal] into an [any]: [None] when the
      text is not valid JSON. *)
  json_decode : string → option any;
  (** The [%v] verb of [fmt] on values other than strings, booleans and
      nil. *)
  fmt_value : any → string;
  (** The n-th reading of [time.Now().UnixNano()]. *)
  time_UnixNano : nat → Z
}.

(** [json.Unmarshal(data, &args)] for [var args map[string]any]: invalid
    text is a syntax error, [null] leaves [args] nil, an object fills it,
    any other JSON value is a type error. *)
Definition json_Unmarshal_map `{Libraries} (data : string)
  : gmap string any + error :=
  match json_decode data with
  | None => inr "invalid character"
  | Some ANil => inl ∅
  | Some (AMap m) => inl m
  | Some _ => inr "json: cannot unmarshal into Go value of type map[string]interface {}"
  end.

(** [fmt.Sprint(x)] and [fmt.Sprintf("%v", x)]. *)
Definition fmt_Sprint `{Libraries} (x : any) : string :=
  match x with
  | AString s => s
  | ABool true => "true"
  | ABool false => "false"
  | ANil => "<nil>"
  | _ => fmt_value x
  end.

(** [fmt.Sprintf("%d", n)]. *)
Definition fmt_d (n : Z) : string := NilZero.string_of_int (Z.to_int n).

(** ** Package strings *)

Module strings.

Definition bytes (s : string) : list ascii := list_ascii_of_string s.
Definition str (l : list ascii) : string := string_of_list_ascii l.

(** The ASCII white space of [unicode.IsSpace]. *)
Definition space1 (c : ascii) : bool :=
  match c with
  | "009" | "010" | "011" | "012" | "013" | " " => true
  | _ => false
  end%char.

(** U+0085 and U+00A0 in UTF-8. *)
Definition space2 (c0 c1 : ascii) : bool :=
  match c1, c0 with
  | "133", "194" | "160", "194" => true
  | _, _ => false
  end%char.

(** U+1680, U+2000 to U+200A, U+2028, U+2029, U+202F, U+205F and U+3000
    in UTF-8. *)
Definition space3 (c0 c1 c2 : ascii) : bool :=
  match c2, c1, c0 with
  | "128", "154", "225" => true
  | "128", "128", "226" | "129", "128", "226" | "130", "128", "226"
  | "131", "128", "226" | "132", "128", "226" | "133", "128", "226"
  | "134", "128", "226" | "135", "128", "226" | "136", "128", "226"
  | "137", "128", "226" | "138", "128", "226" => true
  | "168", "128", "226" | "169", "128", "226" | "175", "128", "226" => true
  | "159", "129", "226" => true
  | "128", "128", "227" => true
  | _, _, _ => false
  end%char.

(** [TrimLeftFunc(s, unicode.IsSpace)] on the bytes of [s]: white-space
    runes are decoded from the front; an invalid byte is not white
    space. *)
Fixpoint trimLeft (l : list ascii) : list ascii :=
  match l with
  | [] => []
  | c0 :: l1 =>
      if space1 c0 then trimLeft l1
      else match l1 with
           | [] => l
           | c1 :: l2 =>
               if space2 c0 c1 then trimLeft l2
               else match l2 with
                    | [] => l
                    | c2 :: l3 =>
                        if space3 c0 c1 c2 then trimLeft l3 else l
                    end
           end
  end.

(** [TrimRightFunc] on the reversed bytes: white-space runes are
    decoded from the back. *)
Fixpoint trimRev (r : list ascii) : list ascii :=
  match r with
  | [] => []
  | c2 :: r1 =>
      if space1 c2 then trimRev r1
      else match r1 with
           | [] => r
           | c1 :: r2 =>
               if space2 c1 c2 then trimRev r2
               else match r2 with
                    | [] => r
                    | c0 :: r3 =>
                        if space3 c0 c1 c2 then trimRev r3 else r
                    end
           end
  end.

Definition trimRight (l : list ascii) : list ascii := rev (trimRev (rev l)).

(** [strings.TrimSpace]. *)
Definition TrimSpace (s : string) : string :=
  str (trimRight (trimLeft (bytes s))).

(** [strings.Join]. *)
Fixpoint Join (elems : list string) (sep : string) : string :=
  match elems with
  | [] => ""
  | [e] => e
  | e :: rest => e +:+ sep +:+ Join rest sep
  end.

(** [p] is a prefix of [l], byte by byte. *)
Fixpoint hasPrefix (p l : list ascii) : bool :=
  match p, l with
  | [], _ => true
  | _ :: _, [] => false
  | a :: p', b :: l' => Ascii.eqb a b && hasPrefix p' l'
  end.

(** [strings.HasSuffix]. *)
Definition HasSuffix (s suffix : string) : bool :=
  hasPrefix (rev (bytes suffix)) (rev (bytes s)).

(** [strings.TrimSuffix]. *)
Definition TrimSuffix (s suffix : string) : string :=
  if HasSuffix s suffix
  then str (take (length (bytes s) - length (bytes suffix)) (bytes s))
  else s.

End strings.

(** ** Package history *)

Module history.

Record ContentBlock := {
  Type_ : string;
  Text : string;
  ID : string;
  ToolUseID : string;
  Name : string;
  Input : string;
  Content : any
}.

Record HistoryMessage := {
  ARole : string;
  AContent : list ContentBlock
}.

Record HistoryToolCall := {
  id : string;
  name : string;
  args : string
}.

Definition HistoryMessage_Role (m : HistoryMessage) : string := ARole m.

Definition HistoryMessage_Content (m : HistoryMessage) : string :=
  let content :=
    fold_left
      (λ content block,
         if String.eqb (Type_ block) "text"
         then content +:+ (Text block +:+ " ")
         else content)
      (AContent m) "" in
  strings.TrimSpace content.

Definition HistoryMessage_ToolCalls (m : HistoryMessage)
  : list HistoryToolCall :=
  fold_left
    (λ calls block,
       if String.eqb (Type_ block) "tool_use"
       then calls ++ [{| id := ID block; name := Name block;
                         args := Input block |}]
       else calls)
    (AContent m) [].

Fixpoint firstToolResult (blocks : list ContentBlock) : string * bool :=
  match blocks with
  | [] => ("", false)
  | block :: rest =>
      if String.eqb (Type_ block) "tool_result"
      then (ToolUseID block, true)
      else firstToolResult rest
  end.

Definition HistoryMessage_ToolResponse (m : HistoryMessage)
  : string * bool :=
  firstToolResult (AContent m).

Definition HistoryMessage_StatUsage (m : HistoryMessage) : Z * Z := (0, 0).

Definition HistoryToolCall_ID (t : HistoryToolCall) : string := id t.

Definition HistoryToolCall_Name (t : HistoryToolCall) : string := name t.

Definition HistoryToolCall_Arguments `{Libraries} (t : HistoryToolCall)
  : gmap string any :=
  match json_Unmarshal_map (args t) with
  | inr _ => ∅
  | inl args => args
  end.

End history.


(** ** Package llm: the caller-supplied tool description *)

Module llm_types.

(** The structs [llm.Schema] and [llm.Tool]. *)
Record Schema := {
  Type_ : string;
  Properties : gmap string any;
  Required : list string
}.

Record Tool := {
  Name : string;
  Description : string;
  InputSchema : Schema
}.

End llm_types.

(** ** Package openai: wire types and the response message *)

Module openai.

(** Modelled from the spec: the wire types of the OpenAI adapter
    ([FunctionCall], [ToolCall], [MessageParam], [Choice], [Usage],
    [APIResponse]) are declared in a file that is not among the sources;
    the fields are those the adapter reads and writes, named as in the
    request and response shapes of the specification. *)
Record FunctionCall := {
  Name : string;
  Arguments : string
}.

Record ToolCall := {
  ID : string;
  Type_ : string;
  Function : FunctionCall
}.

(** [Content] is a [*string]: [None] is the nil pointer, encoded as JSON
    [null]. *)
Record MessageParam := {
  Role : string;
  Content : option string;
  ToolCalls : list ToolCall;
  ToolCallID : string
}.

Record Choice := {
  Message_ : MessageParam
}.

Record Usage := {
  PromptTokens : Z;
  CompletionTokens : Z
}.

Record APIResponse := {
  Choices : list Choice;
  Usage_ : Usage
}.

(** Both pointers of a [Message] are set wherever the package builds
    one. *)
Record Message := {
  Resp : APIResponse;
  Choice_ : Choice
}.

Record ToolCallWrapper := {
  Call : ToolCall
}.

Definition Message_Role (m : Message) : string :=
  Role (Message_ (Choice_ m)).

Definition Message_Content (m : Message) : string :=
  match Content (Message_ (Choice_ m)) with
  | None => ""
  | Some content => content
  end.

Definition Message_ToolCalls (m : Message) : list ToolCallWrapper :=
  fold_left (λ calls call, calls ++ [{| Call := call |}])
    (ToolCalls (Message_ (Choice_ m))) [].

Definition Message_ToolResponse (m : Message) : string * bool :=
  let id := ToolCallID (Message_ (Choice_ m)) in
  (id, negb (String.eqb id "")).

Definition Message_StatUsage (m : Message) : Z * Z :=
  (PromptTokens (Usage_ (Resp m)), CompletionTokens (Usage_ (Resp m))).

Definition ToolCallWrapper_ID (t : ToolCallWrapper) : string := ID (Call t).

Definition ToolCallWrapper_Name (t : ToolCallWrapper) : string :=
  Name (Function (Call t)).

Definition ToolCallWrapper_Arguments `{Libraries} (t : ToolCallWrapper)
  : gmap string any :=
  match json_Unmarshal_map (Arguments (Function (Call t))) with
  | inr _ => ∅
  | inl args => args
  end.

End openai.

(** ** Package anthropic: wire types and the response message *)

Module anthropic.

Record ContentBlock := {
  Type_ : string;
  Text : string;
  ID : string;
  ToolUseID : string;
  Name : string;
  Input : string;
  Content : any
}.

Record Usage := {
  InputTokens : Z;
  OutputTokens : Z
}.

Module APIMessage.
Record t := {
  ID : string;
  Type_ : string;
  Role : string;
  Content : list ContentBlock;
  Model : string;
  StopReason : option string;
  StopSequence : option string;
  Usage_ : Usage
}.
End APIMessage.

Record Message := {
  Msg : APIMessage.t
}.

Record ToolCall := {
  id : string;
  name : string;
  args : string
}.

Definition Message_Role (m : Message) : string := APIMessage.Role (Msg m).

Section Content.
Context `{Libraries}.

(** The items of an array-valued [Content] of a tool_result block. *)
Definition contentArrayItems (content : list string)
    (contentArray : list any) : list string :=
  fold_left
    (λ content item,
       match asMap item with
       | Some contentMap =>
           match contentMap !! "text" with
           | Some text => content ++ [fmt_Sprint text]
           | None => content
           end
       | None => content ++ [fmt_Sprint item]
       end)
    contentArray content.

(** One iteration of the loop of [Content]. *)
Definition contentBlock (content : list string) (block : ContentBlock)
  : list string :=
  if String.eqb (Type_ block) "text" then content ++ [Text block]
  else if String.eqb (Type_ block) "tool_result" then
    match asString (Content block) with
    | Some contentStr => content ++ [contentStr]
    | None =>
        let content :=
          match asSlice (Content block) with
          | Some contentArray => contentArrayItems content contentArray
          | None => content
          end in
        if (len content =? 0) && negb (String.eqb (Text block) "")
        then content ++ [Text block]
        else content
    end
  else content.

Definition Message_Content (m : Message) : string :=
  let content := fold_left contentBlock (APIMessage.Content (Msg m)) [] in
  strings.TrimSpace (strings.Join content " ").

Definition ToolCall_Arguments (t : ToolCall) : gmap string any :=
  match json_Unmarshal_map (args t) with
  | inr _ => ∅
  | inl args => args
  end.

End Content.

Definition Message_ToolCalls (m : Message) : list ToolCall :=
  fold_left
    (λ calls block,
       if String.eqb (Type_ block) "tool_use"
       then calls ++ [{| id := ID block; name := Name block;
                         args := Input block |}]
       else calls)
    (APIMessage.Content (Msg m)) [].

Fixpoint firstToolResult (blocks : list ContentBlock) : string * bool :=
  match blocks with
  | [] => ("", false)
  | block :: rest =>
      if String.eqb (Type_ block) "tool_result"
      then (ToolUseID block, true)
      else firstToolResult rest
  end.

Definition Message_ToolResponse (m : Message) : string * bool :=
  firstToolResult (APIMessage.Content (Msg m)).

Definition Message_StatUsage (m : Message) : Z * Z :=
  (InputTokens (APIMessage.Usage_ (Msg m)),
   OutputTokens (APIMessage.Usage_ (Msg m))).

Definition ToolCall_Name (t : ToolCall) : string := name t.

Definition ToolCall_ID (t : ToolCall) : string := id t.

End anthropic.

(** ** The vendor libraries the adapters are written against *)

(** [github.com/google/generative-ai-go/genai]: the types the Google
    adapter reads and builds. *)
Module genai.

Inductive Type_ :=
| TypeUnspecified
| TypeString
| TypeNumber
| TypeInteger
| TypeBoolean
| TypeArray
| TypeObject.

Inductive Schema := {
  Type__ : Type_;
  Format : string;
  Description : string;
  Nullable : bool;
  Enum : list string;
  Items : option Schema;
  Properties : gmap string Schema;
  Required : list string
}.

Record FunctionCall := {
  Name : string;
  Args : gmap string any
}.

Record FunctionResponse := {
  Name_ : string;
  Response : gmap string any
}.

(** The implementations of the interface [Part]; a [FunctionResponse]
    held by pointer is a dynamic type of its own. *)
Inductive Part :=
| Text (s : string)
| Blob (MIMEType : string) (Data : string)
| PartFunctionCall (fc : FunctionCall)
| PartFunctionResponse (fr : FunctionResponse)
| PartFunctionResponsePtr (fr : FunctionResponse).

Record Content := {
  Parts : list Part;
  Role : string
}.

(** [Content_] is a pointer: [None] when the response carries no
    content. *)
Record Candidate := {
  Index : Z;
  Content_ : option Content
}.

(** The method [FunctionCalls] of [Candidate]. *)
Definition Candidate_FunctionCalls (c : Candidate) : list FunctionCall :=
  match Content_ c with
  | None => []
  | Some content =>
      fold_left
        (λ fcs p,
           match p with
           | PartFunctionCall fc => fcs ++ [fc]
           | _ => fcs
           end)
        (Parts content) []
  end.

Record FunctionDeclaration := {
  Name__ : string;
  Description_ : string;
  Parameters : Schema
}.

Record Tool := {
  FunctionDeclarations : list FunctionDeclaration
}.

Record GenerateContentResponse := {
  Candidates : list Candidate
}.

End genai.

(** [github.com/ollama/ollama/api]: the message types. *)
Module api.

Record ToolCallFunction := {
  Name : string;
  Arguments : gmap string any
}.

Record ToolCall := {
  Function : ToolCallFunction
}.

Record Message := {
  Role : string;
  Content : string;
  ToolCalls : list ToolCall
}.

End api.

(** ** Package google: the response message *)

Module google.

Record ToolCall := {
  FunctionCall : genai.FunctionCall;
  toolCallID : Z
}.

Record Message := {
  Candidate : genai.Candidate;
  toolCallID_ : Z
}.

Definition ToolCall_Name (t : ToolCall) : string :=
  genai.Name (FunctionCall t).

Definition ToolCall_Arguments (t : ToolCall) : gmap string any :=
  genai.Args (FunctionCall t).

Definition ToolCall_ID (t : ToolCall) : string :=
  "Tool<" +:+ fmt_d (toolCallID t) +:+ ">".

Definition Message_Role (m : Message) : Go string :=
  content <- must (genai.Content_ (Candidate m)) ;;
  go_ret (genai.Role content).

Definition Message_Content (m : Message) : Go string :=
  content <- must (genai.Content_ (Candidate m)) ;;
  go_ret
    (fold_left
       (λ sb part,
          match part with
          | genai.Text text => sb +:+ text
          | _ => sb
          end)
       (genai.Parts content) "").

(** The loop of [ToolCalls], from index [i]. *)
Fixpoint toolCallsFrom (m : Message) (i : Z)
    (fcs : list genai.FunctionCall) : list ToolCall :=
  match fcs with
  | [] => []
  | call :: rest =>
      {| FunctionCall := call; toolCallID := int_add (toolCallID_ m) i |}
        :: toolCallsFrom m (i + 1) rest
  end.

Definition Message_ToolCalls (m : Message) : list ToolCall :=
  toolCallsFrom m 0 (genai.Candidate_FunctionCalls (Candidate m)).

Fixpoint firstFunctionResponse (m : Message) (parts : list genai.Part)
  : string * bool :=
  match parts with
  | [] => ("", false)
  | genai.PartFunctionResponsePtr _ :: _ =>
      ("Tool<" +:+ fmt_d (toolCallID_ m) +:+ ">", true)
  | _ :: rest => firstFunctionResponse m rest
  end.

Definition Message_ToolResponse (m : Message) : Go (string * bool) :=
  content <- must (genai.Content_ (Candidate m)) ;;
  go_ret (firstFunctionResponse m (genai.Parts content)).

Definition Message_StatUsage (m : Message) : Z * Z := (0, 0).

End google.

(** ** Package ollama: the response message *)

Module ollama.

Record OllamaMessage := {
  Message : api.Message;
  ToolCallID : string
}.

Record OllamaToolCall := {
  call : api.ToolCall;
  id : string
}.

Definition OllamaMessage_Role (m : OllamaMessage) : string :=
  api.Role (Message m).

Definition OllamaMessage_Content (m : OllamaMessage) : string :=
  strings.TrimSpace (api.Content (Message m)).

(** [time.Now().UnixNano()]: takes the next reading of the clock. *)
Definition time_Now_UnixNano `{Libraries} : Go Z :=
  λ t, Some (time_UnixNano t, S t).

Definition NewOllamaToolCall `{Libraries} (call : api.ToolCall)
  : Go OllamaToolCall :=
  now <- time_Now_UnixNano ;;
  go_ret {| call := call;
            id := "tc_" +:+ api.Name (api.Function call) +:+ "_"
                    +:+ fmt_d now |}.

Definition OllamaMessage_ToolCalls `{Libraries} (m : OllamaMessage)
  : Go (list OllamaToolCall) :=
  go_mapM NewOllamaToolCall (api.ToolCalls (Message m)).

Definition OllamaMessage_StatUsage (m : OllamaMessage) : Z * Z := (0, 0).

Definition OllamaMessage_ToolResponse (m : OllamaMessage) : string * bool :=
  (ToolCallID m, String.eqb (api.Role (Message m)) "tool").

Definition OllamaToolCall_Name (t : OllamaToolCall) : string :=
  api.Name (api.Function (call t)).

Definition OllamaToolCall_Arguments (t : OllamaToolCall)
  : gmap string any :=
  api.Arguments (api.Function (call t)).

Definition OllamaToolCall_ID (t : OllamaToolCall) : string := id t.

End ollama.

(** ** Package llm: the Message and ToolCall interfaces *)

(** The interfaces [llm.Message] and [llm.ToolCall].  An interface value
    is one of the five implementations of the repository; a type
    assertion is a match on the constructor. *)
Module llm.

Inductive ToolCall :=
| HistoryToolCall (t : history.HistoryToolCall)
| OpenAIToolCall (t : openai.ToolCallWrapper)
| AnthropicToolCall (t : anthropic.ToolCall)
| GoogleToolCall (t : google.ToolCall)
| OllamaToolCall (t : ollama.OllamaToolCall).

Inductive Message :=
| HistoryMessage (m : history.HistoryMessage)
| OpenAIMessage (m : openai.Message)
| AnthropicMessage (m : anthropic.Message)
| GoogleMessage (m : google.Message)
| OllamaMessage (m : ollama.OllamaMessage).

Section Methods.
Context `{Libraries}.

Definition ToolCall_Name (t : ToolCall) : string :=
  match t with
  | HistoryToolCall t => history.HistoryToolCall_Name t
  | OpenAIToolCall t => openai.ToolCallWrapper_Name t
  | AnthropicToolCall t => anthropic.ToolCall_Name t
  | GoogleToolCall t => google.ToolCall_Name t
  | OllamaToolCall t => ollama.OllamaToolCall_Name t
  end.

Definition ToolCall_Arguments (t : ToolCall) : gmap string any :=
  match t with
  | HistoryToolCall t => history.HistoryToolCall_Arguments t
  | OpenAIToolCall t => openai.ToolCallWrapper_Arguments t
  | AnthropicToolCall t => anthropic.ToolCall_Arguments t
  | GoogleToolCall t => google.ToolCall_Arguments t
  | OllamaToolCall t => ollama.OllamaToolCall_Arguments t
  end.

Definition ToolCall_ID (t : ToolCall) : string :=
  match t with
  | HistoryToolCall t => history.HistoryToolCall_ID t
  | OpenAIToolCall t => openai.ToolCallWrapper_ID t
  | AnthropicToolCall t => anthropic.ToolCall_ID t
  | GoogleToolCall t => google.ToolCall_ID t
  | OllamaToolCall t => ollama.OllamaToolCall_ID t
  end.

Definition Message_Role (m : Message) : Go string :=
  match m with
  | HistoryMessage m => go_ret (history.HistoryMessage_Role m)
  | OpenAIMessage m => go_ret (openai.Message_Role m)
  | AnthropicMessage m => go_ret (anthropic.Message_Role m)
  | GoogleMessage m => google.Message_Role m
  | OllamaMessage m => go_ret (ollama.OllamaMessage_Role m)
  end.

Definition Message_Content (m : Message) : Go string :=
  match m with
  | HistoryMessage m => go_ret (history.HistoryMessage_Content m)
  | OpenAIMessage m => go_ret (openai.Message_Content m)
  | AnthropicMessage m => go_ret (anthropic.Message_Content m)
  | GoogleMessage m => google.Message_Content m
  | OllamaMessage m => go_ret (ollama.OllamaMessage_Content m)
  end.

Definition Message_ToolCalls (m : Message) : Go (list ToolCall) :=
  match m with
  | HistoryMessage m =>
      go_ret (map HistoryToolCall (history.HistoryMessage_ToolCalls m))
  | OpenAIMessage m =>
      go_ret (map OpenAIToolCall (openai.Message_ToolCalls m))
  | AnthropicMessage m =>
      go_ret (map AnthropicToolCall (anthropic.Message_ToolCalls m))
  | GoogleMessage m =>
      go_ret (map GoogleToolCall (google.Message_ToolCalls m))
  | OllamaMessage m =>
      calls <- ollama.OllamaMessage_ToolCalls m ;;
      go_ret (map OllamaToolCall calls)
  end.

Definition Message_ToolResponse (m : Message) : Go (string * bool) :=
  match m with
  | HistoryMessage m => go_ret (history.HistoryMessage_ToolResponse m)
  | OpenAIMessage m => go_ret (openai.Message_ToolResponse m)
  | AnthropicMessage m => go_ret (anthropic.Message_ToolResponse m)
  | GoogleMessage m => google.Message_ToolResponse m
  | OllamaMessage m => go_ret (ollama.OllamaMessage_ToolResponse m)
  end.

(** [llm.IsToolResponse]. *)
Definition IsToolResponse (m : Message) : Go bool :=
  r <- Message_ToolResponse m ;; go_ret (snd r).

End Methods.

End llm.

Definition newline : string := String "010"%char "".

(** ** Package openai: the provider *)

Module openai_provider.

(** Modelled from the spec: [FunctionDef], [Tool] and [CreateRequest] are
    declared with the wire types; the fields are those [SendMessage]
    fills. *)
Record FunctionDef := {
  Name : string;
  Description : string;
  Parameters : gmap string any
}.

Record Tool := {
  Type_ : string;
  Function : FunctionDef
}.

(** [Temperature] is the decimal literal of the source, as a
    fraction. *)
Record CreateRequest := {
  Model : string;
  Messages : list openai.MessageParam;
  Tools : list Tool;
  MaxTokens : Z;
  Temperature : Z * Z
}.

Record Provider := {
  model : string
}.

Definition convertSchema (schema : llm_types.Schema) : gmap string any :=
  let required := llm_types.Required schema in
  <["type" := AString (llm_types.Type_ schema)]>
    (<["properties" := AMap (llm_types.Properties schema)]>
       (<["required" := AStrings required]> ∅)).

Section Provider.
Context `{Libraries}.

(** The loop that fills [param.ToolCalls]; a marshalling error leaves
    [SendMessage]. *)
Fixpoint marshalToolCalls (toolCalls : list llm.ToolCall)
  : list openai.ToolCall + error :=
  match toolCalls with
  | [] => inl []
  | call :: rest =>
      match json_Marshal (AMap (llm.ToolCall_Arguments call)) with
      | inr err => inr ("error marshaling function arguments: " +:+ err)
      | inl args =>
          match marshalToolCalls rest with
          | inr err => inr err
          | inl entries =>
              inl ({| openai.ID := llm.ToolCall_ID call;
                      openai.Type_ := "function";
                      openai.Function :=
                        {| openai.Name := llm.ToolCall_Name call;
                           openai.Arguments := args |} |} :: entries)
          end
      end
  end.

(** The text of the tool_result blocks of a stored turn. *)
Definition toolResultTexts (blocks : list history.ContentBlock)
  : list string :=
  fold_left
    (λ texts block,
       if String.eqb (history.Type_ block) "tool_result" then
         if negb (String.eqb (history.Text block) "")
         then texts ++ [history.Text block]
         else match asSlice (history.Content block) with
              | Some contentArray =>
                  fold_left
                    (λ texts item,
                       match asMap item with
                       | Some contentMap =>
                           match contentMap !! "text" with
                           | Some text => texts ++ [fmt_Sprint text]
                           | None => texts
                           end
                       | None => texts
                       end)
                    contentArray texts
              | None => texts
              end
       else texts)
    blocks [].

(** The content extracted for a tool response whose [Content()] is
    [content]. *)
Definition extractContent (msg : llm.Message) (content : string)
  : string :=
  if negb (String.eqb content "") then content
  else match msg with
       | llm.HistoryMessage historyMsg =>
           strings.Join (toolResultTexts (history.AContent historyMsg))
             newline
       | _ => ""
       end.

(** The body of the loop over the prior messages: the parameter it
    appends, or the error it returns. *)
Definition convertMessage (msg : llm.Message)
  : Go (openai.MessageParam + error) :=
  role <- llm.Message_Role msg ;;
  content <- llm.Message_Content msg ;;
  let paramContent :=
    if negb (String.eqb content "") then Some content else None in
  toolCalls <- llm.Message_ToolCalls msg ;;
  match
    (if 0 <? len toolCalls
     then match marshalToolCalls toolCalls with
          | inr err => inr err
          | inl entries => inl (None, entries)
          end
     else inl (paramContent, []))
  with
  | inr err => go_ret (inr err)
  | inl (paramContent, paramToolCalls) =>
      r <- llm.Message_ToolResponse msg ;;
      let '(toolCallID, ok) := r in
      if ok then
        content <- llm.Message_Content msg ;;
        let contentStr := extractContent msg content in
        let contentStr :=
          if String.eqb contentStr ""
          then "No content returned from function"
          else contentStr in
        go_ret (inl {| openai.Role := "tool";
                       openai.Content := Some contentStr;
                       openai.ToolCalls := paramToolCalls;
                       openai.ToolCallID := toolCallID |})
      else
        go_ret (inl {| openai.Role := role;
                       openai.Content := paramContent;
                       openai.ToolCalls := paramToolCalls;
                       openai.ToolCallID := "" |})
  end.

Fixpoint convertMessages (messages : list llm.Message)
  : Go (list openai.MessageParam + error) :=
  match messages with
  | [] => go_ret (inl [])
  | msg :: rest =>
      r <- convertMessage msg ;;
      match r with
      | inr err => go_ret (inr err)
      | inl param =>
          rs <- convertMessages rest ;;
          match rs with
          | inr err => go_ret (inr err)
          | inl params => go_ret (inl (param :: params))
          end
      end
  end.

Definition convertTool (tool : llm_types.Tool) : Tool :=
  {| Type_ := "function";
     Function :=
       {| Name := llm_types.Name tool;
          Description := llm_types.Description tool;
          Parameters := convertSchema (llm_types.InputSchema tool) |} |}.

(** [SendMessage]; [CreateChatCompletion] is the transport client. *)
Definition SendMessage (p : Provider)
    (CreateChatCompletion : CreateRequest → openai.APIResponse + error)
    (prompt : string) (messages : list llm.Message)
    (tools : list llm_types.Tool)
  : Go (option llm.Message * option error) :=
  r <- convertMessages messages ;;
  match r with
  | inr err => go_ret (None, Some err)
  | inl openaiMessages =>
      let openaiMessages :=
        if negb (String.eqb prompt "")
        then openaiMessages
               ++ [{| openai.Role := "user";
                      openai.Content := Some prompt;
                      openai.ToolCalls := [];
                      openai.ToolCallID := "" |}]
        else openaiMessages in
      let openaiTools := map convertTool tools in
      match CreateChatCompletion
              {| Model := model p;
                 Messages := openaiMessages;
                 Tools := openaiTools;
                 MaxTokens := 4096;
                 Temperature := (7, 10) |}
      with
      | inr err => go_ret (None, Some err)
      | inl resp =>
          match openai.Choices resp with
          | [] => go_ret (None, Some "no choices in response")
          | choice :: _ =>
              go_ret (Some (llm.OpenAIMessage
                              {| openai.Resp := resp;
                                 openai.Choice_ := choice |}),
                      None)
          end
      end
  end.

Definition SupportsTools (p : Provider) : bool := true.

Definition Name_ (p : Provider) : string := "openai".

(** The texts one item of an array content contributes. *)
Definition blockTexts (texts : list string) (item : any) : list string :=
  match asMap item with
  | Some block =>
      match asString (index block "text") with
      | Some text => texts ++ [text]
      | None =>
          match asSlice (index block "text") with
          | Some textArray =>
              fold_left
                (λ texts t,
                   match asString t with
                   | Some str => texts ++ [str]
                   | None => texts
                   end)
                textArray texts
          | None =>
              match asSlice (index block "content") with
              | Some contentArray =>
                  fold_left
                    (λ texts c,
                       match asMap c with
                       | Some cMap =>
                           match asString (index cMap "text") with
                           | Some text => texts ++ [text]
                           | None => texts
                           end
                       | None => texts
                       end)
                    contentArray texts
              | None => texts
              end
          end
      end
  | None => texts
  end.

(** The switch on the dynamic type of [content]: the string
    representation, or the error returned. *)
Definition contentString (content : any) : string + error :=
  match content with
  | AString v => inl v
  | ASlice v =>
      let texts := fold_left blockTexts v [] in
      let contentStr := strings.Join texts newline in
      if String.eqb contentStr "" then
        match json_Marshal (ASlice v) with
        | inr err => inr ("failed to marshal array content: " +:+ err)
        | inl jsonBytes => inl jsonBytes
        end
      else inl contentStr
  | _ =>
      match json_Marshal content with
      | inr err => inr ("failed to marshal tool response: " +:+ err)
      | inl jsonBytes => inl jsonBytes
      end
  end.

Definition CreateToolResponse (p : Provider) (toolCallID : string)
    (content : any) : option llm.Message * option error :=
  match contentString content with
  | inr err => (None, Some err)
  | inl contentStr =>
      let contentStr :=
        if String.eqb contentStr ""
        then "No content returned from tool"
        else contentStr in
      let choice :=
        {| openai.Message_ :=
             {| openai.Role := "tool";
                openai.Content := Some contentStr;
                openai.ToolCalls := [];
                openai.ToolCallID := toolCallID |} |} in
      (Some (llm.OpenAIMessage
               {| openai.Choice_ := choice;
                  openai.Resp :=
                    {| openai.Choices := [choice];
                       openai.Usage_ :=
                         {| openai.PromptTokens := 0;
                            openai.CompletionTokens := 0 |} |} |}),
       None)
  end.

End Provider.

End openai_provider.

(** ** Package anthropic: the provider *)

Module anthropic_provider.

Section Provider.
Context `{Libraries}.

Definition CreateToolResponse (toolCallID : string) (content : any)
  : option llm.Message * option error :=
  let structuredContent := content in
  let contentStr :=
    match content with
    | AString v => v
    | ABytes v => v
    | _ =>
        match json_Marshal content with
        | inl jsonBytes => jsonBytes
        | inr _ => fmt_Sprint content
        end
    end in
  (Some (llm.AnthropicMessage
           {| anthropic.Msg :=
                {| anthropic.APIMessage.ID := "";
                   anthropic.APIMessage.Type_ := "";
                   anthropic.APIMessage.Role := "tool";
                   anthropic.APIMessage.Content :=
                     [{| anthropic.Type_ := "tool_result";
                         anthropic.Text := contentStr;
                         anthropic.ID := "";
                         anthropic.ToolUseID := toolCallID;
                         anthropic.Name := "";
                         anthropic.Input := "";
                         anthropic.Content := structuredContent |}];
                   anthropic.APIMessage.Model := "";
                   anthropic.APIMessage.StopReason := None;
                   anthropic.APIMessage.StopSequence := None;
                   anthropic.APIMessage.Usage_ :=
                     {| anthropic.InputTokens := 0;
                        anthropic.OutputTokens := 0 |} |} |}),
   None).

Definition SupportsTools : bool := true.

Definition Name_ : string := "anthropic".

End Provider.

End anthropic_provider.

(** ** Package ollama: the provider *)

Module ollama_provider.

Section Provider.
Context `{Libraries}.

Definition CreateToolResponse (toolCallID : string) (content : any)
  : option llm.Message * option error :=
  let r :=
    match content with
    | AString v => inl v
    | v =>
        match json_Marshal v with
        | inr err => inr ("error marshaling tool response: " +:+ err)
        | inl bytes => inl bytes
        end
    end in
  match r with
  | inr err => (None, Some err)
  | inl contentStr =>
      (Some (llm.OllamaMessage
               {| ollama.Message :=
                    {| api.Role := "tool";
                       api.Content := contentStr;
                       api.ToolCalls := [] |};
                  ollama.ToolCallID := toolCallID |}),
       None)
  end.

Definition Name_ : string := "ollama".

End Provider.

End ollama_provider.

(** ** Package google: the provider *)

Module google_provider.

(** The mutable state of a [Provider]: the tools of the model, the
    history of the chat session and the tool-call counter. *)
Record Provider := {
  model_Tools : list genai.Tool;
  chat_History : list genai.Content;
  toolCallID : Z
}.

(** What [NewProvider] returns once the vendor client is created. *)
Definition NewProvider : Provider :=
  {| model_Tools := []; chat_History := []; toolCallID := 0 |}.

Definition toType (typ : string) : genai.Type_ :=
  if String.eqb typ "string" then genai.TypeString
  else if String.eqb typ "boolean" then genai.TypeBoolean
  else if String.eqb typ "object" then genai.TypeObject
  else if String.eqb typ "array" then genai.TypeArray
  else genai.TypeUnspecified.

(** A [range] loop over a map whose body may panic, given the outcome
    of the body at every key: the loop panics when an iteration
    does. *)
Definition rangeMap {B} (m : gmap string (option B))
  : option (gmap string B) :=
  if decide (map_Forall (λ _ o, is_Some o) m)
  then Some (omap id m)
  else None.

(** [propertyToGoogleSchema(prop.(map[string]any))]: the recursion is
    on the value [prop]; [None] is the panic of a failed type
    assertion. *)
Fixpoint propertyOf (prop : any) : option genai.Schema :=
  match prop with
  | AMap properties =>
      typ ← asString (index properties "type");
      let desc :=
        match asString (index properties "description") with
        | Some desc => desc
        | None => ""
        end in
      match toType typ with
      | genai.TypeObject =>
          objectProperties ←
            default None
              (((λ a, match a with
                      | AMap objectProperties =>
                          rangeMap (propertyOf <$> objectProperties)
                      | _ => None
                      end) <$> properties) !! "properties");
          Some {| genai.Type__ := genai.TypeObject;
                  genai.Format := "";
                  genai.Description := desc;
                  genai.Nullable := false;
                  genai.Enum := [];
                  genai.Items := None;
                  genai.Properties := objectProperties;
                  genai.Required := [] |}
      | genai.TypeArray =>
          items ← default None ((propertyOf <$> properties) !! "items");
          Some {| genai.Type__ := genai.TypeArray;
                  genai.Format := "";
                  genai.Description := desc;
                  genai.Nullable := false;
                  genai.Enum := [];
                  genai.Items := Some items;
                  genai.Properties := ∅;
                  genai.Required := [] |}
      | ty =>
          Some {| genai.Type__ := ty;
                  genai.Format := "";
                  genai.Description := desc;
                  genai.Nullable := false;
                  genai.Enum := [];
                  genai.Items := None;
                  genai.Properties := ∅;
                  genai.Required := [] |}
      end
  | _ => None
  end.

Definition propertyToGoogleSchema (properties : gmap string any)
  : option genai.Schema :=
  propertyOf (AMap properties).

Definition unused : genai.Schema :=
  {| genai.Type__ := genai.TypeInteger;
     genai.Format := "";
     genai.Description := "";
     genai.Nullable := true;
     genai.Enum := [];
     genai.Items := None;
     genai.Properties := ∅;
     genai.Required := [] |}.

Definition translateToGoogleSchema (schema : llm_types.Schema)
  : option genai.Schema :=
  properties ← rangeMap (propertyOf <$> llm_types.Properties schema);
  if len (map_to_list properties) =? 0 then
    Some {| genai.Type__ := toType (llm_types.Type_ schema);
            genai.Format := "";
            genai.Description := "";
            genai.Nullable := true;
            genai.Enum := [];
            genai.Items := None;
            genai.Properties := <["unused" := unused]> properties;
            genai.Required := llm_types.Required schema |}
  else
    Some {| genai.Type__ := toType (llm_types.Type_ schema);
            genai.Format := "";
            genai.Description := "";
            genai.Nullable := false;
            genai.Enum := [];
            genai.Items := None;
            genai.Properties := properties;
            genai.Required := llm_types.Required schema |}.

Section Provider.
Context `{Libraries}.

(** The history turns one prior message contributes. *)
Definition historyOf (msg : llm.Message) : Go (list genai.Content) :=
  calls <- llm.Message_ToolCalls msg ;;
  hist1 <-
    go_mapM
      (λ call,
         role <- llm.Message_Role msg ;;
         go_ret {| genai.Role := role;
                   genai.Parts :=
                     [genai.PartFunctionCall
                        {| genai.Name := llm.ToolCall_Name call;
                           genai.Args := llm.ToolCall_Arguments call |}]
                |})
      calls ;;
  isToolResponse <- llm.IsToolResponse msg ;;
  hist2 <-
    (if isToolResponse then
       match msg with
       | llm.HistoryMessage historyMsg =>
           go_mapM
             (λ block,
                role <- llm.Message_Role msg ;;
                go_ret {| genai.Role := role;
                          genai.Parts :=
                            [genai.Text (history.Text block)] |})
             (filter
                (λ block, history.Type_ block = "tool_result")
                (history.AContent historyMsg))
       | _ => go_ret []
       end
     else go_ret []) ;;
  content <- llm.Message_Content msg ;;
  let text := strings.TrimSpace content in
  hist3 <-
    (if negb (String.eqb text "") then
       role <- llm.Message_Role msg ;;
       go_ret [{| genai.Role := role;
                  genai.Parts := [genai.Text text] |}]
     else go_ret []) ;;
  go_ret (hist1 ++ hist2 ++ hist3).

Definition toolOf (tool : llm_types.Tool) : option genai.Tool :=
  parameters ← translateToGoogleSchema (llm_types.InputSchema tool);
  Some {| genai.FunctionDeclarations :=
            [{| genai.Name__ := llm_types.Name tool;
                genai.Description_ := llm_types.Description tool;
                genai.Parameters := parameters |}] |}.

(** The end of [SendMessage], after the call of the chat session: the
    decoded message and the advanced counter, or the error. *)
Definition decodeResponse (p : Provider)
    (r : genai.GenerateContentResponse + error)
  : Provider * (option llm.Message * option error) :=
  match r with
  | inr err => (p, (None, Some err))
  | inl resp =>
      match genai.Candidates resp with
      | [] => (p, (None, Some "no response from model"))
      | candidate :: _ =>
          let m := {| google.Candidate := candidate;
                      google.toolCallID_ := toolCallID p |} in
          let p :=
            {| model_Tools := model_Tools p;
               chat_History := chat_History p;
               toolCallID :=
                 int_add (toolCallID p)
                   (len (genai.Candidate_FunctionCalls
                           (google.Candidate m))) |} in
          (p, (Some (llm.GoogleMessage m), None))
      end
  end.

(** [SendMessage]; [chat_SendMessage] is the vendor's chat session,
    called with the tools and the history the adapter has installed.
    The session appends the exchanged turns to its own history, which
    the adapter overwrites at its next call: the state keeps what the
    adapter writes. *)
Definition SendMessage (p : Provider)
    (chat_SendMessage :
       list genai.Tool → list genai.Content →
       genai.GenerateContentResponse + error)
    (prompt : string) (messages : list llm.Message)
    (tools : list llm_types.Tool)
  : Go (Provider * (option llm.Message * option error)) :=
  hists <- go_mapM historyOf messages ;;
  let hist := concat hists in
  modelTools <- must (mapM toolOf tools) ;;
  let p := {| model_Tools := modelTools;
              chat_History := hist;
              toolCallID := toolCallID p |} in
  go_ret (decodeResponse p (chat_SendMessage modelTools hist)).

(** The stub of the source: no message and no error. *)
Definition CreateToolResponse (p : Provider) (toolCallID : string)
    (content : any) : option llm.Message * option error :=
  (None, None).

Definition SupportsTools (p : Provider) : bool := true.

Definition Name_ (p : Provider) : string := "Google".

End Provider.

End google_provider.

(** ** The statements of the specification *)

(** Definitions that follow the words of the specification, to be
    compared with the code above. *)
Module spec.

(** A text block, as the stored history holds it. *)
Definition textBlock (text : string) : history.ContentBlock :=
  {| history.Type_ := "text"; history.Text := text; history.ID := "";
     history.ToolUseID := ""; history.Name := ""; history.Input := "";
     history.Content := ANil |}.

(** The text fields of the text-type blocks of a turn, in block
    order. *)
Definition textsOf (m : history.HistoryMessage) : list string :=
  history.Text <$>
    filter (λ block, history.Type_ block = "text") (history.AContent m).

(** "Joined with a single space and trimmed". *)
Definition history_Content (m : history.HistoryMessage) : string :=
  strings.TrimSpace (strings.Join (textsOf m) " ").

End spec.

(** ** A small instance of the libraries *)

(** An instance of [Libraries] on which the model can be run: it decodes
    and encodes the few JSON documents used in the examples of this file
    as [encoding/json] does, and treats every other text as invalid and
    every other value as unsupported. *)
Module sample.

Definition quote (s : string) : string :=
  String "034"%char s +:+ String "034"%char "".

(** The document [{"location":"Paris"}]. *)
Definition paris : string :=
  "{" +:+ quote "location" +:+ ":" +:+ quote "Paris" +:+ "}".

Definition Marshal (x : any) : string + error :=
  match x with
  | ANil => inl "null"
  | ABool true => inl "true"
  | ABool false => inl "false"
  | ASlice [] => inl "[]"
  | AMap m =>
      match map_to_list m with
      | [] => inl "{}"
      | [("location", AString "Paris")] => inl paris
      | _ => inr "json: unsupported value"
      end
  | _ => inr "json: unsupported value"
  end.

Definition decode (data : string) : option any :=
  if String.eqb data "null" then Some ANil
  else if String.eqb data "{}" then Some (AMap ∅)
  else if String.eqb data "[]" then Some (ASlice [])
  else if String.eqb data paris
       then Some (AMap {["location" := AString "Paris"]})
  else None.

Definition libraries : Libraries :=
  {| json_Marshal := Marshal;
     json_decode := decode;
     fmt_value := λ _, "?";
     time_UnixNano := λ n, 1700000000000000000 + Z.of_nat n |}.

End sample.

(** The raw arguments a tool call stores, for the three kinds of tool
    call that keep their arguments as JSON text. *)
Definition rawArguments (t : llm.ToolCall) : option string :=
  match t with
  | llm.HistoryToolCall t => Some (history.args t)
  | llm.OpenAIToolCall t =>
      Some (openai.Arguments (openai.Function (openai.Call t)))
  | llm.AnthropicToolCall t => Some (anthropic.args t)
  | llm.GoogleToolCall _ | llm.OllamaToolCall _ => None
  end.

(** The number of constructors of a value: the measure of the recursion
    of the schema translation. *)
Fixpoint any_size (x : any) : nat :=
  match x with
  | ASlice l => S (foldr (λ y n, any_size y + n)%nat 0%nat l)
  | AMap m => S (map_fold (λ _ y n, any_size y + n)%nat 0%nat m)
  | _ => 1%nat
  end.

(** The property descriptions the Google schema translation accepts: a
    string "type" entry; for an object type a "properties" map whose
    values are maps that are accepted in turn; for an array type an
    "items" map that is accepted in turn. *)
Inductive wellFormed : gmap string any → Prop :=
| wellFormed_object (properties objectProperties : gmap string any) :
    properties !! "type" = Some (AString "object") →
    properties !! "properties" = Some (AMap objectProperties) →
    (∀ name prop, objectProperties !! name = Some prop →
       ∃ m, prop = AMap m ∧ wellFormed m) →
    wellFormed properties
| wellFormed_array (properties itemProperties : gmap string any) :
    properties !! "type" = Some (AString "array") →
    properties !! "items" = Some (AMap itemProperties) →
    wellFormed itemProperties →
    wellFormed properties
| wellFormed_other (properties : gmap string any) (typ : string) :
    properties !! "type" = Some (AString typ) →
    typ ≠ "object" → typ ≠ "array" →
    wellFormed properties.

Definition wellFormedSchema (schema : llm_types.Schema) : Prop :=
  ∀ name prop, llm_types.Properties schema !! name = Some prop →
    ∃ m, prop = AMap m ∧ wellFormed m.

(** The schema of the tool [get_weather(location: string)] and a schema
    with a nested array of objects, for the examples. *)
Definition stringProperty : any := AMap {["type" := AString "string"]}.

Definition weatherSchema : llm_types.Schema :=
  {| llm_types.Type_ := "object";
     llm_types.Properties := {["location" := stringProperty]};
     llm_types.Required := ["location"] |}.

Definition nestedSchema : llm_types.Schema :=
  {| llm_types.Type_ := "object";
     llm_types.Properties :=
       {["stops" :=
           AMap (<["type" := AString "array"]>
                   {["items" :=
                       AMap (<["type" := AString "object"]>
                               {["properties" :=
                                   AMap {["city" := stringProperty]}]})]})]};
     llm_types.Required := [] |}.

Definition noArgumentSchema : llm_types.Schema :=
  {| llm_types.Type_ := "object";
     llm_types.Properties := ∅;
     llm_types.Required := [] |}.

(** A schema whose property is described by a string, not by a map. *)
Definition brokenSchema : llm_types.Schema :=
  {| llm_types.Type_ := "object";
     llm_types.Properties := {["location" := AString "string"]};
     llm_types.Required := [] |}.

(** The ids of the tool calls of a decoded Google message, and the ids
    Tool<c>, ..., Tool<c+k-1>. *)
Definition toolCallIDs (m : google.Message) : list string :=
  google.ToolCall_ID <$> google.Message_ToolCalls m.

Definition toolIDs (c k : Z) : list string :=
  (λ j, "Tool<" +:+ fmt_d (c + j) +:+ ">") <$> seqZ 0 k.

(** A candidate holding the given function calls, the vendor response
    made of it, and a chat session that answers with a given response. *)
Definition functionCallCandidate (calls : list genai.FunctionCall)
  : genai.Candidate :=
  {| genai.Index := 0;
     genai.Content_ :=
       Some {| genai.Parts := genai.PartFunctionCall <$> calls;
               genai.Role := "model" |} |}.

Definition functionCallResponse (calls : list genai.FunctionCall)
  : genai.GenerateContentResponse :=
  {| genai.Candidates := [functionCallCandidate calls] |}.

Definition answering (resp : genai.GenerateContentResponse)
  : list genai.Tool → list genai.Content →
    genai.GenerateContentResponse + error :=
  λ _ _, inl resp.

Definition weatherCall (city : string) : genai.FunctionCall :=
  {| genai.Name := "get_weather";
     genai.Args := {["location" := AString city]} |}.

(** A computation that never panics. *)
Definition returns {A} (m : Go A) : Prop := ∀ t, is_Some (m t).

(** The messages on which the methods of the interface do not panic:
    a decoded Google message must carry a content. *)
Definition hasContent (msg : llm.Message) : Prop :=
  match msg with
  | llm.GoogleMessage m => is_Some (genai.Content_ (google.Candidate m))
  | _ => True
  end.

(** ** Package llm: the Provider interface *)

(** The interface [llm.Provider]: the four adapters implement it; the
    configuration of the OpenAI adapter and the state of the Google
    adapter are the provider value. *)
Inductive Provider :=
| OpenAIProvider (p : openai_provider.Provider)
| AnthropicProvider
| GoogleProvider (p : google_provider.Provider)
| OllamaProvider.

Definition CreateToolResponse `{Libraries} (p : Provider)
    (toolCallID : string) (content : any)
  : option llm.Message * option error :=
  match p with
  | OpenAIProvider p => openai_provider.CreateToolResponse p toolCallID content
  | AnthropicProvider => anthropic_provider.CreateToolResponse toolCallID content
  | GoogleProvider p => google_provider.CreateToolResponse p toolCallID content
  | OllamaProvider => ollama_provider.CreateToolResponse toolCallID content
  end.

(** Content that is a string or that [json.Marshal] encodes. *)
Definition serialisable `{Libraries} (content : any) : Prop :=
  is_Some (asString content) ∨ ∃ s, json_Marshal content = inl s.

(** "A Message with non-empty toolCalls always has role assistant". *)
Definition roleInvariant `{Libraries} (m : llm.Message) : Prop :=
  ∀ t calls t',
    llm.Message_ToolCalls m t = Some (calls, t') → calls ≠ [] →
    ∃ t'', llm.Message_Role m t' = Some ("assistant", t'').

(** A stored tool_use block and a stored user turn that holds one. *)
Definition toolUseBlock : history.ContentBlock :=
  {| history.Type_ := "tool_use"; history.Text := "";
     history.ID := "call_1"; history.ToolUseID := "";
     history.Name := "get_weather"; history.Input := sample.paris;
     history.Content := ANil |}.

Definition userToolUse : llm.Message :=
  llm.HistoryMessage
    {| history.ARole := "user"; history.AContent := [toolUseBlock] |}.

(** The tool-call entry the OpenAI adapter emits for a tool call whose
    arguments encode as [args]. *)
Definition toolCallEntry `{Libraries} (call : llm.ToolCall) (args : string)
  : openai.ToolCall :=
  {| openai.ID := llm.ToolCall_ID call;
     openai.Type_ := "function";
     openai.Function := {| openai.Name := llm.ToolCall_Name call;
                           openai.Arguments := args |} |}.

(** A stored assistant turn that speaks and calls a tool, and a stored
    tool-result turn without any text. *)
Definition assistantToolUse : llm.Message :=
  llm.HistoryMessage
    {| history.ARole := "assistant";
       history.AContent := [spec.textBlock "Let me check"; toolUseBlock] |}.

Definition emptyToolResult : llm.Message :=
  llm.HistoryMessage
    {| history.ARole := "user";
       history.AContent :=
         [{| history.Type_ := "tool_result"; history.Text := "";
             history.ID := ""; history.ToolUseID := "call_1";
             history.Name := ""; history.Input := "";
             history.Content := ANil |}] |}.

(** *** The content of an Anthropic message, block by block *)

(** What the array items of a tool_result block contribute. *)
Definition arrayContribution `{Libraries} (content : any) : list string :=
  match asSlice content with
  | Some contentArray => anthropic.contentArrayItems [] contentArray
  | None => []
  end.

(** The blocks that can only contribute their raw [Text]: a tool_result
    whose content is not a string, whose array items contribute nothing,
    and whose [Text] is not empty. *)
Definition fallsBack `{Libraries} (block : anthropic.ContentBlock) : bool :=
  negb (String.eqb (anthropic.Type_ block) "text")
  && String.eqb (anthropic.Type_ block) "tool_result"
  && bool_decide (asString (anthropic.Content block) = None)
  && bool_decide (arrayContribution (anthropic.Content block) = [])
  && negb (String.eqb (anthropic.Text block) "").

(** What one block contributes when it is looked at on its own. *)
Definition contribution `{Libraries} (block : anthropic.ContentBlock)
  : list string :=
  if String.eqb (anthropic.Type_ block) "text" then [anthropic.Text block]
  else if String.eqb (anthropic.Type_ block) "tool_result" then
    match asString (anthropic.Content block) with
    | Some contentStr => [contentStr]
    | None =>
        if fallsBack block then [anthropic.Text block]
        else arrayContribution (anthropic.Content block)
    end
  else [].

(** Every block that falls back on its raw [Text] comes before any
    contribution. *)
Definition fallbackBeforeContributions `{Libraries}
    (blocks : list anthropic.ContentBlock) : Prop :=
  ∀ pre block post,
    blocks = pre ++ block :: post → fallsBack block = true →
    concat (contribution <$> pre) = [].

(** The contribution of a block in the words of the specification: for
    a tool_result, the content when it is a string, else the "text"
    fields of its array of maps, else the raw [Text]. *)
Definition textFields `{Libraries} (content : any) : list string :=
  match asSlice content with
  | Some contentArray =>
      omap (λ item, contentMap ← asMap item;
                    text ← contentMap !! "text";
                    Some (fmt_Sprint text))
        contentArray
  | None => []
  end.

Definition claimedContribution `{Libraries} (block : anthropic.ContentBlock)
  : list string :=
  if String.eqb (anthropic.Type_ block) "text" then [anthropic.Text block]
  else if String.eqb (anthropic.Type_ block) "tool_result" then
    match asString (anthropic.Content block) with
    | Some contentStr => [contentStr]
    | None =>
        match textFields (anthropic.Content block) with
        | [] => if String.eqb (anthropic.Text block) "" then []
                else [anthropic.Text block]
        | texts => texts
        end
    end
  else [].

Definition claimedContent `{Libraries} (m : anthropic.Message) : string :=
  strings.TrimSpace
    (strings.Join
       (concat (claimedContribution <$> anthropic.APIMessage.Content
                                          (anthropic.Msg m)))
       " ").

(** Anthropic messages for the examples. *)
Definition anthropicMessage (blocks : list anthropic.ContentBlock)
  : anthropic.Message :=
  {| anthropic.Msg :=
       {| anthropic.APIMessage.ID := "msg_1";
          anthropic.APIMessage.Type_ := "message";
          anthropic.APIMessage.Role := "assistant";
          anthropic.APIMessage.Content := blocks;
          anthropic.APIMessage.Model := "claude";
          anthropic.APIMessage.StopReason := None;
          anthropic.APIMessage.StopSequence := None;
          anthropic.APIMessage.Usage_ :=
            {| anthropic.InputTokens := 0; anthropic.OutputTokens := 0 |} |}
  |}.

Definition anthropicText (text : string) : anthropic.ContentBlock :=
  {| anthropic.Type_ := "text"; anthropic.Text := text; anthropic.ID := "";
     anthropic.ToolUseID := ""; anthropic.Name := ""; anthropic.Input := "";
     anthropic.Content := ANil |}.

Definition anthropicToolResult (text : string) (content : any)
  : anthropic.ContentBlock :=
  {| anthropic.Type_ := "tool_result"; anthropic.Text := text;
     anthropic.ID := ""; anthropic.ToolUseID := "toolu_1";
     anthropic.Name := ""; anthropic.Input := "";
     anthropic.Content := content |}.

(** ** The transport clients: configuration *)

(** An [*http.Client] is known by a number; [http.DefaultClient] is one
    of them. *)
Definition http_DefaultClient : nat := 0%nat.

(** The body of [Client.Init], shared word for word by the OpenAI and the
    Anthropic client but for the default URL. *)
Definition normalizeBaseURL (default baseURL : string) : string :=
  if String.eqb baseURL "" then default
  else if negb (strings.HasSuffix baseURL "/v1")
       then strings.TrimSuffix baseURL "/" +:+ "/v1"
       else baseURL.

Module openai_client.

Record Client := {
  apiKey : string;
  baseURL : string;
  client : nat
}.

(** [Init] overwrites the three fields of its receiver. *)
Definition Init (apiKey : string) (baseURL : string) (client : option nat)
  : Client :=
  {| apiKey := apiKey;
     baseURL := normalizeBaseURL "https://api.openai.com/v1" baseURL;
     client := default http_DefaultClient client |}.

Definition NewClient (apiKey : string) (baseURL : string)
    (client : option nat) : Client :=
  Init apiKey baseURL client.

End openai_client.

Module anthropic_client.

Record Client := {
  apiKey : string;
  client : nat;
  baseURL : string
}.

Definition Init (apiKey : string) (baseURL : string) (client : option nat)
  : Client :=
  {| apiKey := apiKey;
     baseURL := normalizeBaseURL "https://api.anthropic.com/v1" baseURL;
     client := default http_DefaultClient client |}.

Definition NewClient (apiKey : string) (baseURL : string)
    (client : option nat) : Client :=
  Init apiKey baseURL client.

End anthropic_client.

(** ** Package anthropic: building the request *)

Module anthropic_send.

Record MessageParam := {
  Role : string;
  Content : list anthropic.ContentBlock
}.

Record InputSchema := {
  Type_ : string;
  Properties : gmap string any;
  Required : list string
}.

Record Tool := {
  Name : string;
  Description : string;
  InputSchema_ : InputSchema
}.

Record CreateRequest := {
  Model : string;
  Messages : list MessageParam;
  MaxTokens : Z;
  Tools : list Tool
}.

Record Provider := {
  client : anthropic_client.Client;
  model : string
}.

Definition NewProvider (apiKey : string) (baseURL : string)
    (client : option nat) (model : string) : Provider :=
  let model :=
    if String.eqb model "" then "claude-3-5-sonnet-20240620" else model in
  {| model := model;
     client := anthropic_client.Init apiKey baseURL client |}.

(** A block of which only the given fields are set. *)
Definition textBlock (text : string) : anthropic.ContentBlock :=
  {| anthropic.Type_ := "text"; anthropic.Text := text; anthropic.ID := "";
     anthropic.ToolUseID := ""; anthropic.Name := ""; anthropic.Input := "";
     anthropic.Content := ANil |}.

Definition toolUseBlock (id name input : string) : anthropic.ContentBlock :=
  {| anthropic.Type_ := "tool_use"; anthropic.Text := ""; anthropic.ID := id;
     anthropic.ToolUseID := ""; anthropic.Name := name;
     anthropic.Input := input; anthropic.Content := ANil |}.

Definition toolResultBlock (toolUseID : string) (content : any)
  : anthropic.ContentBlock :=
  {| anthropic.Type_ := "tool_result"; anthropic.Text := "";
     anthropic.ID := ""; anthropic.ToolUseID := toolUseID;
     anthropic.Name := ""; anthropic.Input := "";
     anthropic.Content := content |}.

Section Provider.
Context `{Libraries}.

(** The tool_use block of a tool call; the error of [json.Marshal] is
    dropped and leaves the input nil. *)
Definition toolUseOf (call : llm.ToolCall) : anthropic.ContentBlock :=
  let input :=
    match json_Marshal (AMap (llm.ToolCall_Arguments call)) with
    | inl input => input
    | inr _ => ""
    end in
  toolUseBlock (llm.ToolCall_ID call) (llm.ToolCall_Name call) input.

(** The tool_result blocks of a stored turn, copied with their id and
    their structured content. *)
Definition storedToolResults (blocks : list history.ContentBlock)
  : list anthropic.ContentBlock :=
  fold_left
    (λ content block,
       if String.eqb (history.Type_ block) "tool_result"
       then content ++ [toolResultBlock (history.ToolUseID block)
                          (history.Content block)]
       else content)
    blocks [].

(** The body of the loop over the prior messages. *)
Definition convertMessage (msg : llm.Message) : Go MessageParam :=
  c <- llm.Message_Content msg ;;
  let textContent := strings.TrimSpace c in
  let content :=
    if negb (String.eqb textContent "") then [textBlock textContent]
    else [] in
  calls <- llm.Message_ToolCalls msg ;;
  let content := content ++ (toolUseOf <$> calls) in
  r <- llm.Message_ToolResponse msg ;;
  let '(toolCallID, ok) := r in
  content <-
    (if ok then
       match msg with
       | llm.HistoryMessage historyMsg =>
           go_ret (content
                     ++ storedToolResults (history.AContent historyMsg))
       | _ =>
           c <- llm.Message_Content msg ;;
           go_ret (content ++ [toolResultBlock toolCallID (AString c)])
       end
     else go_ret content) ;;
  role <- llm.Message_Role msg ;;
  go_ret {| Role := role; Content := content |}.

Definition convertTool (tool : llm_types.Tool) : Tool :=
  {| Name := llm_types.Name tool;
     Description := llm_types.Description tool;
     InputSchema_ :=
       {| Type_ := llm_types.Type_ (llm_types.InputSchema tool);
          Properties := llm_types.Properties (llm_types.InputSchema tool);
          Required := llm_types.Required (llm_types.InputSchema tool) |} |}.

(** The request [SendMessage] hands to the transport. *)
Definition buildRequest (p : Provider) (prompt : string)
    (messages : list llm.Message) (tools : list llm_types.Tool)
  : Go CreateRequest :=
  anthropicMessages <- go_mapM convertMessage messages ;;
  let anthropicMessages :=
    if negb (String.eqb prompt "")
    then anthropicMessages
           ++ [{| Role := "user"; Content := [textBlock prompt] |}]
    else anthropicMessages in
  go_ret {| Model := model p;
            Messages := anthropicMessages;
            MaxTokens := 4096;
            Tools := convertTool <$> tools |}.

(** [SendMessage]; [client_SendMessage] is the transport client. *)
Definition SendMessage (p : Provider)
    (client_SendMessage : CreateRequest → anthropic.APIMessage.t + error)
    (prompt : string) (messages : list llm.Message)
    (tools : list llm_types.Tool)
  : Go (option llm.Message * option error) :=
  req <- buildRequest p prompt messages tools ;;
  match client_SendMessage req with
  | inr err => go_ret (None, Some err)
  | inl resp =>
      go_ret (Some (llm.AnthropicMessage {| anthropic.Msg := resp |}), None)
  end.

End Provider.

End anthropic_send.

(** ** Package ollama: building the request *)

Module ollama_send.

(** The anonymous struct of a property of [api.ToolFunction]. *)
Record Property := {
  Type_ : string;
  Description : string;
  Enum : list string
}.

Record Parameters := {
  Type__ : string;
  Required : list string;
  Properties : gmap string Property
}.

Record ToolFunction := {
  Name : string;
  Description_ : string;
  Parameters_ : Parameters
}.

Record Tool := {
  Type___ : string;
  Function : ToolFunction
}.

Record ChatRequest := {
  Model : string;
  Messages : list api.Message;
  Tools : list Tool;
  Stream : option bool
}.

Record ChatResponse := {
  Message : api.Message;
  Done : bool
}.

Record Provider := {
  model : string
}.

(** [getString]. *)
Definition getString (m : gmap string any) (key : string) : string :=
  match asString (index m key) with
  | Some v => v
  | None => ""
  end.

(** The strings among the items of an "enum" array. *)
Definition enumStrings (enumRaw : list any) : list string :=
  fold_left
    (λ enum e,
       match asString e with
       | Some str => enum ++ [str]
       | None => enum
       end)
    enumRaw [].

(** What [convertProperties] stores for one property, when it stores
    one. *)
Definition convertProperty (prop : any) : option Property :=
  match asMap prop with
  | Some propMap =>
      Some {| Type_ := getString propMap "type";
              Description := getString propMap "description";
              Enum :=
                match asSlice (index propMap "enum") with
                | Some enumRaw => enumStrings enumRaw
                | None => []
                end |}
  | None => None
  end.

(** [convertProperties]. *)
Definition convertProperties (props : gmap string any)
  : gmap string Property :=
  omap convertProperty props.

Definition convertTool (tool : llm_types.Tool) : Tool :=
  {| Type___ := "function";
     Function :=
       {| Name := llm_types.Name tool;
          Description_ := llm_types.Description tool;
          Parameters_ :=
            {| Type__ := llm_types.Type_ (llm_types.InputSchema tool);
               Required := llm_types.Required (llm_types.InputSchema tool);
               Properties :=
                 convertProperties
                   (llm_types.Properties (llm_types.InputSchema tool)) |}
       |} |}.

(** The text of the first tool_result block of a stored turn. *)
Fixpoint firstToolResultText (blocks : list history.ContentBlock) : string :=
  match blocks with
  | [] => ""
  | block :: rest =>
      if String.eqb (history.Type_ block) "tool_result"
      then history.Text block
      else firstToolResultText rest
  end.

Section Provider.
Context `{Libraries}.

(** The tool calls an assistant message carries: those with a name, with
    their arguments as they are. *)
Definition toolCallsOf (calls : list llm.ToolCall) : list api.ToolCall :=
  fold_left
    (λ toolCalls call,
       if negb (String.eqb (llm.ToolCall_Name call) "")
       then toolCalls
              ++ [{| api.Function :=
                       {| api.Name := llm.ToolCall_Name call;
                          api.Arguments := llm.ToolCall_Arguments call |} |}]
       else toolCalls)
    calls [].

(** The body of the loop over the prior messages: the message it
    appends, if it appends one. *)
Definition convertMessage (msg : llm.Message) : Go (option api.Message) :=
  isToolResponse <- llm.IsToolResponse msg ;;
  if isToolResponse then
    let content :=
      match msg with
      | llm.HistoryMessage historyMsg =>
          firstToolResultText (history.AContent historyMsg)
      | _ => ""
      end in
    content <-
      (if String.eqb content "" then llm.Message_Content msg
       else go_ret content) ;;
    if String.eqb content "" then go_ret None
    else go_ret (Some {| api.Role := "tool";
                         api.Content := content;
                         api.ToolCalls := [] |})
  else
    c <- llm.Message_Content msg ;;
    empty <-
      (if String.eqb c "" then
         calls <- llm.Message_ToolCalls msg ;;
         go_ret (len calls =? 0)
       else go_ret false) ;;
    if empty then go_ret None
    else
      role <- llm.Message_Role msg ;;
      content <- llm.Message_Content msg ;;
      role' <- llm.Message_Role msg ;;
      toolCalls <-
        (if String.eqb role' "assistant" then
           calls <- llm.Message_ToolCalls msg ;;
           go_ret (toolCallsOf calls)
         else go_ret []) ;;
      go_ret (Some {| api.Role := role;
                      api.Content := content;
                      api.ToolCalls := toolCalls |}).

(** The request [SendMessage] hands to the client. *)
Definition buildRequest (p : Provider) (prompt : string)
    (messages : list llm.Message) (tools : list llm_types.Tool)
  : Go ChatRequest :=
  converted <- go_mapM convertMessage messages ;;
  let ollamaMessages := omap id converted in
  let ollamaMessages :=
    if negb (String.eqb prompt "")
    then ollamaMessages
           ++ [{| api.Role := "user"; api.Content := prompt;
                  api.ToolCalls := [] |}]
    else ollamaMessages in
  go_ret {| Model := model p;
            Messages := ollamaMessages;
            Tools := convertTool <$> tools;
            Stream := Some false |}.

(** The callback handed to [client.Chat], run over the responses the
    client delivers: it keeps the message of a response that is done. *)
Definition lastDone (responses : list ChatResponse) : api.Message :=
  fold_left
    (λ response r, if Done r then Message r else response)
    responses
    {| api.Role := ""; api.Content := ""; api.ToolCalls := [] |}.

(** [SendMessage]; [client_Chat] is the vendor client: the responses it
    delivers to the callback, and its error if it ends with one. *)
Definition SendMessage (p : Provider)
    (client_Chat : ChatRequest → list ChatResponse * option error)
    (prompt : string) (messages : list llm.Message)
    (tools : list llm_types.Tool)
  : Go (option llm.Message * option error) :=
  req <- buildRequest p prompt messages tools ;;
  let '(responses, err) := client_Chat req in
  match err with
  | Some err => go_ret (None, Some err)
  | None =>
      go_ret (Some (llm.OllamaMessage
                      {| ollama.Message := lastDone responses;
                         ollama.ToolCallID := "" |}),
              None)
  end.

End Provider.

End ollama_send.

(** ** What the methods of a message return *)

(** The values [Role()], [Content()] and [ToolResponse()] return on a
    message that carries its content; they do not depend on the clock. *)
Definition roleOf (msg : llm.Message) : string :=
  match msg with
  | llm.HistoryMessage m => history.HistoryMessage_Role m
  | llm.OpenAIMessage m => openai.Message_Role m
  | llm.AnthropicMessage m => anthropic.Message_Role m
  | llm.GoogleMessage m =>
      match genai.Content_ (google.Candidate m) with
      | Some content => genai.Role content
      | None => ""
      end
  | llm.OllamaMessage m => ollama.OllamaMessage_Role m
  end.

Definition contentOf `{Libraries} (msg : llm.Message) : string :=
  match msg with
  | llm.HistoryMessage m => history.HistoryMessage_Content m
  | llm.OpenAIMessage m => openai.Message_Content m
  | llm.AnthropicMessage m => anthropic.Message_Content m
  | llm.GoogleMessage m =>
      match genai.Content_ (google.Candidate m) with
      | Some content =>
          fold_left
            (λ sb part,
               match part with
               | genai.Text text => sb +:+ text
               | _ => sb
               end)
            (genai.Parts content) ""
      | None => ""
      end
  | llm.OllamaMessage m => ollama.OllamaMessage_Content m
  end.

Definition toolResponseOf (msg : llm.Message) : string * bool :=
  match msg with
  | llm.HistoryMessage m => history.HistoryMessage_ToolResponse m
  | llm.OpenAIMessage m => openai.Message_ToolResponse m
  | llm.AnthropicMessage m => anthropic.Message_ToolResponse m
  | llm.GoogleMessage m =>
      match genai.Content_ (google.Candidate m) with
      | Some content => google.firstFunctionResponse m (genai.Parts content)
      | None => ("", false)
      end
  | llm.OllamaMessage m => ollama.OllamaMessage_ToolResponse m
  end.

(** The name and the arguments of a tool call: all of it but the id. *)
Definition callShape `{Libraries} (call : llm.ToolCall)
  : string * gmap string any :=
  (llm.ToolCall_Name call, llm.ToolCall_Arguments call).

(** The names and arguments of the tool calls of a message; the ids of an
    Ollama message are stamped anew at every call of [ToolCalls()]. *)
Definition callShapesOf `{Libraries} (msg : llm.Message)
  : list (string * gmap string any) :=
  match msg with
  | llm.HistoryMessage m =>
      (λ t, callShape (llm.HistoryToolCall t))
        <$> history.HistoryMessage_ToolCalls m
  | llm.OpenAIMessage m =>
      (λ t, callShape (llm.OpenAIToolCall t)) <$> openai.Message_ToolCalls m
  | llm.AnthropicMessage m =>
      (λ t, callShape (llm.AnthropicToolCall t))
        <$> anthropic.Message_ToolCalls m
  | llm.GoogleMessage m =>
      (λ t, callShape (llm.GoogleToolCall t)) <$> google.Message_ToolCalls m
  | llm.OllamaMessage m =>
      (λ call, (api.Name (api.Function call),
                api.Arguments (api.Function call)))
        <$> api.ToolCalls (ollama.Message m)
  end.

(** The shape of the schema the Google adapter makes of a property: at
    every depth only the type, the description, the items and the
    properties are set, and the type is none of the numeric ones. *)
Inductive bareSchema : genai.Schema → Prop :=
| bareSchema_intro (s : genai.Schema) :
    genai.Format s = "" →
    genai.Nullable s = false →
    genai.Enum s = [] →
    genai.Required s = [] →
    genai.Type__ s ≠ genai.TypeNumber →
    genai.Type__ s ≠ genai.TypeInteger →
    (∀ items, genai.Items s = Some items → bareSchema items) →
    (∀ name property,
       genai.Properties s !! name = Some property → bareSchema property) →
    bareSchema s.

(** * Properties *)

(** ** Strings *)

Lemma append_cons (c : ascii) (s t : string) :
  String c s +:+ t = String c (s +:+ t).
Proof. reflexivity. Qed.

Lemma append_nil_r (s : string) : s +:+ "" = s.
Proof.
  induction s as [|c s IH]; [done|]. by rewrite append_cons, IH.
Qed.

Lemma append_assoc (s t u : string) : (s +:+ t) +:+ u = s +:+ (t +:+ u).
Proof.
  induction s as [|c s IH]; [done|]. by rewrite !append_cons, IH.
Qed.

Lemma bytes_append (s t : string) :
  strings.bytes (s +:+ t) = strings.bytes s ++ strings.bytes t.
Proof.
  unfold strings.bytes. induction s as [|c s IH]; [done|].
  rewrite append_cons. cbn. by rewrite IH.
Qed.

Lemma space2_space (c0 : ascii) : strings.space2 c0 " " = false.
Proof. reflexivity. Qed.

Lemma space3_space (c0 c1 : ascii) : strings.space3 c0 c1 " " = false.
Proof. reflexivity. Qed.

(** A trailing blank survives the trimming on the left exactly when
    something else does. *)
Lemma trimLeft_snoc_space (l : list ascii) :
  strings.trimLeft (l ++ [" "%char]) =
  match strings.trimLeft l with
  | [] => []
  | r => r ++ [" "%char]
  end.
Proof.
  remember (length l) as n eqn:Hn.
  revert l Hn. induction (lt_wf n) as [n _ IH]. intros l ->.
  destruct l as [|c0 l1]; [done|].
  cbn [app strings.trimLeft].
  destruct (strings.space1 c0) eqn:E1.
  { apply (IH (length l1)); [cbn; lia | done]. }
  destruct l1 as [|c1 l2].
  { cbn [app]. by rewrite space2_space. }
  cbn [app].
  destruct (strings.space2 c0 c1) eqn:E2.
  { apply (IH (length l2)); [cbn; lia | done]. }
  destruct l2 as [|c2 l3].
  { cbn [app]. by rewrite space3_space. }
  cbn [app].
  destruct (strings.space3 c0 c1 c2) eqn:E3; [|done].
  apply (IH (length l3)); [cbn; lia | done].
Qed.

Lemma trimRight_snoc_space (l : list ascii) :
  strings.trimRight (l ++ [" "%char]) = strings.trimRight l.
Proof. unfold strings.trimRight. by rewrite rev_unit. Qed.

Lemma TrimSpace_append_space (s : string) :
  strings.TrimSpace (s +:+ " ") = strings.TrimSpace s.
Proof.
  unfold strings.TrimSpace. rewrite bytes_append.
  change (strings.bytes " ") with [" "%char].
  rewrite trimLeft_snoc_space.
  destruct (strings.trimLeft (strings.bytes s)) as [|c r]; [done|].
  by rewrite trimRight_snoc_space.
Qed.

(** ** Stored history *)

(** Every element followed by a blank: what the loop of [Content]
    accumulates. *)
Lemma Join_trailing_space (elems : list string) :
  elems ≠ [] →
  foldr (λ e r, e +:+ " " +:+ r) "" elems = strings.Join elems " " +:+ " ".
Proof.
  induction elems as [|e [|e' rest] IH]; intros Hne; [done| |].
  - cbn. by rewrite append_nil_r.
  - cbn [foldr strings.Join]. cbn [foldr] in IH. rewrite IH by done.
    by rewrite !append_assoc.
Qed.

Lemma Content_loop (blocks : list history.ContentBlock) (content : string) :
  fold_left
    (λ content block,
       if String.eqb (history.Type_ block) "text"
       then content +:+ (history.Text block +:+ " ")
       else content)
    blocks content
  = content +:+
    foldr (λ e r, e +:+ " " +:+ r) ""
      (history.Text <$> filter (λ block, history.Type_ block = "text") blocks).
Proof.
  revert content. induction blocks as [|block blocks IH]; intros content.
  - cbn. by rewrite append_nil_r.
  - cbn [fold_left]. rewrite IH, filter_cons.
    destruct (String.eqb_spec (history.Type_ block) "text") as [He|Hne].
    + rewrite decide_True by done. cbn [fmap list_fmap foldr].
      by rewrite !append_assoc.
    + by rewrite decide_False.
Qed.

(** C8: the content of a stored history turn is the text of its text
    blocks, in block order, joined with a single space and trimmed; text
    blocks "a" and "b" give "a b", and a turn without blocks gives the
    empty string. *)
Theorem C8_history_Content_joins_text_blocks :
  (∀ m : history.HistoryMessage,
     history.HistoryMessage_Content m = spec.history_Content m)
  ∧ (∀ role : string,
       history.HistoryMessage_Content
         {| history.ARole := role;
            history.AContent := [spec.textBlock "a"; spec.textBlock "b"] |}
       = "a b")
  ∧ (∀ role : string,
       history.HistoryMessage_Content
         {| history.ARole := role; history.AContent := [] |} = "").
Proof.
  split; [|split; reflexivity].
  intros m. unfold history.HistoryMessage_Content, spec.history_Content,
    spec.textsOf.
  rewrite Content_loop.
  change ("" +:+ ?s) with s.
  destruct (history.Text <$> _) as [|e elems] eqn:E; [done|].
  rewrite Join_trailing_space by done.
  apply TrimSpace_append_space.
Qed.

(** ** Tool-call arguments *)

Lemma json_Unmarshal_map_object `{Libraries} (data : string)
    (m : gmap string any) :
  json_decode data = Some (AMap m) → json_Unmarshal_map data = inl m.
Proof. unfold json_Unmarshal_map. by intros ->. Qed.

Lemma json_Unmarshal_map_other `{Libraries} (data : string) :
  (∀ m, json_decode data ≠ Some (AMap m)) →
  json_Unmarshal_map data = inl ∅ ∨ ∃ err, json_Unmarshal_map data = inr err.
Proof.
  unfold json_Unmarshal_map. intros Hno.
  destruct (json_decode data) as [[]|]; eauto.
  by destruct (Hno m).
Qed.

(** C6: a history, OpenAI or Anthropic tool call whose raw arguments do
    not parse as a JSON object has the empty map as its arguments (the
    decoding error is dropped); when they parse as a JSON object, the
    arguments are exactly that mapping. *)
Theorem C6_Arguments_recover_locally `{Libraries} (t : llm.ToolCall)
    (raw : string) :
  rawArguments t = Some raw →
  (∀ m, json_decode raw = Some (AMap m) → llm.ToolCall_Arguments t = m)
  ∧ ((∀ m, json_decode raw ≠ Some (AMap m)) → llm.ToolCall_Arguments t = ∅).
Proof.
  intros Hraw. split.
  - intros m Hm. apply json_Unmarshal_map_object in Hm.
    destruct t as [t|t|t|t|t]; simplify_eq/=;
      unfold history.HistoryToolCall_Arguments,
        openai.ToolCallWrapper_Arguments, anthropic.ToolCall_Arguments;
      by rewrite Hm.
  - intros Hno. apply json_Unmarshal_map_other in Hno as [Hm|[err Hm]];
      destruct t as [t|t|t|t|t]; simplify_eq/=;
      unfold history.HistoryToolCall_Arguments,
        openai.ToolCallWrapper_Arguments, anthropic.ToolCall_Arguments;
      by rewrite Hm.
Qed.

Lemma C6_Arguments_recover_locally_witness :
  @llm.ToolCall_Arguments sample.libraries
    (llm.HistoryToolCall
       {| history.id := "call_1"; history.name := "get_weather";
          history.args := sample.paris |})
  = {["location" := AString "Paris"]}
  ∧ @llm.ToolCall_Arguments sample.libraries
      (llm.OpenAIToolCall
         {| openai.Call :=
              {| openai.ID := "call_2"; openai.Type_ := "function";
                 openai.Function :=
                   {| openai.Name := "get_weather";
                      openai.Arguments := "{location: Paris" |} |} |})
    = ∅.
Proof.
  split.
  - apply (@C6_Arguments_recover_locally sample.libraries _ sample.paris);
      reflexivity.
  - apply (@C6_Arguments_recover_locally sample.libraries _
             "{location: Paris"); [reflexivity|].
    intros m. discriminate.
Defined.

(** ** The Google schema translation *)

Lemma any_size_lookup (m : gmap string any) (k : string) (x : any) :
  m !! k = Some x → (any_size x < any_size (AMap m))%nat.
Proof.
  intros Hk. cbn [any_size].
  rewrite (map_fold_delete_L _ _ k x m); [lia | intros; lia | done].
Qed.

Lemma rangeMap_Some {B} (m : gmap string (option B)) (r : gmap string B) :
  google_provider.rangeMap m = Some r ↔ m = Some <$> r.
Proof.
  unfold google_provider.rangeMap. split.
  - destruct (decide _) as [Hall|]; [|done]. intros [= <-].
    apply map_eq. intros k. rewrite lookup_fmap, lookup_omap.
    destruct (m !! k) as [o|] eqn:Hk; [|done].
    destruct (Hall k o Hk) as [b ->]. done.
  - intros ->. rewrite decide_True.
    + f_equal. apply map_eq. intros k.
      rewrite lookup_omap, lookup_fmap. by destruct (r !! k).
    + intros k o. rewrite lookup_fmap. destruct (r !! k); naive_solver.
Qed.

Lemma rangeMap_is_Some {B} (m : gmap string (option B)) :
  is_Some (google_provider.rangeMap m) ↔ map_Forall (λ _ o, is_Some o) m.
Proof.
  unfold google_provider.rangeMap.
  destruct (decide _) as [Hall|Hno]; split; try done.
  all: by intros [? ?].
Qed.

Lemma rangeMap_fmap_lookup {A B} (f : A → option B) (m : gmap string A)
    (r : gmap string B) (k : string) :
  google_provider.rangeMap (f <$> m) = Some r → r !! k = m !! k ≫= f.
Proof.
  intros Hr%rangeMap_Some.
  assert ((f <$> m) !! k = (Some <$> r) !! k) as Hk by by rewrite Hr.
  rewrite !lookup_fmap in Hk.
  destruct (m !! k), (r !! k); by simplify_eq/=.
Qed.

Lemma toType_object (typ : string) :
  google_provider.toType typ = genai.TypeObject ↔ typ = "object".
Proof.
  unfold google_provider.toType.
  repeat match goal with
         | |- context [String.eqb typ ?s] =>
             destruct (String.eqb_spec typ s) as [->|?]; [by split|]
         end.
  by split.
Qed.

Lemma toType_array (typ : string) :
  google_provider.toType typ = genai.TypeArray ↔ typ = "array".
Proof.
  unfold google_provider.toType.
  repeat match goal with
         | |- context [String.eqb typ ?s] =>
             destruct (String.eqb_spec typ s) as [->|?]; [by split|]
         end.
  by split.
Qed.

(** [propertyToGoogleSchema] in the shape of the source. *)
Lemma propertyToGoogleSchema_unfold (properties : gmap string any) :
  google_provider.propertyToGoogleSchema properties =
  typ ← asString (index properties "type");
  let desc :=
    match asString (index properties "description") with
    | Some desc => desc
    | None => ""
    end in
  match google_provider.toType typ with
  | genai.TypeObject =>
      objectProperties ← asMap (index properties "properties");
      props ←
        google_provider.rangeMap
          ((λ prop, asMap prop ≫= google_provider.propertyToGoogleSchema)
             <$> objectProperties);
      Some {| genai.Type__ := genai.TypeObject; genai.Format := "";
              genai.Description := desc; genai.Nullable := false;
              genai.Enum := []; genai.Items := None;
              genai.Properties := props; genai.Required := [] |}
  | genai.TypeArray =>
      itemProperties ← asMap (index properties "items");
      items ← google_provider.propertyToGoogleSchema itemProperties;
      Some {| genai.Type__ := genai.TypeArray; genai.Format := "";
              genai.Description := desc; genai.Nullable := false;
              genai.Enum := []; genai.Items := Some items;
              genai.Properties := ∅; genai.Required := [] |}
  | ty =>
      Some {| genai.Type__ := ty; genai.Format := "";
              genai.Description := desc; genai.Nullable := false;
              genai.Enum := []; genai.Items := None;
              genai.Properties := ∅; genai.Required := [] |}
  end.
Proof.
  unfold google_provider.propertyToGoogleSchema at 1.
  cbn [google_provider.propertyOf].
  destruct (asString (index properties "type")) as [typ|]; [|done].
  cbn. destruct (google_provider.toType typ); try done.
  - unfold index. rewrite lookup_fmap.
    destruct (properties !! "items") as [[]|]; done.
  - unfold index. rewrite lookup_fmap.
    destruct (properties !! "properties") as [[]|]; try done.
    cbn. do 2 f_equal. apply map_fmap_ext. intros k x _. by destruct x.
Qed.

Lemma asString_index (m : gmap string any) (k s : string) :
  asString (index m k) = Some s ↔ m !! k = Some (AString s).
Proof.
  unfold index. destruct (m !! k) as [[]|]; cbn; naive_solver.
Qed.

Lemma asMap_index (m : gmap string any) (k : string) (r : gmap string any) :
  asMap (index m k) = Some r ↔ m !! k = Some (AMap r).
Proof.
  unfold index. destruct (m !! k) as [[]|]; cbn; naive_solver.
Qed.

Arguments google_provider.propertyToGoogleSchema : simpl never.

(** The translation of a property description returns exactly on the
    well-formed ones. *)
Lemma propertyToGoogleSchema_total (properties : gmap string any) :
  is_Some (google_provider.propertyToGoogleSchema properties)
  ↔ wellFormed properties.
Proof.
  remember (any_size (AMap properties)) as n eqn:Hn.
  revert properties Hn. induction (lt_wf n) as [n _ IH].
  intros properties ->.
  rewrite propertyToGoogleSchema_unfold. split.
  - intros [s Hs].
    destruct (asString (index properties "type")) as [typ|] eqn:Htyp;
      [|done].
    apply asString_index in Htyp. cbn in Hs.
    destruct (google_provider.toType typ) eqn:Hty.
    1-5: (eapply wellFormed_other; [done| |];
          intros Heq; rewrite Heq in Hty; vm_compute in Hty; done).
    + apply toType_array in Hty as ->.
      destruct (asMap (index properties "items")) as [items|] eqn:Hitems;
        [|done].
      apply asMap_index in Hitems. cbn in Hs.
      destruct (google_provider.propertyToGoogleSchema items) as [si|] eqn:Hsi;
        [|done].
      eapply wellFormed_array; [done..|].
      eapply (IH (any_size (AMap items))); [|done|by eexists].
      by apply (any_size_lookup properties "items").
    + apply toType_object in Hty as ->.
      destruct (asMap (index properties "properties")) as [ops|] eqn:Hops;
        [|done].
      apply asMap_index in Hops. cbn in Hs.
      destruct (google_provider.rangeMap _) as [props|] eqn:Hprops; [|done].
      eapply wellFormed_object; [done..|].
      intros name prop Hname.
      assert (is_Some (asMap prop ≫= google_provider.propertyToGoogleSchema))
        as [sp Hsp].
      { assert (is_Some (google_provider.rangeMap
                  ((λ prop, asMap prop ≫=
                              google_provider.propertyToGoogleSchema)
                     <$> ops))) as Hall by by eexists.
        apply rangeMap_is_Some in Hall.
        apply (Hall name). by rewrite lookup_fmap, Hname. }
      destruct prop as [| | | | | | |m|]; try done.
      exists m. split; [done|]. cbn in Hsp.
      eapply (IH (any_size (AMap m))); [|done|by eexists].
      etrans; [by apply (any_size_lookup ops name)|].
      by apply (any_size_lookup properties "properties").
  - intros Hwf. destruct Hwf as
      [properties ops Htyp Hops Hall
      |properties items Htyp Hitems Hwf
      |properties typ Htyp Hno Hna].
    + apply asString_index in Htyp. apply asMap_index in Hops.
      rewrite Htyp. cbn. rewrite Hops. cbn.
      assert (is_Some (google_provider.rangeMap
                ((λ prop, asMap prop ≫=
                            google_provider.propertyToGoogleSchema)
                   <$> ops))) as [props ->]; [|by eexists].
      apply rangeMap_is_Some. intros name o. rewrite lookup_fmap.
      destruct (ops !! name) as [prop|] eqn:Hname; [|done].
      intros [= <-]. destruct (Hall name prop Hname) as (m & -> & Hm).
      cbn. eapply (IH (any_size (AMap m))); [|done|done].
      etrans; [by apply (any_size_lookup ops name)|].
      apply (any_size_lookup properties "properties").
      by apply asMap_index.
    + apply asString_index in Htyp. pose proof Hitems as Hitems'.
      apply asMap_index in Hitems.
      rewrite Htyp. cbn. rewrite Hitems. cbn.
      assert (is_Some (google_provider.propertyToGoogleSchema items))
        as [si ->]; [|by eexists].
      eapply (IH (any_size (AMap items))); [|done|done].
      by apply (any_size_lookup properties "items").
    + apply asString_index in Htyp. rewrite Htyp. cbn.
      destruct (google_provider.toType typ) eqn:Hty; try by eexists.
      * by apply toType_array in Hty.
      * by apply toType_object in Hty.
Qed.

Lemma propertyOf_asMap (prop : any) :
  google_provider.propertyOf prop =
  asMap prop ≫= google_provider.propertyToGoogleSchema.
Proof. by destruct prop. Qed.

Lemma propertyOf_total (prop : any) :
  is_Some (google_provider.propertyOf prop)
  ↔ ∃ m, prop = AMap m ∧ wellFormed m.
Proof.
  rewrite propertyOf_asMap. split.
  - intros Hs. destruct prop as [| | | | | | |m|]; try by destruct Hs.
    exists m. split; [done|]. by apply propertyToGoogleSchema_total.
  - intros (m & -> & Hm). by apply propertyToGoogleSchema_total.
Qed.

Lemma translateToGoogleSchema_is_Some (schema : llm_types.Schema) :
  is_Some (google_provider.translateToGoogleSchema schema)
  ↔ is_Some (google_provider.rangeMap
               (google_provider.propertyOf <$> llm_types.Properties schema)).
Proof.
  unfold google_provider.translateToGoogleSchema.
  destruct (google_provider.rangeMap _) as [props|]; cbn.
  - destruct (len (map_to_list props) =? 0); split; by eexists.
  - done.
Qed.

Lemma translateToGoogleSchema_total (schema : llm_types.Schema) :
  is_Some (google_provider.translateToGoogleSchema schema)
  ↔ wellFormedSchema schema.
Proof.
  rewrite translateToGoogleSchema_is_Some, rangeMap_is_Some.
  unfold wellFormedSchema. split.
  - intros Hall name prop Hname. apply propertyOf_total.
    apply (Hall name). by rewrite lookup_fmap, Hname.
  - intros Hwf name o. rewrite lookup_fmap.
    destruct (llm_types.Properties schema !! name) as [prop|] eqn:Hname;
      [|done].
    intros [= <-]. apply propertyOf_total. by eapply Hwf.
Qed.

Lemma wellFormedSchema_nested : wellFormedSchema nestedSchema.
Proof.
  intros name prop Hname. cbn in Hname.
  apply lookup_singleton_Some in Hname as [<- <-].
  eexists. split; [done|].
  eapply wellFormed_array; [done..|].
  eapply wellFormed_object; [done..|].
  intros name prop [<- <-]%lookup_singleton_Some.
  eexists. split; [done|].
  by eapply wellFormed_other.
Qed.

Lemma wellFormedSchema_broken : ¬ wellFormedSchema brokenSchema.
Proof.
  intros Hwf.
  by destruct (Hwf "location" (AString "string") eq_refl) as (m & ? & _).
Qed.

(** C9: the Google schema translation completes on the schemas whose
    properties are well formed (every property a map with a string
    "type", every object-typed one with a "properties" map and every
    array-typed one with an "items" map, recursively), and panics on
    every other schema; it has no error result. *)
Theorem C9_translation_total_exactly_on_well_formed
    (schema : llm_types.Schema) :
  (wellFormedSchema schema →
     is_Some (google_provider.translateToGoogleSchema schema))
  ∧ (¬ wellFormedSchema schema →
       google_provider.translateToGoogleSchema schema = None).
Proof.
  split.
  - apply translateToGoogleSchema_total.
  - intros Hno.
    destruct (google_provider.translateToGoogleSchema schema) eqn:Hs;
      [|done].
    destruct Hno. apply translateToGoogleSchema_total. by eexists.
Qed.

Lemma C9_translation_total_exactly_on_well_formed_witness :
  is_Some (google_provider.translateToGoogleSchema nestedSchema)
  ∧ google_provider.translateToGoogleSchema brokenSchema = None.
Proof.
  split.
  - apply (proj1 (C9_translation_total_exactly_on_well_formed nestedSchema)).
    exact wellFormedSchema_nested.
  - apply (proj2 (C9_translation_total_exactly_on_well_formed brokenSchema)).
    exact wellFormedSchema_broken.
Defined.

Lemma len_zero {A} (l : list A) : len l = 0 ↔ l = [].
Proof. unfold len. destruct l; cbn; split; (done || lia). Qed.

Lemma translateToGoogleSchema_Some (schema : llm_types.Schema)
    (s : genai.Schema) :
  google_provider.translateToGoogleSchema schema = Some s →
  ∃ props,
    google_provider.rangeMap
      (google_provider.propertyOf <$> llm_types.Properties schema)
    = Some props
    ∧ (props = ∅ →
         genai.Nullable s = true
         ∧ genai.Properties s = {["unused" := google_provider.unused]})
    ∧ (props ≠ ∅ → genai.Nullable s = false ∧ genai.Properties s = props).
Proof.
  unfold google_provider.translateToGoogleSchema.
  destruct (google_provider.rangeMap _) as [props|]; [|done]. cbn.
  intros Hs. exists props. split; [done|].
  destruct (Z.eqb_spec (len (map_to_list props)) 0) as [Hl|Hl];
    apply (inj Some) in Hs; subst s; cbn.
  - split.
    + intros ->. by rewrite insert_empty.
    + intros Hne. destruct Hne.
      apply map_to_list_empty_iff. by apply len_zero.
  - split; [|done]. intros ->. by rewrite map_to_list_empty in Hl.
Qed.

(** C3: a schema with no properties is translated to a nullable schema
    with exactly one property, "unused", a nullable integer; for a schema
    with at least one property the translated properties are those of
    the source, name by name, and the schema is not marked nullable. *)
Theorem C3_zero_argument_workaround (schema : llm_types.Schema) :
  (llm_types.Properties schema = ∅ →
     ∃ s, google_provider.translateToGoogleSchema schema = Some s
          ∧ genai.Nullable s = true
          ∧ genai.Properties s = {["unused" := google_provider.unused]}
          ∧ genai.Type__ google_provider.unused = genai.TypeInteger
          ∧ genai.Nullable google_provider.unused = true)
  ∧ (llm_types.Properties schema ≠ ∅ →
       (wellFormedSchema schema →
          is_Some (google_provider.translateToGoogleSchema schema))
       ∧ ∀ s, google_provider.translateToGoogleSchema schema = Some s →
           genai.Nullable s = false
           ∧ ∀ name,
               genai.Properties s !! name =
               llm_types.Properties schema !! name
                 ≫= (λ prop, asMap prop
                               ≫= google_provider.propertyToGoogleSchema)).
Proof.
  split.
  - intros Hempty.
    assert (wellFormedSchema schema) as Hwf.
    { intros name prop. by rewrite Hempty, lookup_empty. }
    apply translateToGoogleSchema_total in Hwf as [s Hs].
    exists s. split; [done|].
    destruct (translateToGoogleSchema_Some _ _ Hs) as (props & Hr & He & _).
    rewrite Hempty, fmap_empty in Hr.
    apply rangeMap_Some in Hr. symmetry in Hr.
    apply fmap_empty_inv in Hr. destruct (He Hr) as [-> ->]. done.
  - intros Hne. split; [apply translateToGoogleSchema_total|].
    intros s Hs.
    destruct (translateToGoogleSchema_Some _ _ Hs) as (props & Hr & _ & Hn).
    assert (props ≠ ∅) as Hprops.
    { intros ->. apply rangeMap_Some in Hr.
      rewrite fmap_empty in Hr. by apply fmap_empty_inv in Hr. }
    destruct (Hn Hprops) as [-> ->]. split; [done|].
    intros name. rewrite (rangeMap_fmap_lookup _ _ _ _ Hr).
    destruct (llm_types.Properties schema !! name) as [prop|]; [|done].
    apply propertyOf_asMap.
Qed.

Lemma C3_zero_argument_workaround_witness :
  (∃ s, google_provider.translateToGoogleSchema noArgumentSchema = Some s
        ∧ genai.Nullable s = true
        ∧ genai.Properties s = {["unused" := google_provider.unused]}
        ∧ genai.Type__ google_provider.unused = genai.TypeInteger
        ∧ genai.Nullable google_provider.unused = true)
  ∧ is_Some (google_provider.translateToGoogleSchema weatherSchema).
Proof.
  split.
  - apply (proj1 (C3_zero_argument_workaround noArgumentSchema)).
    reflexivity.
  - apply (proj2 (C3_zero_argument_workaround weatherSchema)).
    + intros Hempty.
      assert (llm_types.Properties weatherSchema !! "location" = None) as Hl
        by by rewrite Hempty.
      vm_compute in Hl. discriminate.
    + intros name prop Hname. cbn in Hname.
      apply lookup_singleton_Some in Hname as [<- <-].
      eexists. split; [reflexivity|].
      by eapply wellFormed_other.
Defined.

(** ** The Go monad *)

Lemma go_bind_Some {A B} (m : Go A) (f : A → Go B) (t t' : nat) (b : B) :
  go_bind m f t = Some (b, t')
  ↔ ∃ a t1, m t = Some (a, t1) ∧ f a t1 = Some (b, t').
Proof.
  unfold go_bind. destruct (m t) as [[a t1]|]; split.
  - intros Hf. by exists a, t1.
  - by intros (a' & t1' & [= -> ->] & Hf).
  - done.
  - by intros (a' & t1' & [=] & _).
Qed.

Lemma go_ret_Some {A} (a b : A) (t t' : nat) :
  go_ret a t = Some (b, t') ↔ a = b ∧ t = t'.
Proof.
  unfold go_ret. split; [by intros [= -> ->] | by intros [-> ->]].
Qed.

Lemma must_Some {A} (o : option A) (a : A) (t t' : nat) :
  must o t = Some (a, t') ↔ o = Some a ∧ t = t'.
Proof.
  destruct o; cbn; unfold go_ret, panic; split; try done.
  - by intros [= -> ->].
  - by intros [[= ->] ->].
  - by intros [[=] _].
Qed.

(** ** The Google tool-call counter *)

Lemma wrap64_id (z : Z) : - 2 ^ 63 ≤ z ≤ MaxInt64 → wrap64 z = z.
Proof.
  unfold wrap64, MaxInt64. intros Hz.
  rewrite Z.mod_small by lia. lia.
Qed.

Lemma toolCallsFrom_ids (m : google.Message) (fcs : list genai.FunctionCall)
    (i : Z) :
  google.ToolCall_ID <$> google.toolCallsFrom m i fcs =
  (λ j, "Tool<" +:+ fmt_d (int_add (google.toolCallID_ m) j) +:+ ">")
    <$> seqZ i (len fcs).
Proof.
  revert i. induction fcs as [|call rest IH]; intros i; [done|].
  unfold len. rewrite seqZ_cons by (cbn; lia).
  cbn [google.toolCallsFrom fmap list_fmap]. f_equal.
  rewrite IH. unfold len. do 2 f_equal. cbn. lia.
Qed.

Lemma toolCallIDs_no_overflow (m : google.Message) :
  let c := google.toolCallID_ m in
  let k := len (genai.Candidate_FunctionCalls (google.Candidate m)) in
  0 ≤ c → c + k ≤ MaxInt64 → toolCallIDs m = toolIDs c k.
Proof.
  intros c k Hc Hk. unfold toolCallIDs, google.Message_ToolCalls, toolIDs.
  rewrite toolCallsFrom_ids. apply list_fmap_ext.
  intros n j Hj. apply lookup_seqZ in Hj as [-> Hn].
  unfold int_add. fold c. rewrite wrap64_id; [done|].
  fold k in Hn. unfold MaxInt64 in *. lia.
Qed.

Lemma returns_ret {A} (a : A) : returns (go_ret a).
Proof. intros t. by eexists. Qed.

Lemma returns_bind {A B} (m : Go A) (f : A → Go B) :
  returns m → (∀ a, returns (f a)) → returns (go_bind m f).
Proof.
  intros Hm Hf t. unfold go_bind.
  destruct (Hm t) as [[a t1] ->]. apply Hf.
Qed.

Lemma returns_must {A} (o : option A) : is_Some o → returns (must o).
Proof. intros [a ->]. apply returns_ret. Qed.

Lemma returns_mapM {A B} (f : A → Go B) (l : list A) :
  (∀ a, returns (f a)) → returns (go_mapM f l).
Proof.
  intros Hf. induction l as [|a l IH]; cbn [go_mapM].
  - apply returns_ret.
  - apply returns_bind; [done|]. intros b.
    apply returns_bind; [done|]. intros bs. apply returns_ret.
Qed.

Lemma returns_mapM_Forall {A B} (P : A → Prop) (f : A → Go B) (l : list A) :
  (∀ a, P a → returns (f a)) → Forall P l → returns (go_mapM f l).
Proof.
  intros Hf. induction 1 as [|a l Ha Hl IH]; cbn [go_mapM].
  - apply returns_ret.
  - apply returns_bind; [by apply Hf|]. intros b.
    apply returns_bind; [done|]. intros bs. apply returns_ret.
Qed.

Create HintDb returns discriminated.

#[export] Hint Resolve returns_ret returns_must returns_mapM : returns.

(** Decomposes a goal [returns m] along the binds, loops and branches
    of [m]. *)
Ltac solve_returns :=
  repeat first
    [ apply returns_ret | apply returns_mapM; intros ? | done
    | apply returns_bind; [|intros ?]
    | match goal with
      | |- returns (if ?b then _ else _) => destruct b
      | |- returns (match ?m with llm.HistoryMessage _ => _ | _ => _ end) =>
          destruct m
      | |- returns (match ?r with inl _ => _ | inr _ => _ end) => destruct r
      | |- returns (let '(_, _) := ?r in _) => destruct r
      end ].

(** ** The methods of the Message interface *)

Lemma Message_Role_returns `{Libraries} (msg : llm.Message) :
  hasContent msg → returns (llm.Message_Role msg).
Proof.
  destruct msg; cbn; intros Hc; auto with returns.
  unfold google.Message_Role. apply returns_bind; auto with returns.
Qed.

Lemma Message_Content_returns `{Libraries} (msg : llm.Message) :
  hasContent msg → returns (llm.Message_Content msg).
Proof.
  destruct msg; cbn; intros Hc; auto with returns.
  unfold google.Message_Content. apply returns_bind; auto with returns.
Qed.

Lemma Message_ToolResponse_returns `{Libraries} (msg : llm.Message) :
  hasContent msg → returns (llm.Message_ToolResponse msg).
Proof.
  destruct msg; cbn; intros Hc; auto with returns.
  unfold google.Message_ToolResponse. apply returns_bind; auto with returns.
Qed.

Lemma Message_ToolCalls_returns `{Libraries} (msg : llm.Message) :
  returns (llm.Message_ToolCalls msg).
Proof.
  destruct msg; cbn; auto with returns.
  apply returns_bind; auto with returns.
  unfold ollama.OllamaMessage_ToolCalls. apply returns_mapM. intros call.
  unfold ollama.NewOllamaToolCall. apply returns_bind; auto with returns.
  intros t. by eexists.
Qed.

(** ** The Google adapter *)

Lemma historyOf_returns `{Libraries} (msg : llm.Message) :
  hasContent msg → returns (google_provider.historyOf msg).
Proof.
  intros Hc. unfold google_provider.historyOf, llm.IsToolResponse.
  pose proof (Message_Role_returns msg Hc).
  pose proof (Message_Content_returns msg Hc).
  pose proof (Message_ToolResponse_returns msg Hc).
  pose proof (Message_ToolCalls_returns msg).
  solve_returns.
Qed.

Lemma mapM_toolOf_is_Some (tools : list llm_types.Tool) :
  Forall (λ tool, wellFormedSchema (llm_types.InputSchema tool)) tools →
  is_Some (mapM google_provider.toolOf tools).
Proof.
  intros Hwf. apply mapM_is_Some. eapply Forall_impl; [done|].
  intros tool [s Hs]%translateToGoogleSchema_total.
  unfold compose, google_provider.toolOf. rewrite Hs. by eexists.
Qed.

(** [SendMessage] returns when the prior messages carry their content
    and the tool schemas are well formed. *)
Lemma google_SendMessage_total `{Libraries} (p : google_provider.Provider)
    chat (prompt : string) (messages : list llm.Message)
    (tools : list llm_types.Tool) :
  Forall hasContent messages →
  Forall (λ tool, wellFormedSchema (llm_types.InputSchema tool)) tools →
  returns (google_provider.SendMessage p chat prompt messages tools).
Proof.
  intros Hmsgs Htools. unfold google_provider.SendMessage.
  apply returns_bind.
  { eapply returns_mapM_Forall; [|done]. apply historyOf_returns. }
  intros hists. apply returns_bind.
  { by apply returns_must, mapM_toolOf_is_Some. }
  intros modelTools. apply returns_ret.
Qed.

Lemma google_SendMessage_decodes `{Libraries} (p : google_provider.Provider)
    chat (prompt : string) (messages : list llm.Message)
    (tools : list llm_types.Tool) (t t' : nat)
    (r : google_provider.Provider * (option llm.Message * option error)) :
  google_provider.SendMessage p chat prompt messages tools t = Some (r, t') →
  ∃ p0 resp,
    google_provider.toolCallID p0 = google_provider.toolCallID p
    ∧ resp = chat (google_provider.model_Tools p0)
               (google_provider.chat_History p0)
    ∧ r = google_provider.decodeResponse p0 resp.
Proof.
  unfold google_provider.SendMessage. intros Hrun.
  apply go_bind_Some in Hrun as (hists & t1 & _ & Hrun).
  apply go_bind_Some in Hrun as (modelTools & t2 & _ & Hrun).
  apply go_ret_Some in Hrun as [<- _].
  exists {| google_provider.model_Tools := modelTools;
            google_provider.chat_History := concat hists;
            google_provider.toolCallID := google_provider.toolCallID p |}.
  by eexists.
Qed.

Lemma decodeResponse_ids (p p' : google_provider.Provider)
    (r : genai.GenerateContentResponse + error)
    (out : option llm.Message * option error) :
  google_provider.decodeResponse p r = (p', out) →
  let c := google_provider.toolCallID p in
  0 ≤ c →
  (∃ m, out = (Some (llm.GoogleMessage m), None)
        ∧ ∃ resp rest, r = inl resp
            ∧ genai.Candidates resp = google.Candidate m :: rest
        ∧ let k := len (genai.Candidate_FunctionCalls (google.Candidate m)) in
          c + k ≤ MaxInt64 →
          toolCallIDs m = toolIDs c k
          ∧ google_provider.toolCallID p' = c + k
          ∧ c ≤ google_provider.toolCallID p')
  ∨ (∃ err, out = (None, Some err) ∧ google_provider.toolCallID p' = c).
Proof.
  unfold google_provider.decodeResponse. intros Hr Hc.
  destruct r as [resp|err]; [|right; simplify_eq; by eexists].
  destruct (genai.Candidates resp) as [|candidate rest] eqn:Hcs;
    [right; simplify_eq; by eexists|].
  left. simplify_eq. eexists. split; [done|].
  exists resp, rest. split; [done|]. split; [done|].
  cbn. intros Hk.
  assert (int_add (google_provider.toolCallID p)
            (len (genai.Candidate_FunctionCalls candidate))
          = google_provider.toolCallID p
            + len (genai.Candidate_FunctionCalls candidate)) as ->.
  { unfold int_add. apply wrap64_id. unfold len, MaxInt64 in *. lia. }
  split; [by apply toolCallIDs_no_overflow|].
  split; [done|]. unfold len. lia.
Qed.

Lemma FunctionCalls_loop (parts : list genai.FunctionCall)
    (fcs : list genai.FunctionCall) :
  fold_left
    (λ fcs p, match p with
              | genai.PartFunctionCall fc => fcs ++ [fc]
              | _ => fcs
              end)
    (genai.PartFunctionCall <$> parts) fcs
  = fcs ++ parts.
Proof.
  revert fcs. induction parts as [|fc parts IH]; intros fcs; cbn.
  - by rewrite app_nil_r.
  - rewrite IH. by rewrite <- app_assoc.
Qed.

Lemma decodeResponse_functionCalls (p : google_provider.Provider)
    (calls : list genai.FunctionCall) :
  ∃ m,
    google_provider.decodeResponse p (inl (functionCallResponse calls))
    = ({| google_provider.model_Tools := google_provider.model_Tools p;
          google_provider.chat_History := google_provider.chat_History p;
          google_provider.toolCallID :=
            int_add (google_provider.toolCallID p) (len calls) |},
       (Some (llm.GoogleMessage m), None))
    ∧ google.toolCallID_ m = google_provider.toolCallID p
    ∧ genai.Candidate_FunctionCalls (google.Candidate m) = calls.
Proof.
  eexists. cbn. rewrite FunctionCalls_loop. cbn. split; [done|].
  split; [done|]. unfold genai.Candidate_FunctionCalls. cbn.
  by rewrite FunctionCalls_loop.
Qed.

(** C2: a call of the Google [SendMessage] that starts with the counter
    at c and decodes a response with k function calls gives them the ids
    Tool<c>, ..., Tool<c+k-1> and leaves the counter at c+k (as long as
    c+k fits the 64-bit [int]); a call that fails leaves the counter
    alone, so the counter is never reset; from a fresh provider,
    responses with 2 and then 1 function calls get Tool<0>, Tool<1> and
    then Tool<2>.  The call returns whenever the prior messages carry
    their content and the tool schemas are well formed. *)
Theorem C2_google_tool_call_ids `{Libraries} :
  (∀ p chat prompt messages tools,
     Forall hasContent messages →
     Forall (λ tool, wellFormedSchema (llm_types.InputSchema tool)) tools →
     returns (google_provider.SendMessage p chat prompt messages tools))
  ∧ (∀ p chat prompt messages tools t p' out t',
       google_provider.SendMessage p chat prompt messages tools t
       = Some ((p', out), t') →
       let c := google_provider.toolCallID p in
       0 ≤ c →
       (∃ m, out = (Some (llm.GoogleMessage m), None)
             ∧ let k := len (genai.Candidate_FunctionCalls
                               (google.Candidate m)) in
               c + k ≤ MaxInt64 →
               toolCallIDs m = toolIDs c k
               ∧ google_provider.toolCallID p' = c + k
               ∧ c ≤ google_provider.toolCallID p')
       ∨ (∃ err, out = (None, Some err)
                 ∧ google_provider.toolCallID p' = c))
  ∧ (∀ calls1 calls2 prompt1 prompt2 messages1 messages2 tools1 tools2
       t p1 out1 t1 p2 out2 t2,
       length calls1 = 2%nat → length calls2 = 1%nat →
       google_provider.SendMessage google_provider.NewProvider
         (answering (functionCallResponse calls1)) prompt1 messages1 tools1 t
       = Some ((p1, out1), t1) →
       google_provider.SendMessage p1
         (answering (functionCallResponse calls2)) prompt2 messages2 tools2 t1
       = Some ((p2, out2), t2) →
       ∃ m1 m2,
         out1 = (Some (llm.GoogleMessage m1), None)
         ∧ out2 = (Some (llm.GoogleMessage m2), None)
         ∧ toolCallIDs m1 = ["Tool<0>"; "Tool<1>"]
         ∧ toolCallIDs m2 = ["Tool<2>"]
         ∧ google_provider.toolCallID p2 = 3).
Proof.
  split; [|split].
  - intros. by apply google_SendMessage_total.
  - intros p chat prompt messages tools t p' out t' Hrun c Hc.
    apply google_SendMessage_decodes in Hrun as (p0 & resp & Hp0 & _ & Hr).
    symmetry in Hr. apply decodeResponse_ids in Hr; [|by rewrite Hp0].
    rewrite Hp0 in Hr. fold c in Hr.
    destruct Hr as [(m & -> & _ & _ & _ & _ & Hm)|(err & -> & Hp')].
    + left. by exists m.
    + right. by exists err.
  - intros calls1 calls2 prompt1 prompt2 messages1 messages2 tools1 tools2
      t p1 out1 t1 p2 out2 t2 Hl1 Hl2 Hrun1 Hrun2.
    apply google_SendMessage_decodes in Hrun1 as (q1 & ? & Hq1 & -> & Hr1).
    destruct (decodeResponse_functionCalls q1 calls1) as (m1 & Hd1 & Hc1 & Hf1).
    unfold answering in Hr1. rewrite Hd1 in Hr1. simplify_eq.
    apply google_SendMessage_decodes in Hrun2 as (q2 & ? & Hq2 & -> & Hr2).
    destruct (decodeResponse_functionCalls q2 calls2) as (m2 & Hd2 & Hc2 & Hf2).
    unfold answering in Hr2. rewrite Hd2 in Hr2. simplify_eq.
    cbn in Hq2. rewrite Hq1 in Hq2, Hc1. cbn in Hq2, Hc1.
    unfold len in Hq2. rewrite Hl1 in Hq2.
    assert (google_provider.toolCallID q2 = 2) as Hq2'
      by (rewrite Hq2; reflexivity).
    rewrite Hq2' in Hc2.
    pose proof (toolCallIDs_no_overflow m1) as Hm1.
    pose proof (toolCallIDs_no_overflow m2) as Hm2.
    cbn zeta in Hm1, Hm2. unfold len in Hm1, Hm2.
    rewrite Hc1, Hl1 in Hm1. rewrite Hc2, Hl2 in Hm2.
    exists m1, m2. split; [done|]. split; [done|].
    split; [|split].
    + rewrite Hm1; [reflexivity|done|done].
    + rewrite Hm2; [reflexivity|done|done].
    + cbn. rewrite Hq2'. unfold len. by rewrite Hl2.
Qed.

Lemma C2_google_tool_call_ids_witness :
  let calls1 := [weatherCall "Paris"; weatherCall "Rome"] in
  let calls2 := [weatherCall "Oslo"] in
  let m1 := {| google.Candidate := functionCallCandidate calls1;
               google.toolCallID_ := 0 |} in
  let m2 := {| google.Candidate := functionCallCandidate calls2;
               google.toolCallID_ := 2 |} in
  toolCallIDs m1 = ["Tool<0>"; "Tool<1>"]
  ∧ toolCallIDs m2 = ["Tool<2>"].
Proof.
  intros calls1 calls2 m1 m2.
  destruct (proj2 (proj2 (@C2_google_tool_call_ids sample.libraries))
              calls1 calls2 "" "" [] [] [] [] 0%nat
              {| google_provider.model_Tools := [];
                 google_provider.chat_History := [];
                 google_provider.toolCallID := 2 |}
              (Some (llm.GoogleMessage m1), None) 0%nat
              {| google_provider.model_Tools := [];
                 google_provider.chat_History := [];
                 google_provider.toolCallID := 3 |}
              (Some (llm.GoogleMessage m2), None) 0%nat
              eq_refl eq_refl eq_refl eq_refl)
    as (n1 & n2 & [= <-] & [= <-] & H1 & H2 & _).
  by split.
Defined.

(** ** Tool responses *)

Lemma openai_CreateToolResponse_Some `{Libraries}
    (p : openai_provider.Provider) (X : string) (content : any)
    (m : llm.Message) :
  openai_provider.CreateToolResponse p X content = (Some m, None) →
  ∃ s resp,
    openai_provider.contentString content = inl s
    ∧ m = llm.OpenAIMessage
            {| openai.Resp := resp;
               openai.Choice_ :=
                 {| openai.Message_ :=
                      {| openai.Role := "tool";
                         openai.Content :=
                           Some (if String.eqb s ""
                                 then "No content returned from tool"
                                 else s);
                         openai.ToolCalls := [];
                         openai.ToolCallID := X |} |} |}.
Proof.
  unfold openai_provider.CreateToolResponse.
  destruct (openai_provider.contentString content) as [s|err]; [|done].
  intros [= <-]. by eexists _, _.
Qed.

Lemma openai_contentString_serialisable `{Libraries} (content : any) :
  serialisable content → ∃ s, openai_provider.contentString content = inl s.
Proof.
  intros [[v Hv]|[s Hs]].
  - destruct content; simplify_eq/=. by eexists.
  - destruct content; cbn; rewrite ?Hs; try by eexists.
    destruct (String.eqb _ ""); rewrite ?Hs; by eexists.
Qed.

(** C1, as the code has it: the Anthropic adapter links every tool
    response to its call id; the Ollama adapter does whenever the
    content is a string or can be JSON-encoded, and the OpenAI adapter
    whenever moreover the id is not empty (an empty id reads back as "not
    a tool response"); the Google adapter's [CreateToolResponse] is a
    stub that returns neither a message nor an error. *)
Theorem C1_tool_response_linkage `{Libraries} (X : string) (content : any) :
  (∃ m, CreateToolResponse AnthropicProvider X content = (Some m, None)
        ∧ llm.Message_ToolResponse m = go_ret (X, true))
  ∧ (serialisable content →
     ∃ m, CreateToolResponse OllamaProvider X content = (Some m, None)
          ∧ llm.Message_ToolResponse m = go_ret (X, true))
  ∧ (∀ p, serialisable content →
     ∃ m, CreateToolResponse (OpenAIProvider p) X content = (Some m, None)
          ∧ llm.Message_ToolResponse m
            = go_ret (X, negb (String.eqb X "")))
  ∧ (∀ p, CreateToolResponse (GoogleProvider p) X content = (None, None)).
Proof.
  split; [|split; [|split]].
  - eexists. split; [reflexivity|].
    cbn. unfold anthropic.Message_ToolResponse. done.
  - intros [[v Hv]|[s Hs]].
    + destruct content; simplify_eq/=. by eexists.
    + cbn. unfold ollama_provider.CreateToolResponse.
      destruct content; rewrite ?Hs; by eexists.
  - intros p [s Hs]%openai_contentString_serialisable. cbn.
    unfold openai_provider.CreateToolResponse. rewrite Hs. by eexists.
  - done.
Qed.

Lemma C1_tool_response_linkage_witness :
  (∃ m, @CreateToolResponse sample.libraries OllamaProvider "tc_1"
          (AString "sunny") = (Some m, None)
        ∧ llm.Message_ToolResponse m = go_ret ("tc_1", true))
  ∧ (∃ m, @CreateToolResponse sample.libraries
            (OpenAIProvider {| openai_provider.model := "gpt" |}) "call_1"
            (AMap ∅) = (Some m, None)
          ∧ llm.Message_ToolResponse m = go_ret ("call_1", true)).
Proof.
  split.
  - apply (@C1_tool_response_linkage sample.libraries "tc_1" (AString "sunny")).
    left. by eexists.
  - apply (@C1_tool_response_linkage sample.libraries "call_1" (AMap ∅)).
    right. by eexists.
Defined.

(** C1 as stated fails: the Google adapter returns no message at all. *)
Lemma C1_counterexample :
  ¬ ∃ (L : Libraries) (m : llm.Message),
      @CreateToolResponse L (GoogleProvider google_provider.NewProvider)
        "Tool<0>" (AString "sunny") = (Some m, None)
      ∧ llm.Message_ToolResponse m = go_ret ("Tool<0>", true).
Proof. intros (L & m & Hm & _). discriminate Hm. Qed.

(** ** Roles and tool calls *)

Lemma ollama_CreateToolResponse_Some `{Libraries} (X : string) (content : any)
    (m : llm.Message) :
  ollama_provider.CreateToolResponse X content = (Some m, None) →
  ∃ contentStr,
    m = llm.OllamaMessage
          {| ollama.Message :=
               {| api.Role := "tool"; api.Content := contentStr;
                  api.ToolCalls := [] |};
             ollama.ToolCallID := X |}.
Proof.
  unfold ollama_provider.CreateToolResponse.
  destruct content; try destruct (json_Marshal _);
    intros [= <-]; by eexists.
Qed.

(** C7, as the code has it: [Role()] hands back the role that is stored
    in the message, whatever its tool calls are; the messages built by
    [CreateToolResponse] have the role "tool" and no tool calls. *)
Theorem C7_role_is_the_stored_role `{Libraries} :
  (∀ m, llm.Message_Role (llm.HistoryMessage m) = go_ret (history.ARole m))
  ∧ (∀ m, llm.Message_Role (llm.OpenAIMessage m)
          = go_ret (openai.Role (openai.Message_ (openai.Choice_ m))))
  ∧ (∀ m, llm.Message_Role (llm.AnthropicMessage m)
          = go_ret (anthropic.APIMessage.Role (anthropic.Msg m)))
  ∧ (∀ m, llm.Message_Role (llm.OllamaMessage m)
          = go_ret (api.Role (ollama.Message m)))
  ∧ (∀ m content,
       genai.Content_ (google.Candidate m) = Some content →
       llm.Message_Role (llm.GoogleMessage m) = go_ret (genai.Role content))
  ∧ (∀ p X content m,
       CreateToolResponse p X content = (Some m, None) →
       llm.Message_ToolCalls m = go_ret []
       ∧ llm.Message_Role m = go_ret "tool").
Proof.
  do 5 (split; [done || idtac|]).
  - intros m content Hc. cbn. unfold google.Message_Role. by rewrite Hc.
  - intros p X content m Hm.
    destruct p as [p| |p|]; cbn in Hm.
    + by apply openai_CreateToolResponse_Some in Hm as (s & resp & _ & ->).
    + by injection Hm as <-.
    + done.
    + by apply ollama_CreateToolResponse_Some in Hm as (s & ->).
Qed.

Lemma C7_role_is_the_stored_role_witness :
  ∃ m,
    @CreateToolResponse sample.libraries AnthropicProvider "toolu_1"
      (AString "sunny") = (Some m, None)
    ∧ @llm.Message_ToolCalls sample.libraries m = go_ret []
    ∧ llm.Message_Role m = go_ret "tool".
Proof.
  eexists. split; [reflexivity|].
  eapply (proj2 (proj2 (proj2 (proj2 (proj2
            (@C7_role_is_the_stored_role sample.libraries)))))
            AnthropicProvider "toolu_1" (AString "sunny")).
  reflexivity.
Defined.

(** C7 as stated fails: a stored user turn with a tool_use block has a
    tool call and the role "user". *)
Lemma C7_counterexample : ¬ ∃ L : Libraries, @roleInvariant L userToolUse.
Proof.
  intros [L Hinv].
  destruct (Hinv 0%nat _ 0%nat eq_refl) as [t Ht]; [done|].
  discriminate Ht.
Qed.

(** ** The OpenAI adapter *)

Lemma len_cons_pos {A} (a : A) (l : list A) : (0 <? len (a :: l)) = true.
Proof. apply Z.ltb_lt. unfold len. cbn. lia. Qed.

Lemma marshalToolCalls_entries `{Libraries} (calls : list llm.ToolCall)
    (entries : list openai.ToolCall) :
  openai_provider.marshalToolCalls calls = inl entries
  ↔ Forall2
      (λ call entry,
         ∃ args, json_Marshal (AMap (llm.ToolCall_Arguments call)) = inl args
                 ∧ entry = toolCallEntry call args)
      calls entries.
Proof.
  revert entries. induction calls as [|call calls IH]; intros entries; cbn.
  - split; [intros [= <-]; constructor | by inversion 1].
  - destruct (json_Marshal _) as [args|err] eqn:Hargs.
    + destruct (openai_provider.marshalToolCalls calls) as [es|err] eqn:Hes.
      * split.
        -- intros [= <-]. constructor; [by exists args|by apply IH].
        -- inversion 1 as [|? entry ? es' (args' & Hargs' & ->) Hes']; subst.
           apply IH in Hes'. rewrite Hargs in Hargs'. by simplify_eq.
      * split; [done|].
        inversion 1 as [|? entry ? es' _ Hes']; subst.
        by apply IH in Hes'.
    + split; [done|].
      inversion 1 as [|? entry ? es' (args' & Hargs' & _) _]; subst.
      by rewrite Hargs in Hargs'.
Qed.

Lemma marshalToolCalls_error `{Libraries} (calls : list llm.ToolCall)
    (err : error) :
  openai_provider.marshalToolCalls calls = inr err → calls ≠ [].
Proof. by destruct calls. Qed.

(** What a call of [convertMessage] that returns has done. *)
Lemma convertMessage_inv `{Libraries} (msg : llm.Message) (t t' : nat)
    (r : openai.MessageParam + error) :
  openai_provider.convertMessage msg t = Some (r, t') →
  ∃ role t1 content t2 calls t3,
    llm.Message_Role msg t = Some (role, t1)
    ∧ llm.Message_Content msg t1 = Some (content, t2)
    ∧ llm.Message_ToolCalls msg t2 = Some (calls, t3)
    ∧ match openai_provider.marshalToolCalls calls with
      | inr err => r = inr err ∧ t' = t3
      | inl entries =>
          ∃ id ok t4,
            llm.Message_ToolResponse msg t3 = Some ((id, ok), t4)
            ∧ if ok then
                ∃ content',
                  llm.Message_Content msg t4 = Some (content', t')
                  ∧ r = inl
                      {| openai.Role := "tool";
                         openai.Content :=
                           Some
                             (if String.eqb
                                   (openai_provider.extractContent msg content')
                                   ""
                              then "No content returned from function"
                              else openai_provider.extractContent msg content');
                         openai.ToolCalls := entries;
                         openai.ToolCallID := id |}
              else
                r = inl
                    {| openai.Role := role;
                       openai.Content :=
                         match calls with
                         | [] => if negb (String.eqb content "")
                                 then Some content else None
                         | _ :: _ => None
                         end;
                       openai.ToolCalls := entries;
                       openai.ToolCallID := "" |}
                ∧ t' = t4
      end.
Proof.
  unfold openai_provider.convertMessage. intros Hrun.
  apply go_bind_Some in Hrun as (role & t1 & Hrole & Hrun).
  apply go_bind_Some in Hrun as (content & t2 & Hcontent & Hrun).
  apply go_bind_Some in Hrun as (calls & t3 & Hcalls & Hrun).
  exists role, t1, content, t2, calls, t3. do 3 (split; [done|]).
  destruct calls as [|call calls].
  - cbn in Hrun |- *.
    apply go_bind_Some in Hrun as ([id ok] & t4 & Hresp & Hrun).
    exists id, ok, t4. split; [done|]. destruct ok.
    + apply go_bind_Some in Hrun as (content' & t5 & Hcontent' & Hrun).
      apply go_ret_Some in Hrun as [<- <-]. by exists content'.
    + by apply go_ret_Some in Hrun as [<- <-].
  - rewrite len_cons_pos in Hrun.
    destruct (openai_provider.marshalToolCalls (call :: calls))
      as [entries|err].
    + apply go_bind_Some in Hrun as ([id ok] & t4 & Hresp & Hrun).
      exists id, ok, t4. split; [done|]. destruct ok.
      * apply go_bind_Some in Hrun as (content' & t5 & Hcontent' & Hrun).
        apply go_ret_Some in Hrun as [<- <-]. by exists content'.
      * by apply go_ret_Some in Hrun as [<- <-].
    + by apply go_ret_Some in Hrun as [<- <-].
Qed.

(** The converse: the runs of the methods determine the outcome. *)
Lemma convertMessage_run `{Libraries} (msg : llm.Message)
    (t t1 t2 t3 : nat) (role content : string) (calls : list llm.ToolCall) :
  llm.Message_Role msg t = Some (role, t1) →
  llm.Message_Content msg t1 = Some (content, t2) →
  llm.Message_ToolCalls msg t2 = Some (calls, t3) →
  openai_provider.convertMessage msg t =
  match openai_provider.marshalToolCalls calls with
  | inr err => Some (inr err, t3)
  | inl entries =>
      match llm.Message_ToolResponse msg t3 with
      | None => None
      | Some ((id, true), t4) =>
          match llm.Message_Content msg t4 with
          | None => None
          | Some (content', t5) =>
              Some (inl
                      {| openai.Role := "tool";
                         openai.Content :=
                           Some
                             (if String.eqb
                                   (openai_provider.extractContent msg content')
                                   ""
                              then "No content returned from function"
                              else openai_provider.extractContent msg content');
                         openai.ToolCalls := entries;
                         openai.ToolCallID := id |}, t5)
          end
      | Some ((id, false), t4) =>
          Some (inl
                  {| openai.Role := role;
                     openai.Content :=
                       match calls with
                       | [] => if negb (String.eqb content "")
                               then Some content else None
                       | _ :: _ => None
                       end;
                     openai.ToolCalls := entries;
                     openai.ToolCallID := "" |}, t4)
      end
  end.
Proof.
  intros Hrole Hcontent Hcalls.
  unfold openai_provider.convertMessage, go_bind.
  rewrite Hrole, Hcontent, Hcalls.
  destruct calls as [|call calls].
  - change (0 <? len (@nil llm.ToolCall)) with false. cbn.
    destruct (llm.Message_ToolResponse msg t3) as [[[id []] t4]|];
      [|done..].
    by destruct (llm.Message_Content msg t4) as [[content' t5]|].
  - rewrite len_cons_pos.
    destruct (openai_provider.marshalToolCalls (call :: calls))
      as [entries|err]; [|done].
    destruct (llm.Message_ToolResponse msg t3) as [[[id []] t4]|];
      [|done..].
    by destruct (llm.Message_Content msg t4) as [[content' t5]|].
Qed.

Lemma convertMessages_Forall2 `{Libraries} (messages : list llm.Message)
    (params : list openai.MessageParam) (t t' : nat) :
  openai_provider.convertMessages messages t = Some (inl params, t') →
  Forall2
    (λ msg param,
       ∃ t0 t1, openai_provider.convertMessage msg t0 = Some (inl param, t1))
    messages params.
Proof.
  revert params t t'. induction messages as [|msg messages IH];
    intros params t t' Hrun; cbn in Hrun.
  - apply go_ret_Some in Hrun as [[= <-] _]. constructor.
  - apply go_bind_Some in Hrun as ([param|err] & t1 & Hmsg & Hrun).
    + apply go_bind_Some in Hrun as ([ps|err] & t2 & Hrest & Hrun).
      * apply go_ret_Some in Hrun as [[= <-] _].
        constructor; [by eexists _, _|by eapply IH].
      * by apply go_ret_Some in Hrun as [[=] _].
    + by apply go_ret_Some in Hrun as [[=] _].
Qed.

Lemma convertMessage_returns `{Libraries} (msg : llm.Message) :
  hasContent msg → returns (openai_provider.convertMessage msg).
Proof.
  intros Hc. unfold openai_provider.convertMessage.
  pose proof (Message_Role_returns msg Hc).
  pose proof (Message_Content_returns msg Hc).
  pose proof (Message_ToolResponse_returns msg Hc).
  pose proof (Message_ToolCalls_returns msg).
  solve_returns.
Qed.

(** C4, as the code has it: a prior message that is not a tool response
    is emitted with its role; without tool calls it carries its content
    when that is not empty; with tool calls, whatever its role, its
    content is null and it carries one entry per tool call, in order,
    with the id, the type "function", the name and the JSON-encoded
    arguments of the call, and an encoding error ends [SendMessage].
    The messages the loop emits are those of its body, message by
    message, and the body returns for every message that carries its
    content. *)
Theorem C4_openai_prior_message `{Libraries} :
  (∀ msg t t1 t2 t3 t4 role content calls id,
     llm.Message_Role msg t = Some (role, t1) →
     llm.Message_Content msg t1 = Some (content, t2) →
     llm.Message_ToolCalls msg t2 = Some (calls, t3) →
     llm.Message_ToolResponse msg t3 = Some ((id, false), t4) →
     (calls = [] →
        openai_provider.convertMessage msg t =
        Some (inl {| openai.Role := role;
                     openai.Content :=
                       if String.eqb content "" then None else Some content;
                     openai.ToolCalls := [];
                     openai.ToolCallID := "" |}, t4))
     ∧ (calls ≠ [] →
          (∀ err,
             openai_provider.marshalToolCalls calls = inr err →
             openai_provider.convertMessage msg t = Some (inr err, t3))
          ∧ (∀ entries,
               Forall2
                 (λ call entry,
                    ∃ args,
                      json_Marshal (AMap (llm.ToolCall_Arguments call))
                      = inl args
                      ∧ entry = toolCallEntry call args)
                 calls entries →
               openai_provider.convertMessage msg t =
               Some (inl {| openai.Role := role;
                            openai.Content := None;
                            openai.ToolCalls := entries;
                            openai.ToolCallID := "" |}, t4))))
  ∧ (∀ messages params t t',
       openai_provider.convertMessages messages t = Some (inl params, t') →
       Forall2
         (λ msg param,
            ∃ t0 t1,
              openai_provider.convertMessage msg t0 = Some (inl param, t1))
         messages params)
  ∧ (∀ msg, hasContent msg → returns (openai_provider.convertMessage msg)).
Proof.
  split; [|split; [intros; by eapply convertMessages_Forall2
                  |intros; by apply convertMessage_returns]].
  intros msg t t1 t2 t3 t4 role content calls id Hrole Hcontent Hcalls Hresp.
  rewrite (convertMessage_run msg t t1 t2 t3 role content calls) by done.
  rewrite Hresp. split.
  - intros ->. cbn. by destruct (String.eqb content "").
  - intros Hne. split.
    + by intros err ->.
    + intros entries Hentries%marshalToolCalls_entries. rewrite Hentries.
      by destruct calls.
Qed.

Lemma C4_openai_prior_message_witness :
  @openai_provider.convertMessage sample.libraries assistantToolUse 0%nat =
  Some (inl {| openai.Role := "assistant";
               openai.Content := None;
               openai.ToolCalls :=
                 [{| openai.ID := "call_1"; openai.Type_ := "function";
                     openai.Function :=
                       {| openai.Name := "get_weather";
                          openai.Arguments := sample.paris |} |}];
               openai.ToolCallID := "" |}, 0%nat).
Proof.
  refine (proj2 (proj2
            (proj1 (@C4_openai_prior_message sample.libraries)
               assistantToolUse 0%nat 0%nat 0%nat 0%nat 0%nat
               "assistant" "Let me check" _ ""
               eq_refl eq_refl eq_refl eq_refl) _) _ _).
  - discriminate.
  - repeat constructor. exists sample.paris. split; reflexivity.
Defined.

(** C4 as stated fails: an assistant turn with text and a tool call is
    emitted without its text, and the tool call of a user turn is
    emitted. *)
Lemma C4_counterexample :
  (¬ ∃ (L : Libraries) param t',
       @openai_provider.convertMessage L assistantToolUse 0%nat
       = Some (inl param, t')
       ∧ openai.Content param = Some "Let me check")
  ∧ (¬ ∃ (L : Libraries) param t',
         @openai_provider.convertMessage L userToolUse 0%nat
         = Some (inl param, t')
         ∧ openai.ToolCalls param = [])
  ∧ @openai_provider.convertMessage sample.libraries userToolUse 0%nat =
    Some (inl {| openai.Role := "user";
                 openai.Content := None;
                 openai.ToolCalls :=
                   [{| openai.ID := "call_1"; openai.Type_ := "function";
                       openai.Function :=
                         {| openai.Name := "get_weather";
                            openai.Arguments := sample.paris |} |}];
                 openai.ToolCallID := "" |}, 0%nat).
Proof.
  split; [|split].
  - intros (L & param & t' & Hrun & Hcontent).
    apply convertMessage_inv in Hrun
      as (role & t1 & content & t2 & calls & t3 & Hr & Hc & Hcalls & Hrun).
    cbn in Hr, Hc, Hcalls. unfold go_ret in *. simplify_eq.
    cbn in Hrun. destruct (json_Marshal _); [|by destruct Hrun].
    destruct Hrun as (id & ok & t4 & Hresp & Hrun).
    cbn in Hresp. unfold go_ret in Hresp. simplify_eq.
    destruct Hrun as [[= ->] _]. discriminate Hcontent.
  - intros (L & param & t' & Hrun & Hcalls').
    apply convertMessage_inv in Hrun
      as (role & t1 & content & t2 & calls & t3 & Hr & Hc & Hcalls & Hrun).
    cbn in Hr, Hc, Hcalls. unfold go_ret in *. simplify_eq.
    cbn in Hrun. destruct (json_Marshal _); [|by destruct Hrun].
    destruct Hrun as (id & ok & t4 & Hresp & Hrun).
    cbn in Hresp. unfold go_ret in Hresp. simplify_eq.
    destruct Hrun as [[= ->] _]. discriminate Hcalls'.
  - reflexivity.
Qed.

Lemma substitute_nonempty (s d : string) :
  d ≠ "" → (if String.eqb s "" then d else s) ≠ "".
Proof. by destruct (String.eqb_spec s ""). Qed.

(** C10: the OpenAI adapter never emits an empty content string.  For a
    prior tool response [SendMessage] emits a "tool" message whose
    content is the extracted content, or "No content returned from
    function" when that is empty; [CreateToolResponse] builds a "tool"
    message whose content is the normalized content, or "No content
    returned from tool" when that is empty.  The conversion returns for
    every message that carries its content, and [CreateToolResponse]
    returns a message for every content that is a string or can be
    JSON-encoded. *)
Theorem C10_openai_tool_content_never_empty `{Libraries} :
  (∀ msg t param t',
     openai_provider.convertMessage msg t = Some (inl param, t') →
     openai.Content param ≠ Some "")
  ∧ (∀ msg t t1 t2 t3 t4 t5 role content calls entries id content',
       llm.Message_Role msg t = Some (role, t1) →
       llm.Message_Content msg t1 = Some (content, t2) →
       llm.Message_ToolCalls msg t2 = Some (calls, t3) →
       openai_provider.marshalToolCalls calls = inl entries →
       llm.Message_ToolResponse msg t3 = Some ((id, true), t4) →
       llm.Message_Content msg t4 = Some (content', t5) →
       let extracted := openai_provider.extractContent msg content' in
       ∃ c,
         openai_provider.convertMessage msg t =
         Some (inl {| openai.Role := "tool";
                      openai.Content := Some c;
                      openai.ToolCalls := entries;
                      openai.ToolCallID := id |}, t5)
         ∧ c ≠ ""
         ∧ (extracted = "" → c = "No content returned from function")
         ∧ (extracted ≠ "" → c = extracted))
  ∧ (∀ p X content m,
       openai_provider.CreateToolResponse p X content = (Some m, None) →
       ∃ om c s,
         m = llm.OpenAIMessage om
         ∧ openai.Role (openai.Message_ (openai.Choice_ om)) = "tool"
         ∧ openai.Content (openai.Message_ (openai.Choice_ om)) = Some c
         ∧ openai_provider.contentString content = inl s
         ∧ c ≠ ""
         ∧ (s = "" → c = "No content returned from tool")
         ∧ (s ≠ "" → c = s))
  ∧ (∀ msg, hasContent msg → returns (openai_provider.convertMessage msg))
  ∧ (∀ p X content,
       serialisable content →
       ∃ m, openai_provider.CreateToolResponse p X content = (Some m, None)).
Proof.
  split; [|split; [|split; [|split]]].
  - intros msg t param t' Hrun.
    apply convertMessage_inv in Hrun
      as (role & t1 & content & t2 & calls & t3 & _ & _ & _ & Hrun).
    destruct (openai_provider.marshalToolCalls calls) as [entries|err];
      [|by destruct Hrun].
    destruct Hrun as (id & [] & t4 & _ & Hrun).
    + destruct Hrun as (content' & _ & [= ->]). cbn.
      intros [= Hc]. by eapply substitute_nonempty in Hc.
    + destruct Hrun as [[= ->] _]. cbn.
      destruct calls; [|done].
      by destruct (String.eqb_spec content "") as [->|Hne]; cbn; intros [=].
  - intros msg t t1 t2 t3 t4 t5 role content calls entries id content'
      Hrole Hcontent Hcalls Hentries Hresp Hcontent' extracted.
    rewrite (convertMessage_run msg t t1 t2 t3 role content calls) by done.
    rewrite Hentries, Hresp, Hcontent'. fold extracted.
    eexists. split; [done|].
    destruct (String.eqb_spec extracted "") as [->|Hne]; by repeat split.
  - intros p X content m Hm.
    apply openai_CreateToolResponse_Some in Hm as (s & resp & Hs & ->).
    eexists _, _, s. do 4 (split; [done|]). cbn.
    destruct (String.eqb_spec s "") as [->|Hne]; by repeat split.
  - intros msg Hc. by apply convertMessage_returns.
  - intros p X content [s Hs]%openai_contentString_serialisable.
    unfold openai_provider.CreateToolResponse. rewrite Hs. by eexists.
Qed.

Lemma C10_openai_tool_content_never_empty_witness :
  @openai_provider.convertMessage sample.libraries emptyToolResult 0%nat =
  Some (inl {| openai.Role := "tool";
               openai.Content := Some "No content returned from function";
               openai.ToolCalls := [];
               openai.ToolCallID := "call_1" |}, 0%nat)
  ∧ ∃ om,
      @openai_provider.CreateToolResponse sample.libraries
        {| openai_provider.model := "gpt" |} "call_1" (AString "")
      = (Some (llm.OpenAIMessage om), None)
      ∧ openai.Content (openai.Message_ (openai.Choice_ om))
        = Some "No content returned from tool".
Proof.
  split.
  - destruct (proj1 (proj2
      (@C10_openai_tool_content_never_empty sample.libraries))
      emptyToolResult 0%nat 0%nat 0%nat 0%nat 0%nat 0%nat
      "user" "" [] [] "call_1" ""
      eq_refl eq_refl eq_refl eq_refl eq_refl eq_refl)
      as (c & Hrun & _ & Hc & _).
    by rewrite Hrun, (Hc eq_refl).
  - destruct (proj1 (proj2 (proj2
      (@C10_openai_tool_content_never_empty sample.libraries)))
      {| openai_provider.model := "gpt" |} "call_1" (AString "") _ eq_refl)
      as (om & c & s & Hm & _ & Hc & Hs & _ & Hempty & _).
    injection Hm as <-. injection Hs as <-.
    eexists. split; [reflexivity|].
    etrans; [exact Hc|]. f_equal. by apply Hempty.
Defined.

(** ** The content of an Anthropic message *)

Lemma contentArrayItems_app `{Libraries} (content : list string)
    (contentArray : list any) :
  anthropic.contentArrayItems content contentArray =
  content ++ anthropic.contentArrayItems [] contentArray.
Proof.
  unfold anthropic.contentArrayItems.
  revert content. induction contentArray as [|item items IH];
    intros content; cbn [fold_left].
  - by rewrite app_nil_r.
  - rewrite IH. rewrite (IH (match asMap item with
                              | Some _ => _ | None => _ end)).
    destruct (asMap item) as [contentMap|]; [destruct (contentMap !! "text")|];
      cbn; by rewrite <- ?app_assoc.
Qed.

(** One iteration of the loop of [Content], for a block that does not
    fall back on its [Text] after earlier contributions. *)
Lemma contentBlock_contribution `{Libraries} (content : list string)
    (block : anthropic.ContentBlock) :
  (fallsBack block = true → content = []) →
  anthropic.contentBlock content block = content ++ contribution block.
Proof.
  intros Hfb. unfold anthropic.contentBlock, contribution.
  unfold fallsBack in *.
  destruct (String.eqb (anthropic.Type_ block) "text"); [done|].
  destruct (String.eqb (anthropic.Type_ block) "tool_result");
    [|by rewrite app_nil_r].
  destruct (asString (anthropic.Content block)) as [contentStr|]; [done|].
  assert (match asSlice (anthropic.Content block) with
          | Some contentArray =>
              anthropic.contentArrayItems content contentArray
          | None => content
          end = content ++ arrayContribution (anthropic.Content block)) as ->.
  { unfold arrayContribution.
    destruct (asSlice (anthropic.Content block)) as [contentArray|].
    - apply contentArrayItems_app.
    - by rewrite app_nil_r. }
  cbn [negb andb] in *.
  destruct (arrayContribution (anthropic.Content block)) as [|item items].
  - rewrite app_nil_r.
    destruct (String.eqb (anthropic.Text block) ""); cbn [negb] in *.
    + rewrite !andb_false_r. by rewrite app_nil_r.
    + repeat case_bool_decide; try done. cbn [andb] in *.
      rewrite (Hfb eq_refl). done.
  - repeat case_bool_decide; try done. cbn [andb].
    destruct (Z.eqb_spec (len (content ++ item :: items)) 0) as [Hl|Hl];
      [|done].
    apply len_zero in Hl. by destruct content.
Qed.

Lemma Content_loop_contributions `{Libraries}
    (blocks : list anthropic.ContentBlock) (content : list string) :
  (∀ pre block post,
     blocks = pre ++ block :: post → fallsBack block = true →
     content ++ concat (contribution <$> pre) = []) →
  fold_left anthropic.contentBlock blocks content =
  content ++ concat (contribution <$> blocks).
Proof.
  revert content. induction blocks as [|block blocks IH]; intros content Hfb.
  - cbn. by rewrite app_nil_r.
  - cbn [fold_left fmap list_fmap concat].
    rewrite contentBlock_contribution.
    + rewrite IH; [by rewrite app_assoc|].
      intros pre b post -> Hb. rewrite <- app_assoc.
      by apply (Hfb (block :: pre) b post).
    + intros Hb. specialize (Hfb [] block blocks eq_refl Hb).
      by rewrite app_nil_r in Hfb.
Qed.

(** C5, as the code has it: [Content()] scans the blocks in order.  A
    text block contributes its text.  A tool_result block contributes its
    content when that is a string; otherwise every item of an array
    content contributes, a map the rendering of its "text" entry (nothing
    when it has none) and any other item its own rendering; a block left
    without contribution contributes its raw [Text] when that is not
    empty.  This is proved for the messages in which such a fallback
    comes before any contribution.  The contributions are joined with a
    single space and the result is trimmed. *)
Theorem C5_anthropic_Content `{Libraries} (m : anthropic.Message) :
  fallbackBeforeContributions (anthropic.APIMessage.Content (anthropic.Msg m)) →
  anthropic.Message_Content m =
  strings.TrimSpace
    (strings.Join
       (concat (contribution <$> anthropic.APIMessage.Content (anthropic.Msg m)))
       " ").
Proof.
  intros Hfb. unfold anthropic.Message_Content.
  by rewrite Content_loop_contributions.
Qed.

Lemma C5_anthropic_Content_witness :
  @anthropic.Message_Content sample.libraries
    (anthropicMessage
       [anthropicToolResult "raw" ANil; anthropicText "done";
        anthropicToolResult ""
          (ASlice [AMap {["text" := AString "sunny"]}; AString "12C"])])
  = "raw done sunny 12C".
Proof.
  rewrite (@C5_anthropic_Content sample.libraries); [reflexivity|].
  intros pre block post Hblocks Hfb. cbn in Hblocks.
  destruct pre as [|b1 [|b2 [|b3 pre]]]; simplify_eq/=; try done.
  by destruct pre.
Defined.

(** C5 as stated fails: the items of an array content that are not maps
    contribute their rendering, and the raw [Text] is then not used. *)
Lemma C5_counterexample :
  ¬ ∃ L : Libraries,
      @anthropic.Message_Content L
        (anthropicMessage [anthropicToolResult "raw" (ASlice [AString "x"])])
      = @claimedContent L
          (anthropicMessage [anthropicToolResult "raw" (ASlice [AString "x"])]).
Proof. intros [L HL]. vm_compute in HL. discriminate HL. Qed.

(** The fallback looks at everything collected so far, not at the block:
    after an earlier contribution the raw [Text] is dropped. *)
Example anthropic_fallback_after_contribution `{Libraries} :
  anthropic.Message_Content
    (anthropicMessage [anthropicText "hello"; anthropicToolResult "raw" ANil])
  = "hello".
Proof. reflexivity. Qed.

(** * Further properties of the code *)

(** ** The base URL of the transport clients *)

Lemma hasPrefix_app (p l : list ascii) : strings.hasPrefix p (p ++ l) = true.
Proof.
  induction p as [|a p IH]; [done|]. cbn. by rewrite Ascii.eqb_refl, IH.
Qed.

Lemma bytes_str (l : list ascii) : strings.bytes (strings.str l) = l.
Proof. apply list_ascii_of_string_of_list_ascii. Qed.

Lemma str_bytes (s : string) : strings.str (strings.bytes s) = s.
Proof. apply string_of_list_ascii_of_string. Qed.

Lemma HasSuffix_append (s suffix : string) :
  strings.HasSuffix (s +:+ suffix) suffix = true.
Proof.
  unfold strings.HasSuffix. rewrite bytes_append, rev_app_distr.
  apply hasPrefix_app.
Qed.

Lemma normalizeBaseURL_suffix (default baseURL : string) :
  strings.HasSuffix default "/v1" = true →
  strings.HasSuffix (normalizeBaseURL default baseURL) "/v1" = true.
Proof.
  intros Hd. unfold normalizeBaseURL.
  destruct (String.eqb baseURL ""); [done|].
  destruct (strings.HasSuffix baseURL "/v1") eqn:Hs; [done|].
  apply HasSuffix_append.
Qed.

Lemma normalizeBaseURL_fixed (default baseURL : string) :
  strings.HasSuffix baseURL "/v1" = true →
  normalizeBaseURL default baseURL = baseURL.
Proof.
  intros Hs. unfold normalizeBaseURL.
  destruct (String.eqb_spec baseURL "") as [->|_]; [done|].
  by rewrite Hs.
Qed.

(** X1: whatever base URL the caller passes, the base URL of an
    initialised client ends in "/v1": the empty URL becomes the vendor's
    public root, a URL that already ends in "/v1" is kept as it is, and
    any other URL loses one trailing slash and gets "/v1" appended.
    Initialising again with the stored URL changes nothing, and a nil
    HTTP client becomes the default client. *)
Theorem X1_client_base_url (apiKey baseURL : string) (client : option nat) :
  let o := openai_client.Init apiKey baseURL client in
  let a := anthropic_client.Init apiKey baseURL client in
  strings.HasSuffix (openai_client.baseURL o) "/v1" = true
  ∧ strings.HasSuffix (anthropic_client.baseURL a) "/v1" = true
  ∧ (baseURL = "" →
       openai_client.baseURL o = "https://api.openai.com/v1"
       ∧ anthropic_client.baseURL a = "https://api.anthropic.com/v1")
  ∧ (strings.HasSuffix baseURL "/v1" = true →
       openai_client.baseURL o = baseURL
       ∧ anthropic_client.baseURL a = baseURL)
  ∧ (baseURL ≠ "" → strings.HasSuffix baseURL "/v1" = false →
       openai_client.baseURL o = strings.TrimSuffix baseURL "/" +:+ "/v1"
       ∧ anthropic_client.baseURL a
         = strings.TrimSuffix baseURL "/" +:+ "/v1")
  ∧ openai_client.Init apiKey (openai_client.baseURL o) client = o
  ∧ anthropic_client.Init apiKey (anthropic_client.baseURL a) client = a
  ∧ (client = None →
       openai_client.client o = http_DefaultClient
       ∧ anthropic_client.client a = http_DefaultClient).
Proof.
  cbn zeta.
  assert (strings.HasSuffix
            (normalizeBaseURL "https://api.openai.com/v1" baseURL) "/v1"
          = true) as Ho by by apply normalizeBaseURL_suffix.
  assert (strings.HasSuffix
            (normalizeBaseURL "https://api.anthropic.com/v1" baseURL) "/v1"
          = true) as Ha by by apply normalizeBaseURL_suffix.
  split; [done|]. split; [done|].
  split; [by intros ->|].
  split; [intros Hs; cbn; by rewrite !normalizeBaseURL_fixed|].
  split.
  { intros Hne Hs. cbn. unfold normalizeBaseURL.
    destruct (String.eqb_spec baseURL ""); [done|]. by rewrite Hs. }
  split.
  { unfold openai_client.Init. cbn. f_equal. by apply normalizeBaseURL_fixed. }
  split.
  { unfold anthropic_client.Init. cbn. f_equal.
    by apply normalizeBaseURL_fixed. }
  by intros ->.
Qed.

Lemma X1_client_base_url_witness :
  openai_client.baseURL
    (openai_client.Init "key" "http://localhost:8080/" None)
  = "http://localhost:8080/v1"
  ∧ anthropic_client.baseURL
      (anthropic_client.Init "key" "http://localhost:8080/v1" None)
    = "http://localhost:8080/v1".
Proof.
  pose proof (X1_client_base_url "key" "http://localhost:8080/" None)
    as (_ & _ & _ & _ & [H1 _] & _); [done|reflexivity|].
  pose proof (X1_client_base_url "key" "http://localhost:8080/v1" None)
    as (_ & _ & _ & [_ H2] & _); [reflexivity|].
  split; [exact H1|exact H2].
Defined.

(** ** The methods of a message, as values *)

Lemma Message_Role_value (msg : llm.Message) :
  hasContent msg → llm.Message_Role msg = go_ret (roleOf msg).
Proof.
  destruct msg as [m|m|m|m|m]; try done.
  cbn. unfold google.Message_Role. by intros [content ->].
Qed.

Lemma Message_Content_value `{Libraries} (msg : llm.Message) :
  hasContent msg → llm.Message_Content msg = go_ret (contentOf msg).
Proof.
  destruct msg as [m|m|m|m|m]; try done.
  cbn. unfold google.Message_Content. by intros [content ->].
Qed.

Lemma Message_ToolResponse_value (msg : llm.Message) :
  hasContent msg → llm.Message_ToolResponse msg = go_ret (toolResponseOf msg).
Proof.
  destruct msg as [m|m|m|m|m]; try done.
  cbn. unfold google.Message_ToolResponse. by intros [content ->].
Qed.

Lemma IsToolResponse_value (msg : llm.Message) :
  hasContent msg → llm.IsToolResponse msg = go_ret (snd (toolResponseOf msg)).
Proof.
  intros Hc. unfold llm.IsToolResponse.
  by rewrite Message_ToolResponse_value.
Qed.

Lemma NewOllamaToolCall_run `{Libraries} (call : api.ToolCall) (t : nat) :
  ollama.NewOllamaToolCall call t =
  Some ({| ollama.call := call;
           ollama.id := "tc_" +:+ api.Name (api.Function call) +:+ "_"
                          +:+ fmt_d (time_UnixNano t) |}, S t).
Proof. reflexivity. Qed.

Lemma ollama_ToolCalls_run `{Libraries} (calls : list api.ToolCall) (t : nat) :
  ∃ stamped,
    go_mapM ollama.NewOllamaToolCall calls t
    = Some (stamped, (t + length calls)%nat)
    ∧ ollama.call <$> stamped = calls.
Proof.
  revert t. induction calls as [|call calls IH]; intros t.
  - exists []. cbn. unfold go_ret. by rewrite Nat.add_0_r.
  - destruct (IH (S t)) as (stamped & Hrun & Hcalls).
    eexists. cbn [go_mapM]. unfold go_bind.
    rewrite NewOllamaToolCall_run, Hrun. unfold go_ret.
    split; [do 2 f_equal; cbn; lia|]. cbn. by rewrite Hcalls.
Qed.

(** [ToolCalls()] always returns; the names and arguments of the calls
    it returns are the same at every time. *)
Lemma Message_ToolCalls_run `{Libraries} (msg : llm.Message) (t : nat) :
  ∃ calls t',
    llm.Message_ToolCalls msg t = Some (calls, t')
    ∧ callShape <$> calls = callShapesOf msg.
Proof.
  destruct msg as [m|m|m|m|m]; cbn;
    try (eexists _, _; split; [reflexivity|]; by rewrite <- list_fmap_compose).
  unfold ollama.OllamaMessage_ToolCalls, go_bind.
  destruct (ollama_ToolCalls_run (api.ToolCalls (ollama.Message m)) t)
    as (stamped & -> & Hcalls).
  eexists _, _. split; [reflexivity|].
  rewrite <- Hcalls, <- !list_fmap_compose. done.
Qed.

Lemma Message_ToolCalls_shapes `{Libraries} (msg : llm.Message) (t t' : nat)
    (calls : list llm.ToolCall) :
  llm.Message_ToolCalls msg t = Some (calls, t') →
  callShape <$> calls = callShapesOf msg.
Proof.
  intros Hrun. destruct (Message_ToolCalls_run msg t) as (c & t1 & Hc & Hs).
  by simplify_eq.
Qed.

(** ** Tool calls and tool results of stored and Anthropic messages *)

Lemma history_ToolCalls_loop (blocks : list history.ContentBlock)
    (calls : list history.HistoryToolCall) :
  fold_left
    (λ calls block,
       if String.eqb (history.Type_ block) "tool_use"
       then calls ++ [{| history.id := history.ID block;
                         history.name := history.Name block;
                         history.args := history.Input block |}]
       else calls)
    blocks calls
  = calls ++
    ((λ block, {| history.id := history.ID block;
                  history.name := history.Name block;
                  history.args := history.Input block |})
       <$> filter (λ block, history.Type_ block = "tool_use") blocks).
Proof.
  revert calls.
  induction blocks as [|block blocks IH]; intros calls; cbn [fold_left].
  - by rewrite app_nil_r.
  - rewrite IH, filter_cons.
    destruct (String.eqb_spec (history.Type_ block) "tool_use").
    + rewrite decide_True by done. rewrite fmap_cons.
      by rewrite <- app_assoc.
    + by rewrite decide_False.
Qed.

Lemma anthropic_ToolCalls_loop (blocks : list anthropic.ContentBlock)
    (calls : list anthropic.ToolCall) :
  fold_left
    (λ calls block,
       if String.eqb (anthropic.Type_ block) "tool_use"
       then calls ++ [{| anthropic.id := anthropic.ID block;
                         anthropic.name := anthropic.Name block;
                         anthropic.args := anthropic.Input block |}]
       else calls)
    blocks calls
  = calls ++
    ((λ block, {| anthropic.id := anthropic.ID block;
                  anthropic.name := anthropic.Name block;
                  anthropic.args := anthropic.Input block |})
       <$> filter (λ block, anthropic.Type_ block = "tool_use") blocks).
Proof.
  revert calls.
  induction blocks as [|block blocks IH]; intros calls; cbn [fold_left].
  - by rewrite app_nil_r.
  - rewrite IH, filter_cons.
    destruct (String.eqb_spec (anthropic.Type_ block) "tool_use").
    + rewrite decide_True by done. rewrite fmap_cons.
      by rewrite <- app_assoc.
    + by rewrite decide_False.
Qed.

(** X2: the tool calls of a stored turn and of an Anthropic message are
    its tool_use blocks, one call per block and in block order, each with
    the id, the name and the raw input of its block; blocks of any other
    type contribute nothing. *)
Theorem X2_tool_calls_are_the_tool_use_blocks :
  (∀ m : history.HistoryMessage,
     let uses := filter (λ block, history.Type_ block = "tool_use")
                   (history.AContent m) in
     history.HistoryToolCall_ID <$> history.HistoryMessage_ToolCalls m
     = history.ID <$> uses
     ∧ history.HistoryToolCall_Name <$> history.HistoryMessage_ToolCalls m
       = history.Name <$> uses
     ∧ history.args <$> history.HistoryMessage_ToolCalls m
       = history.Input <$> uses)
  ∧ (∀ m : anthropic.Message,
       let uses := filter (λ block, anthropic.Type_ block = "tool_use")
                     (anthropic.APIMessage.Content (anthropic.Msg m)) in
       anthropic.ToolCall_ID <$> anthropic.Message_ToolCalls m
       = anthropic.ID <$> uses
       ∧ anthropic.ToolCall_Name <$> anthropic.Message_ToolCalls m
         = anthropic.Name <$> uses
       ∧ anthropic.args <$> anthropic.Message_ToolCalls m
         = anthropic.Input <$> uses).
Proof.
  split; intros m uses.
  - unfold history.HistoryMessage_ToolCalls. rewrite history_ToolCalls_loop.
    cbn [app]. fold uses. by rewrite <- !list_fmap_compose.
  - unfold anthropic.Message_ToolCalls. rewrite anthropic_ToolCalls_loop.
    cbn [app]. fold uses. by rewrite <- !list_fmap_compose.
Qed.

Lemma history_firstToolResult (blocks : list history.ContentBlock) :
  match filter (λ block, history.Type_ block = "tool_result") blocks with
  | [] => history.firstToolResult blocks = ("", false)
  | block :: _ =>
      history.firstToolResult blocks = (history.ToolUseID block, true)
  end.
Proof.
  induction blocks as [|block blocks IH]; [done|].
  rewrite filter_cons. cbn [history.firstToolResult anthropic.firstToolResult].
  destruct (String.eqb_spec (history.Type_ block) "tool_result").
  - by rewrite decide_True.
  - by rewrite decide_False.
Qed.

Lemma anthropic_firstToolResult (blocks : list anthropic.ContentBlock) :
  match filter (λ block, anthropic.Type_ block = "tool_result") blocks with
  | [] => anthropic.firstToolResult blocks = ("", false)
  | block :: _ =>
      anthropic.firstToolResult blocks = (anthropic.ToolUseID block, true)
  end.
Proof.
  induction blocks as [|block blocks IH]; [done|].
  rewrite filter_cons. cbn [history.firstToolResult anthropic.firstToolResult].
  destruct (String.eqb_spec (anthropic.Type_ block) "tool_result").
  - by rewrite decide_True.
  - by rewrite decide_False.
Qed.

(** X3: a stored turn or an Anthropic message is a tool response exactly
    when it holds a tool_result block; the id it reports is that of the
    first such block, later ones are not looked at, and without any the
    id is empty. *)
Theorem X3_tool_response_is_the_first_tool_result :
  (∀ m : history.HistoryMessage,
     match filter (λ block, history.Type_ block = "tool_result")
             (history.AContent m) with
     | [] => history.HistoryMessage_ToolResponse m = ("", false)
     | block :: _ =>
         history.HistoryMessage_ToolResponse m
         = (history.ToolUseID block, true)
     end)
  ∧ (∀ m : anthropic.Message,
       match filter (λ block, anthropic.Type_ block = "tool_result")
               (anthropic.APIMessage.Content (anthropic.Msg m)) with
       | [] => anthropic.Message_ToolResponse m = ("", false)
       | block :: _ =>
           anthropic.Message_ToolResponse m
           = (anthropic.ToolUseID block, true)
       end).
Proof.
  split; intros m.
  - apply history_firstToolResult.
  - apply anthropic_firstToolResult.
Qed.

(** ** The Ollama adapter: the request *)

Lemma enumStrings_loop (enumRaw : list any) (enum : list string) :
  fold_left
    (λ enum e,
       match asString e with
       | Some str => enum ++ [str]
       | None => enum
       end)
    enumRaw enum
  = enum ++ omap asString enumRaw.
Proof.
  revert enum. induction enumRaw as [|e enumRaw IH]; intros enum;
    cbn [fold_left omap list_omap].
  - by rewrite app_nil_r.
  - rewrite IH. destruct (asString e); [|done]. by rewrite <- app_assoc.
Qed.

Lemma getString_spec (m : gmap string any) (key s : string) :
  ollama_send.getString m key = s
  ↔ m !! key = Some (AString s)
    ∨ (s = "" ∧ ∀ s', m !! key ≠ Some (AString s')).
Proof.
  unfold ollama_send.getString, index.
  destruct (m !! key) as [[]|] eqn:Hk; cbn; split;
    try (intros <-; right; by split);
    try (intros [?|[-> _]]; by simplify_eq).
  - intros <-. by left.
  - intros [?|[-> Hno]]; [by simplify_eq|]. by destruct (Hno s0).
Qed.

(** X4: the Ollama adapter keeps a property of a tool schema exactly
    when its value is an object; of such a property it keeps the type
    and the description when they are strings (the empty string
    otherwise) and, of an enum that is an array, the strings in their
    order.  Every other property is dropped without an error. *)
Theorem X4_ollama_convertProperties (props : gmap string any)
    (name : string) (p : ollama_send.Property) :
  ollama_send.convertProperties props !! name = Some p →
  ∃ m, props !! name = Some (AMap m)
       ∧ (∀ s, ollama_send.Type_ p = s
               ↔ m !! "type" = Some (AString s)
                 ∨ (s = "" ∧ ∀ s', m !! "type" ≠ Some (AString s')))
       ∧ (∀ s, ollama_send.Description p = s
               ↔ m !! "description" = Some (AString s)
                 ∨ (s = ""
                    ∧ ∀ s', m !! "description" ≠ Some (AString s')))
       ∧ ollama_send.Enum p
         = match m !! "enum" with
           | Some (ASlice enumRaw) => omap asString enumRaw
           | _ => []
           end.
Proof.
  unfold ollama_send.convertProperties. rewrite lookup_omap.
  destruct (props !! name) as [[]|] eqn:Hname; cbn; try done.
  intros [= <-]. eexists. split; [done|]. cbn.
  split; [intros s; apply getString_spec|].
  split; [intros s; apply getString_spec|].
  unfold index. destruct (m !! "enum") as [[]|]; cbn; try done.
  unfold ollama_send.enumStrings. by rewrite enumStrings_loop.
Qed.

Lemma X4_ollama_convertProperties_witness :
  ∃ m, (llm_types.Properties weatherSchema) !! "location" = Some (AMap m)
       ∧ ollama_send.convertProperties (llm_types.Properties weatherSchema)
           !! "location"
         = Some {| ollama_send.Type_ := "string";
                   ollama_send.Description := "";
                   ollama_send.Enum := [] |}.
Proof.
  assert (ollama_send.convertProperties (llm_types.Properties weatherSchema)
            !! "location"
          = Some {| ollama_send.Type_ := "string";
                    ollama_send.Description := "";
                    ollama_send.Enum := [] |}) as Hp
    by (vm_compute; reflexivity).
  destruct (X4_ollama_convertProperties (llm_types.Properties weatherSchema)
              "location" _ Hp)
    as (m & Hm & _).
  exists m. split; [exact Hm|exact Hp].
Defined.

(** A property is kept exactly when its value is an object. *)
Lemma ollama_convertProperties_dom (props : gmap string any) (name : string) :
  is_Some (ollama_send.convertProperties props !! name)
  ↔ ∃ m, props !! name = Some (AMap m).
Proof.
  unfold ollama_send.convertProperties. rewrite lookup_omap.
  destruct (props !! name) as [[]|]; cbn; split;
    try (intros [? [=]]); try (intros [? ?]; by simplify_eq); eauto.
Qed.

Lemma go_bind_ret_l {A B} (a : A) (f : A → Go B) :
  (x <- go_ret a ;; f x) = f a.
Proof. reflexivity. Qed.

Lemma go_bind_run {A B} (m : Go A) (f : A → Go B) (t t' : nat) (a : A) :
  m t = Some (a, t') → (x <- m ;; f x) t = f a t'.
Proof. unfold go_bind. by intros ->. Qed.

Lemma firstToolResultText_head (blocks : list history.ContentBlock) :
  ollama_send.firstToolResultText blocks
  = default ""
      (history.Text
         <$> head (filter (λ block, history.Type_ block = "tool_result")
                     blocks)).
Proof.
  induction blocks as [|block blocks IH]; [done|].
  rewrite filter_cons. cbn [ollama_send.firstToolResultText].
  destruct (String.eqb_spec (history.Type_ block) "tool_result").
  - by rewrite decide_True.
  - by rewrite decide_False.
Qed.

Lemma toolCallsOf_loop `{Libraries} (calls : list llm.ToolCall)
    (toolCalls : list api.ToolCall) :
  fold_left
    (λ toolCalls call,
       if negb (String.eqb (llm.ToolCall_Name call) "")
       then toolCalls
              ++ [{| api.Function :=
                       {| api.Name := llm.ToolCall_Name call;
                          api.Arguments := llm.ToolCall_Arguments call |} |}]
       else toolCalls)
    calls toolCalls
  = toolCalls ++
    ((λ call, {| api.Function :=
                   {| api.Name := llm.ToolCall_Name call;
                      api.Arguments := llm.ToolCall_Arguments call |} |})
       <$> filter (λ call, llm.ToolCall_Name call ≠ "") calls).
Proof.
  revert toolCalls.
  induction calls as [|call calls IH]; intros toolCalls; cbn [fold_left].
  - by rewrite app_nil_r.
  - rewrite IH, filter_cons.
    destruct (String.eqb_spec (llm.ToolCall_Name call) "") as [Heq|Hne]; cbn.
    + by rewrite decide_False by (by intros ?).
    + rewrite decide_True by done. rewrite fmap_cons.
      by rewrite <- app_assoc.
Qed.

Lemma toolCallsOf_shapes `{Libraries} (calls : list llm.ToolCall) :
  (λ call, (api.Name (api.Function call), api.Arguments (api.Function call)))
    <$> ollama_send.toolCallsOf calls
  = filter (λ shape, shape.1 ≠ "") (callShape <$> calls).
Proof.
  unfold ollama_send.toolCallsOf. rewrite toolCallsOf_loop. cbn [app].
  rewrite <- list_fmap_compose.
  induction calls as [|call calls IH]; [done|].
  rewrite fmap_cons, !filter_cons. cbn.
  destruct (decide (llm.ToolCall_Name call ≠ "")); cbn; by rewrite IH.
Qed.

(** X5: of a prior message that is a tool response the Ollama adapter
    sends only a text: that of the first stored tool_result block, or
    [Content()] when that text is empty or the message is not a stored
    turn.  With an empty text the message is left out of the request;
    otherwise it is sent with the role "tool" and without tool calls,
    whatever role and tool calls the message has. *)
Theorem X5_ollama_tool_response_message `{Libraries} (msg : llm.Message)
    (t : nat) :
  hasContent msg →
  snd (toolResponseOf msg) = true →
  let stored :=
    match msg with
    | llm.HistoryMessage historyMsg =>
        default ""
          (history.Text
             <$> head (filter (λ block, history.Type_ block = "tool_result")
                         (history.AContent historyMsg)))
    | _ => ""
    end in
  let content := if String.eqb stored "" then contentOf msg else stored in
  ollama_send.convertMessage msg t
  = Some (if String.eqb content "" then None
          else Some {| api.Role := "tool"; api.Content := content;
                       api.ToolCalls := [] |},
          t).
Proof.
  intros Hc Htool stored content. unfold ollama_send.convertMessage.
  rewrite IsToolResponse_value by done. rewrite Htool.
  rewrite Message_Content_value by done.
  assert (match msg with
          | llm.HistoryMessage historyMsg =>
              ollama_send.firstToolResultText (history.AContent historyMsg)
          | _ => ""
          end = stored) as ->.
  { destruct msg; try done. apply firstToolResultText_head. }
  unfold go_bind, go_ret. subst content.
  destruct (String.eqb stored ""); by destruct (String.eqb _ "").
Qed.

(** X6: of a prior message that is no tool response the Ollama adapter
    leaves out exactly those with an empty [Content()] and no tool call.
    A message it sends keeps its role and its content; it carries tool
    calls only under the role "assistant", and then those with a
    non-empty name, in order, with their arguments unchanged.  So a
    message of another role that has tool calls but no text is sent
    empty. *)
Theorem X6_ollama_plain_message `{Libraries} (msg : llm.Message) (t : nat) :
  hasContent msg →
  snd (toolResponseOf msg) = false →
  ∃ r t',
    ollama_send.convertMessage msg t = Some (r, t')
    ∧ (r = None ↔ contentOf msg = "" ∧ callShapesOf msg = [])
    ∧ ∀ m, r = Some m →
        api.Role m = roleOf msg
        ∧ api.Content m = contentOf msg
        ∧ (λ call, (api.Name (api.Function call),
                    api.Arguments (api.Function call)))
            <$> api.ToolCalls m
          = if String.eqb (roleOf msg) "assistant"
            then filter (λ shape, shape.1 ≠ "") (callShapesOf msg)
            else [].
Proof.
  intros Hc Htool.
  assert (∀ t1, ∃ m t2,
    (role <- llm.Message_Role msg ;;
     content <- llm.Message_Content msg ;;
     role' <- llm.Message_Role msg ;;
     toolCalls <-
       (if String.eqb role' "assistant" then
          calls <- llm.Message_ToolCalls msg ;;
          go_ret (ollama_send.toolCallsOf calls)
        else go_ret []) ;;
     go_ret (Some {| api.Role := role; api.Content := content;
                     api.ToolCalls := toolCalls |})) t1 = Some (Some m, t2)
    ∧ api.Role m = roleOf msg
    ∧ api.Content m = contentOf msg
    ∧ (λ call, (api.Name (api.Function call),
                api.Arguments (api.Function call)))
        <$> api.ToolCalls m
      = if String.eqb (roleOf msg) "assistant"
        then filter (λ shape, shape.1 ≠ "") (callShapesOf msg)
        else []) as Hsend.
  { intros t1. rewrite Message_Role_value, go_bind_ret_l by done.
    rewrite Message_Content_value, go_bind_ret_l by done.
    rewrite go_bind_ret_l.
    destruct (String.eqb (roleOf msg) "assistant").
    - destruct (Message_ToolCalls_run msg t1) as (calls & t2 & Hrun & Hs).
      erewrite go_bind_run
        by (erewrite go_bind_run by exact Hrun; reflexivity).
      eexists _, _. split; [reflexivity|]. cbn.
      split; [done|]. split; [done|].
      by rewrite toolCallsOf_shapes, Hs.
    - rewrite go_bind_ret_l. eexists _, _. split; [reflexivity|]. done. }
  unfold ollama_send.convertMessage.
  rewrite IsToolResponse_value, go_bind_ret_l, Htool by done.
  rewrite Message_Content_value, go_bind_ret_l by done.
  rewrite <- (Message_Content_value msg) by done.
  destruct (String.eqb_spec (contentOf msg) "") as [Hempty|Hfull].
  - destruct (Message_ToolCalls_run msg t) as (calls & t1 & Hrun & Hs).
    erewrite go_bind_run
      by (erewrite go_bind_run by exact Hrun; reflexivity).
    destruct (Z.eqb_spec (len calls) 0) as [Hlen|Hlen].
    + apply len_zero in Hlen. subst calls. cbn in Hs.
      eexists _, _. split; [reflexivity|]. split; [done|]. done.
    + destruct (Hsend t1) as (m & t2 & -> & Hm).
      eexists _, _. split; [reflexivity|]. split.
      * split; [done|]. intros [_ Hno]. rewrite Hno in Hs.
        apply fmap_nil_inv in Hs. subst calls. by destruct Hlen.
      * intros m' [= <-]. exact Hm.
  - rewrite go_bind_ret_l.
    destruct (Hsend t) as (m & t2 & -> & Hm).
    eexists _, _. split; [reflexivity|]. split.
    + split; [done|]. by intros [? _].
    + intros m' [= <-]. exact Hm.
Qed.

Lemma X6_ollama_plain_message_witness :
  ∃ t',
    @ollama_send.convertMessage sample.libraries userToolUse 0%nat
    = Some (Some {| api.Role := "user"; api.Content := "";
                    api.ToolCalls := [] |}, t').
Proof.
  destruct (@X6_ollama_plain_message sample.libraries userToolUse 0%nat I
              eq_refl)
    as (r & t' & Hrun & _ & _).
  exists t'. rewrite Hrun. vm_compute in Hrun.
  injection Hrun as <- <-. reflexivity.
Defined.

Arguments strings.TrimSpace : simpl never.

Lemma X5_ollama_tool_response_message_witness :
  @ollama_send.convertMessage sample.libraries
    (llm.OllamaMessage
       {| ollama.Message :=
            {| api.Role := "tool"; api.Content := " 22C ";
               api.ToolCalls := [] |};
          ollama.ToolCallID := "call_1" |}) 0%nat
  = Some (Some {| api.Role := "tool"; api.Content := "22C";
                  api.ToolCalls := [] |}, 0%nat).
Proof.
  exact (@X5_ollama_tool_response_message sample.libraries
           (llm.OllamaMessage
              {| ollama.Message :=
                   {| api.Role := "tool"; api.Content := " 22C ";
                      api.ToolCalls := [] |};
                 ollama.ToolCallID := "call_1" |}) 0%nat I eq_refl).
Defined.

Lemma go_mapM_Forall2 {A B} (f : A → Go B) (R : A → B → Prop)
    (l : list A) (t t' : nat) (bs : list B) :
  (∀ a t b t', f a t = Some (b, t') → R a b) →
  go_mapM f l t = Some (bs, t') → Forall2 R l bs.
Proof.
  intros Hf. revert t t' bs.
  induction l as [|a l IH]; intros t t' bs; cbn [go_mapM].
  - intros [= <- _]. constructor.
  - intros Hrun.
    apply go_bind_Some in Hrun as (b & t1 & Hb & Hrun).
    apply go_bind_Some in Hrun as (bs' & t2 & Hbs & Hrun).
    apply go_ret_Some in Hrun as [<- _].
    constructor; [by eapply Hf|by eapply IH].
Qed.

Lemma ollama_convertMessage_returns `{Libraries} (msg : llm.Message) :
  hasContent msg → returns (ollama_send.convertMessage msg).
Proof.
  intros Hc. unfold ollama_send.convertMessage, llm.IsToolResponse.
  pose proof (Message_Role_returns msg Hc).
  pose proof (Message_Content_returns msg Hc).
  pose proof (Message_ToolResponse_returns msg Hc).
  pose proof (Message_ToolCalls_returns msg).
  solve_returns.
Qed.

Lemma lastDone_loop (responses : list ollama_send.ChatResponse)
    (response : api.Message) :
  fold_left
    (λ response r,
       if ollama_send.Done r then ollama_send.Message r else response)
    responses response
  = default response
      (ollama_send.Message
         <$> last (filter (λ r, ollama_send.Done r) responses)).
Proof.
  induction responses as [|r responses IH] using rev_ind; [done|].
  rewrite fold_left_app, filter_app, filter_cons, filter_nil. cbn.
  destruct (ollama_send.Done r) eqn:Hdone.
  - destruct (decide (Is_true true)) as [_|Hn]; [|by destruct Hn].
    by rewrite last_snoc.
  - destruct (decide (Is_true false)) as [[]|_]. by rewrite app_nil_r.
Qed.

(** X7: a tool result made by the Ollama adapter's [CreateToolResponse]
    and handed back as a prior message is sent as a message of role
    "tool" whose content is the text of the result, trimmed: the string
    itself, or its JSON encoding.  The id of the tool call is not sent,
    and a result whose text is blank is left out of the request.  When
    the content cannot be encoded, no message is made. *)
Theorem X7_ollama_tool_result_round_trip `{Libraries} (toolCallID : string)
    (content : any) (t : nat) :
  match ollama_provider.CreateToolResponse toolCallID content with
  | (Some msg, None) =>
      ∃ text,
        (content = AString text
         ∨ asString content = None ∧ json_Marshal content = inl text)
        ∧ ollama_send.convertMessage msg t
          = Some (if String.eqb (strings.TrimSpace text) "" then None
                  else Some {| api.Role := "tool";
                               api.Content := strings.TrimSpace text;
                               api.ToolCalls := [] |},
                  t)
  | (None, Some err) =>
      asString content = None ∧ ∃ e, json_Marshal content = inr e
  | _ => False
  end.
Proof.
  unfold ollama_provider.CreateToolResponse.
  assert (∀ text,
    ollama_send.convertMessage
      (llm.OllamaMessage
         {| ollama.Message :=
              {| api.Role := "tool"; api.Content := text;
                 api.ToolCalls := [] |};
            ollama.ToolCallID := toolCallID |}) t
    = Some (if String.eqb (strings.TrimSpace text) "" then None
            else Some {| api.Role := "tool";
                         api.Content := strings.TrimSpace text;
                         api.ToolCalls := [] |},
            t)) as Hsend.
  { intros text. unfold ollama_send.convertMessage.
    rewrite IsToolResponse_value by done. rewrite go_bind_ret_l. cbn.
    unfold go_bind, go_ret, ollama.OllamaMessage_Content. cbn.
    by destruct (String.eqb (strings.TrimSpace text) ""). }
  destruct content; cbn;
    try (destruct (json_Marshal _) as [text|e] eqn:Hm;
         [exists text; split; [by right|apply Hsend]|split; [done|by eexists]]).
  exists s. split; [by left|apply Hsend].
Qed.

(** X8: the Ollama adapter builds its request without failing.  The
    request names the model of the provider, asks for no streaming and
    has one tool per tool; its messages are at most one per prior
    message, followed by the prompt as a user message exactly when the
    prompt is not empty.  An error of the client is returned as it is,
    with no message.  Otherwise the answer is the message of the last
    response that is done, and the empty message when none is. *)
Theorem X8_ollama_SendMessage `{Libraries} (p : ollama_send.Provider)
    (client_Chat : ollama_send.ChatRequest
                   → list ollama_send.ChatResponse * option error)
    (prompt : string) (messages : list llm.Message)
    (tools : list llm_types.Tool) (t : nat) :
  Forall hasContent messages →
  ∃ req prior t',
    ollama_send.buildRequest p prompt messages tools t = Some (req, t')
    ∧ ollama_send.Model req = ollama_send.model p
    ∧ ollama_send.Stream req = Some false
    ∧ length (ollama_send.Tools req) = length tools
    ∧ ollama_send.Messages req
      = prior ++ (if String.eqb prompt "" then []
                  else [{| api.Role := "user"; api.Content := prompt;
                           api.ToolCalls := [] |}])
    ∧ (length prior ≤ length messages)%nat
    ∧ ollama_send.SendMessage p client_Chat prompt messages tools t
      = Some (match client_Chat req with
              | (_, Some err) => (None, Some err)
              | (responses, None) =>
                  (Some (llm.OllamaMessage
                           {| ollama.Message :=
                                default
                                  {| api.Role := ""; api.Content := "";
                                     api.ToolCalls := [] |}
                                  (ollama_send.Message
                                     <$> last (filter
                                                 (λ r, ollama_send.Done r)
                                                 responses));
                              ollama.ToolCallID := "" |}),
                   None)
              end, t').
Proof.
  intros Hc.
  destruct (returns_mapM_Forall hasContent ollama_send.convertMessage
              messages ollama_convertMessage_returns Hc t)
    as [[converted t'] Hrun].
  assert (length converted = length messages) as Hlen.
  { symmetry. eapply Forall2_length.
    eapply (go_mapM_Forall2 _ (λ _ _, True)); [done|exact Hrun]. }
  assert (∃ req,
    ollama_send.buildRequest p prompt messages tools t = Some (req, t')
    ∧ ollama_send.Model req = ollama_send.model p
    ∧ ollama_send.Stream req = Some false
    ∧ ollama_send.Tools req = ollama_send.convertTool <$> tools
    ∧ ollama_send.Messages req
      = omap id converted
        ++ (if String.eqb prompt "" then []
            else [{| api.Role := "user"; api.Content := prompt;
                     api.ToolCalls := [] |}]))
    as (req & Hreq & Hm & Hs & Ht & Hms).
  { unfold ollama_send.buildRequest.
    erewrite go_bind_run by exact Hrun.
    eexists. split; [reflexivity|]. cbn.
    destruct (String.eqb prompt ""); cbn; by rewrite ?app_nil_r. }
  exists req, (omap id converted), t'.
  split; [done|]. split; [done|]. split; [done|].
  split; [by rewrite Ht, length_fmap|]. split; [done|].
  split.
  { rewrite <- Hlen. clear. induction converted as [|[m|] l IH]; cbn; lia. }
  unfold ollama_send.SendMessage.
  erewrite go_bind_run by exact Hreq.
  destruct (client_Chat req) as [responses [err|]]; [done|].
  unfold ollama_send.lastDone. by rewrite lastDone_loop.
Qed.

Lemma X8_ollama_SendMessage_witness :
  ∃ req t',
    @ollama_send.buildRequest sample.libraries
      {| ollama_send.model := "llama3" |} "hello" [userToolUse] [] 0%nat
    = Some (req, t')
    ∧ length (ollama_send.Messages req) = 2%nat.
Proof.
  destruct (@X8_ollama_SendMessage sample.libraries
              {| ollama_send.model := "llama3" |} (λ _, ([], None))
              "hello" [userToolUse] [] 0%nat)
    as (req & prior & t' & Hreq & _).
  - repeat constructor.
  - exists req, t'. split; [exact Hreq|].
    vm_compute in Hreq. injection Hreq as <- _. reflexivity.
Defined.

(** ** [strings.TrimSpace] leaves nothing to trim *)

Lemma trimLeft_cons (c0 : ascii) (l1 : list ascii) :
  strings.trimLeft (c0 :: l1)
  = if strings.space1 c0 then strings.trimLeft l1
    else match l1 with
         | [] => c0 :: l1
         | c1 :: l2 =>
             if strings.space2 c0 c1 then strings.trimLeft l2
             else match l2 with
                  | [] => c0 :: l1
                  | c2 :: l3 =>
                      if strings.space3 c0 c1 c2 then strings.trimLeft l3
                      else c0 :: l1
                  end
         end.
Proof. by destruct l1 as [|c1 [|c2 l3]]. Qed.

Lemma trimRev_cons (c2 : ascii) (r1 : list ascii) :
  strings.trimRev (c2 :: r1)
  = if strings.space1 c2 then strings.trimRev r1
    else match r1 with
         | [] => c2 :: r1
         | c1 :: r2 =>
             if strings.space2 c1 c2 then strings.trimRev r2
             else match r2 with
                  | [] => c2 :: r1
                  | c0 :: r3 =>
                      if strings.space3 c0 c1 c2 then strings.trimRev r3
                      else c2 :: r1
                  end
         end.
Proof. by destruct r1 as [|c1 [|c0 r3]]. Qed.

(** Splits a goal about [trimLeft] or [trimRev] of a list of length at
    most [S n] along the runes the function decodes: [tac] closes the
    cases in which a rune is trimmed, [fin] those in which none is. *)
Ltac trim_cases eqn l Hl tac fin :=
  destruct l as [|?c ?l]; [done|]; rewrite eqn; cbn [length] in Hl;
  destruct (strings.space1 _) eqn:?; [tac|];
  match goal with
  | |- context [match ?l1 with [] => _ | _ :: _ => _ end] =>
      destruct l1 as [|?c ?l]; [fin|]; cbn [length] in Hl;
      destruct (strings.space2 _ _) eqn:?; [tac|];
      match goal with
      | |- context [match ?l2 with [] => _ | _ :: _ => _ end] =>
          destruct l2 as [|?c ?l]; [fin|]; cbn [length] in Hl;
          destruct (strings.space3 _ _ _) eqn:?; [tac|fin]
      end
  end.

Lemma trimLeft_suffix_n (n : nat) (l : list ascii) :
  (length l ≤ n)%nat → strings.trimLeft l `suffix_of` l.
Proof.
  revert l. induction n as [|n IH]; intros l Hl.
  - destruct l; [done|cbn in Hl; lia].
  - trim_cases trimLeft_cons l Hl
      ltac:(repeat apply suffix_cons_r; apply IH; lia) ltac:(done).
Qed.

Lemma trimRev_suffix_n (n : nat) (r : list ascii) :
  (length r ≤ n)%nat → strings.trimRev r `suffix_of` r.
Proof.
  revert r. induction n as [|n IH]; intros r Hr.
  - destruct r; [done|cbn in Hr; lia].
  - trim_cases trimRev_cons r Hr
      ltac:(repeat apply suffix_cons_r; apply IH; lia) ltac:(done).
Qed.

Lemma trimLeft_suffix (l : list ascii) : strings.trimLeft l `suffix_of` l.
Proof. by apply (trimLeft_suffix_n (length l)). Qed.

Lemma trimRev_suffix (r : list ascii) : strings.trimRev r `suffix_of` r.
Proof. by apply (trimRev_suffix_n (length r)). Qed.

Lemma trimLeft_idem_n (n : nat) (l : list ascii) :
  (length l ≤ n)%nat →
  strings.trimLeft (strings.trimLeft l) = strings.trimLeft l.
Proof.
  revert l. induction n as [|n IH]; intros l Hl.
  - destruct l; [done|cbn in Hl; lia].
  - trim_cases trimLeft_cons l Hl ltac:(apply IH; lia)
      ltac:(rewrite trimLeft_cons;
            repeat match goal with
                   | E : _ = false |- _ => rewrite E; clear E
                   end;
            done).
Qed.

Lemma trimRev_idem_n (n : nat) (r : list ascii) :
  (length r ≤ n)%nat →
  strings.trimRev (strings.trimRev r) = strings.trimRev r.
Proof.
  revert r. induction n as [|n IH]; intros r Hr.
  - destruct r; [done|cbn in Hr; lia].
  - trim_cases trimRev_cons r Hr ltac:(apply IH; lia)
      ltac:(rewrite trimRev_cons;
            repeat match goal with
                   | E : _ = false |- _ => rewrite E; clear E
                   end;
            done).
Qed.

(** A list that starts with a white-space rune is not its own trimming. *)
Lemma trimLeft_shorter (l pre : list ascii) :
  pre ≠ [] → strings.trimLeft l ≠ pre ++ l.
Proof.
  intros Hpre Heq. pose proof (suffix_length _ _ (trimLeft_suffix l)) as Hlen.
  rewrite Heq, length_app in Hlen. destruct pre; [done|cbn in Hlen; lia].
Qed.

Lemma trimRev_shorter (r pre : list ascii) :
  pre ≠ [] → strings.trimRev r ≠ pre ++ r.
Proof.
  intros Hpre Heq. pose proof (suffix_length _ _ (trimRev_suffix r)) as Hlen.
  rewrite Heq, length_app in Hlen. destruct pre; [done|cbn in Hlen; lia].
Qed.

(** Cutting the end off a list with nothing to trim on the left leaves
    nothing to trim on the left. *)
Lemma trimLeft_fixed_prefix (x p : list ascii) :
  strings.trimLeft x = x → p `prefix_of` x → strings.trimLeft p = p.
Proof.
  intros Hx [k ->].
  destruct p as [|c0 p1]; [done|]. cbn [app] in Hx.
  rewrite trimLeft_cons in Hx. rewrite trimLeft_cons.
  destruct (strings.space1 c0).
  { by destruct (trimLeft_shorter (p1 ++ k) [c0]). }
  destruct p1 as [|c1 p2]; [done|]. cbn [app] in Hx.
  destruct (strings.space2 c0 c1).
  { by destruct (trimLeft_shorter (p2 ++ k) [c0; c1]). }
  destruct p2 as [|c2 p3]; [done|]. cbn [app] in Hx.
  destruct (strings.space3 c0 c1 c2); [|done].
  by destruct (trimLeft_shorter (p3 ++ k) [c0; c1; c2]).
Qed.

Lemma TrimSpace_left_fixed (s : string) :
  strings.trimLeft (strings.bytes (strings.TrimSpace s))
  = strings.bytes (strings.TrimSpace s).
Proof.
  unfold strings.TrimSpace, strings.trimRight. rewrite bytes_str.
  apply (trimLeft_fixed_prefix (strings.trimLeft (strings.bytes s))).
  - by apply (trimLeft_idem_n (length (strings.bytes s))).
  - destruct (trimRev_suffix (rev (strings.trimLeft (strings.bytes s))))
      as [k Hk].
    exists (rev k).
    rewrite <- (rev_involutive (strings.trimLeft (strings.bytes s))) at 1.
    rewrite <- rev_app_distr. f_equal. exact Hk.
Qed.

Lemma TrimSpace_right_fixed (s : string) :
  strings.trimRev (rev (strings.bytes (strings.TrimSpace s)))
  = rev (strings.bytes (strings.TrimSpace s)).
Proof.
  unfold strings.TrimSpace, strings.trimRight.
  rewrite bytes_str, rev_involutive.
  by apply (trimRev_idem_n (length (rev (strings.trimLeft (strings.bytes s))))).
Qed.

Lemma TrimSpace_idem (s : string) :
  strings.TrimSpace (strings.TrimSpace s) = strings.TrimSpace s.
Proof.
  unfold strings.TrimSpace at 1. unfold strings.trimRight.
  rewrite TrimSpace_left_fixed, TrimSpace_right_fixed, rev_involutive.
  apply str_bytes.
Qed.

Lemma TrimSpace_no_leading_space (s : string) (c : ascii)
    (rest : list ascii) :
  strings.bytes (strings.TrimSpace s) = c :: rest →
  strings.space1 c = false.
Proof.
  intros Hb. pose proof (TrimSpace_left_fixed s) as Hfix.
  rewrite Hb, trimLeft_cons in Hfix.
  destruct (strings.space1 c); [|done].
  by destruct (trimLeft_shorter rest [c]).
Qed.

Lemma TrimSpace_no_trailing_space (s : string) (c : ascii)
    (front : list ascii) :
  strings.bytes (strings.TrimSpace s) = front ++ [c] →
  strings.space1 c = false.
Proof.
  intros Hb. pose proof (TrimSpace_right_fixed s) as Hfix.
  rewrite Hb, rev_app_distr in Hfix. cbn [rev app] in Hfix.
  rewrite trimRev_cons in Hfix.
  destruct (strings.space1 c); [|done].
  by destruct (trimRev_shorter (rev front) [c]).
Qed.

(** X9: [Content()] of a stored turn, of an Anthropic message and of an
    Ollama message is trimmed: trimming it again changes nothing, and it
    neither starts nor ends with a blank, a tab or a line break. *)
Theorem X9_Content_is_trimmed `{Libraries} (msg : llm.Message) (t : nat)
    (content : string) (t' : nat) :
  (∀ m, msg ≠ llm.OpenAIMessage m) →
  (∀ m, msg ≠ llm.GoogleMessage m) →
  llm.Message_Content msg t = Some (content, t') →
  strings.TrimSpace content = content
  ∧ (∀ c rest,
       strings.bytes content = c :: rest → strings.space1 c = false)
  ∧ (∀ c front,
       strings.bytes content = front ++ [c] → strings.space1 c = false).
Proof.
  intros Hopenai Hgoogle Hrun.
  assert (∃ s, content = strings.TrimSpace s) as [s ->].
  { destruct msg as [m|m|m|m|m]; cbn in Hrun;
      try (injection Hrun as <- _; by eexists).
    - by destruct (Hopenai m).
    - by destruct (Hgoogle m). }
  split; [apply TrimSpace_idem|].
  split; intros c l Hb.
  - by eapply TrimSpace_no_leading_space.
  - by eapply TrimSpace_no_trailing_space.
Qed.

Lemma X9_Content_is_trimmed_witness :
  @llm.Message_Content sample.libraries
    (llm.OllamaMessage
       {| ollama.Message :=
            {| api.Role := "assistant"; api.Content := " 22C ";
               api.ToolCalls := [] |};
          ollama.ToolCallID := "" |}) 0%nat
  = Some ("22C", 0%nat)
  ∧ strings.TrimSpace "22C" = "22C".
Proof.
  split; [reflexivity|].
  refine (proj1 (@X9_Content_is_trimmed sample.libraries
                   (llm.OllamaMessage
                      {| ollama.Message :=
                           {| api.Role := "assistant"; api.Content := " 22C ";
                              api.ToolCalls := [] |};
                         ollama.ToolCallID := "" |})
                   0%nat "22C" 0%nat _ _ eq_refl)); intros m; discriminate.
Defined.

(** ** The Anthropic adapter: the request *)

Lemma storedToolResults_loop (blocks : list history.ContentBlock)
    (content : list anthropic.ContentBlock) :
  fold_left
    (λ content block,
       if String.eqb (history.Type_ block) "tool_result"
       then content ++ [anthropic_send.toolResultBlock
                          (history.ToolUseID block) (history.Content block)]
       else content)
    blocks content
  = content ++
    ((λ block, anthropic_send.toolResultBlock (history.ToolUseID block)
                 (history.Content block))
       <$> filter (λ block, history.Type_ block = "tool_result") blocks).
Proof.
  revert content.
  induction blocks as [|block blocks IH]; intros content; cbn [fold_left].
  - by rewrite app_nil_r.
  - rewrite IH, filter_cons.
    destruct (String.eqb_spec (history.Type_ block) "tool_result").
    + rewrite decide_True by done. rewrite fmap_cons.
      by rewrite <- app_assoc.
    + by rewrite decide_False.
Qed.

(** The message parameter the Anthropic adapter makes of a prior
    message. *)
Lemma anthropic_convertMessage_run `{Libraries} (msg : llm.Message)
    (t : nat) :
  hasContent msg →
  ∃ calls t',
    llm.Message_ToolCalls msg t = Some (calls, t')
    ∧ anthropic_send.convertMessage msg t
      = Some ({| anthropic_send.Role := roleOf msg;
                 anthropic_send.Content :=
                   (if String.eqb (strings.TrimSpace (contentOf msg)) ""
                    then []
                    else [anthropic_send.textBlock
                            (strings.TrimSpace (contentOf msg))])
                   ++ (anthropic_send.toolUseOf <$> calls)
                   ++ (if snd (toolResponseOf msg) then
                         match msg with
                         | llm.HistoryMessage historyMsg =>
                             (λ block,
                                anthropic_send.toolResultBlock
                                  (history.ToolUseID block)
                                  (history.Content block))
                               <$> filter
                                     (λ block,
                                        history.Type_ block = "tool_result")
                                     (history.AContent historyMsg)
                         | _ =>
                             [anthropic_send.toolResultBlock
                                (fst (toolResponseOf msg))
                                (AString (contentOf msg))]
                         end
                       else []) |}, t').
Proof.
  intros Hc. destruct (Message_ToolCalls_run msg t) as (calls & t' & Hrun & _).
  exists calls, t'. split; [done|].
  unfold anthropic_send.convertMessage.
  rewrite Message_Content_value, go_bind_ret_l by done.
  erewrite go_bind_run by exact Hrun.
  rewrite Message_ToolResponse_value, go_bind_ret_l by done.
  rewrite Message_Role_value by done.
  destruct (String.eqb (strings.TrimSpace (contentOf msg)) ""); cbn [negb];
    destruct (toolResponseOf msg) as [toolCallID [|]]; cbn [fst snd].
  all: try (rewrite !go_bind_ret_l; unfold go_ret; do 3 f_equal;
            by rewrite ?app_nil_r).
  all: destruct msg as [m|m|m|m|m];
    rewrite ?Message_Content_value by done;
    rewrite ?go_bind_ret_l;
    unfold go_ret; do 3 f_equal; rewrite <- ?app_assoc; try done.
  all: unfold anthropic_send.storedToolResults;
    by rewrite storedToolResults_loop.
Qed.

(** X10: the message parameter the Anthropic adapter makes of a prior
    message has the role of the message and holds, in this order: a text
    block with [Content()] trimmed, if that is not empty; one tool_use
    block for each tool call; and, when the message is a tool response,
    its tool results.  Those of a stored turn are all its tool_result
    blocks with their id and their structured content, the text of the
    blocks left out; any other tool response gives one tool_result block
    with its id and [Content()] as a string, so that its text is sent
    twice. *)
Theorem X10_anthropic_message_parameter `{Libraries} (msg : llm.Message)
    (t : nat) :
  hasContent msg →
  ∃ calls t' param,
    llm.Message_ToolCalls msg t = Some (calls, t')
    ∧ anthropic_send.convertMessage msg t = Some (param, t')
    ∧ anthropic_send.Role param = roleOf msg
    ∧ anthropic_send.Content param
      = (if String.eqb (strings.TrimSpace (contentOf msg)) "" then []
         else [anthropic_send.textBlock (strings.TrimSpace (contentOf msg))])
        ++ (anthropic_send.toolUseOf <$> calls)
        ++ (if snd (toolResponseOf msg) then
              match msg with
              | llm.HistoryMessage historyMsg =>
                  (λ block,
                     anthropic_send.toolResultBlock (history.ToolUseID block)
                       (history.Content block))
                    <$> filter (λ block, history.Type_ block = "tool_result")
                          (history.AContent historyMsg)
              | _ =>
                  [anthropic_send.toolResultBlock (fst (toolResponseOf msg))
                     (AString (contentOf msg))]
              end
            else []).
Proof.
  intros Hc.
  destruct (anthropic_convertMessage_run msg t Hc)
    as (calls & t' & Hcalls & Hrun).
  exists calls, t'. eexists. split; [done|]. split; [exact Hrun|]. done.
Qed.

Lemma X10_anthropic_message_parameter_witness :
  ∃ t',
    @anthropic_send.convertMessage sample.libraries userToolUse 0%nat
    = Some ({| anthropic_send.Role := "user";
               anthropic_send.Content :=
                 [anthropic_send.toolUseBlock "call_1" "get_weather"
                    sample.paris] |}, t').
Proof.
  destruct (@X10_anthropic_message_parameter sample.libraries userToolUse
              0%nat I)
    as (calls & t' & param & _ & Hrun & _).
  exists t'. rewrite Hrun. vm_compute in Hrun.
  injection Hrun as <- <-. reflexivity.
Defined.

Lemma anthropic_convertMessage_returns `{Libraries} (msg : llm.Message) :
  hasContent msg → returns (anthropic_send.convertMessage msg).
Proof.
  intros Hc t.
  destruct (anthropic_convertMessage_run msg t Hc) as (? & ? & _ & ->).
  by eexists.
Qed.

(** X11: the Anthropic adapter builds its request without failing.  The
    request has one message for every prior message, with its role and
    in order, none left out, followed by the prompt as a user message
    exactly when the prompt is not empty; it names the model of the
    provider, allows 4096 tokens and has one tool per tool, with its
    name.  An error of the transport is returned as it is, with no
    message; otherwise the answer wraps the decoded response. *)
Theorem X11_anthropic_SendMessage `{Libraries} (p : anthropic_send.Provider)
    (client_SendMessage : anthropic_send.CreateRequest
                          → anthropic.APIMessage.t + error)
    (prompt : string) (messages : list llm.Message)
    (tools : list llm_types.Tool) (t : nat) :
  Forall hasContent messages →
  ∃ req t',
    anthropic_send.buildRequest p prompt messages tools t = Some (req, t')
    ∧ anthropic_send.Role <$> anthropic_send.Messages req
      = (roleOf <$> messages)
        ++ (if String.eqb prompt "" then [] else ["user"])
    ∧ (prompt ≠ "" →
       last (anthropic_send.Messages req)
       = Some {| anthropic_send.Role := "user";
                 anthropic_send.Content :=
                   [anthropic_send.textBlock prompt] |})
    ∧ anthropic_send.Model req = anthropic_send.model p
    ∧ anthropic_send.MaxTokens req = 4096
    ∧ anthropic_send.Name <$> anthropic_send.Tools req
      = llm_types.Name <$> tools
    ∧ anthropic_send.SendMessage p client_SendMessage prompt messages tools t
      = Some (match client_SendMessage req with
              | inr err => (None, Some err)
              | inl resp =>
                  (Some (llm.AnthropicMessage {| anthropic.Msg := resp |}),
                   None)
              end, t').
Proof.
  intros Hc.
  destruct (returns_mapM_Forall hasContent anthropic_send.convertMessage
              messages anthropic_convertMessage_returns Hc t)
    as [[params t'] Hrun].
  assert (anthropic_send.Role <$> params = roleOf <$> messages) as Hroles.
  { assert (Forall2 (λ msg param, hasContent msg →
                       anthropic_send.Role param = roleOf msg)
              messages params) as Hall.
    { eapply go_mapM_Forall2; [|exact Hrun].
      intros msg t1 param t2 Hparam Hmsg.
      destruct (anthropic_convertMessage_run msg t1 Hmsg)
        as (? & ? & _ & Hparam').
      rewrite Hparam in Hparam'. by injection Hparam' as -> _. }
    clear Hrun. induction Hall as [|msg param ms ps Hp _ IH]; [done|].
    apply Forall_cons in Hc as [Hmsg Hc].
    rewrite !fmap_cons, Hp, IH by done. done. }
  eexists _, t'. split.
  { unfold anthropic_send.buildRequest.
    erewrite go_bind_run by exact Hrun. reflexivity. }
  cbn [anthropic_send.Messages anthropic_send.Model anthropic_send.MaxTokens
       anthropic_send.Tools].
  split.
  { destruct (String.eqb prompt ""); cbn [negb].
    - by rewrite app_nil_r.
    - by rewrite fmap_app, Hroles. }
  split.
  { intros Hprompt. destruct (String.eqb_spec prompt ""); [done|]. cbn [negb].
    by rewrite last_snoc. }
  split; [done|]. split; [done|].
  split; [by rewrite <- list_fmap_compose|].
  unfold anthropic_send.SendMessage, anthropic_send.buildRequest.
  erewrite go_bind_run
    by (erewrite go_bind_run by exact Hrun; reflexivity).
  by destruct (client_SendMessage _).
Qed.

Lemma X11_anthropic_SendMessage_witness :
  ∃ req t',
    @anthropic_send.buildRequest sample.libraries
      {| anthropic_send.client :=
           anthropic_client.Init "key" "" None;
         anthropic_send.model := "claude" |}
      "hello" [userToolUse] [] 0%nat
    = Some (req, t')
    ∧ anthropic_send.Role <$> anthropic_send.Messages req = ["user"; "user"].
Proof.
  destruct (@X11_anthropic_SendMessage sample.libraries
              {| anthropic_send.client :=
                   anthropic_client.Init "key" "" None;
                 anthropic_send.model := "claude" |}
              (λ _, inr "no transport") "hello" [userToolUse] [] 0%nat)
    as (req & t' & Hreq & Hroles & _).
  - repeat constructor.
  - exists req, t'. split; [exact Hreq|exact Hroles].
Defined.

(** X12: a tool result made by the Anthropic adapter's
    [CreateToolResponse] and handed back as a prior message is sent with
    the role "tool", as a tool_result block that carries the id of the
    tool call and, as its content, the text [Content()] gives for the
    result (for a string, the string trimmed), not the structured
    content it was made from; when that text is not empty, a text block
    with the same text precedes it. *)
Theorem X12_anthropic_tool_result_round_trip `{Libraries}
    (toolCallID : string) (content : any) (t : nat) :
  ∃ msg,
    anthropic_provider.CreateToolResponse toolCallID content
    = (Some msg, None)
    ∧ (∀ text, content = AString text
               → contentOf msg = strings.TrimSpace text)
    ∧ anthropic_send.convertMessage msg t
      = Some ({| anthropic_send.Role := "tool";
                 anthropic_send.Content :=
                   (if String.eqb (contentOf msg) "" then []
                    else [anthropic_send.textBlock (contentOf msg)])
                   ++ [anthropic_send.toolResultBlock toolCallID
                         (AString (contentOf msg))] |}, t).
Proof.
  eexists. split; [reflexivity|]. split.
  { intros text ->. reflexivity. }
  match goal with
  | |- anthropic_send.convertMessage ?m _ = _ =>
      destruct (anthropic_convertMessage_run m t I)
        as (calls & t' & Hcalls & ->);
      set (msg := m) in *
  end.
  cbn in Hcalls. injection Hcalls as <- <-.
  assert (strings.TrimSpace (contentOf msg) = contentOf msg) as ->
    by apply TrimSpace_idem.
  reflexivity.
Qed.

(** ** The OpenAI adapter: the request *)

(** X13: a tool result made by the OpenAI adapter's [CreateToolResponse]
    and handed back as a prior message is sent as it was made: with the
    role "tool", the same text, no tool calls and the same tool-call id,
    also when that id is empty.  The text is never empty. *)
Theorem X13_openai_tool_result_round_trip `{Libraries}
    (p : openai_provider.Provider) (X : string) (content : any)
    (msg : llm.Message) (t : nat) :
  openai_provider.CreateToolResponse p X content = (Some msg, None) →
  ∃ om c,
    msg = llm.OpenAIMessage om
    ∧ openai.Message_ (openai.Choice_ om)
      = {| openai.Role := "tool"; openai.Content := Some c;
           openai.ToolCalls := []; openai.ToolCallID := X |}
    ∧ c ≠ ""
    ∧ openai_provider.convertMessage msg t
      = Some (inl (openai.Message_ (openai.Choice_ om)), t).
Proof.
  intros Hm.
  destruct (openai_CreateToolResponse_Some p X content msg Hm)
    as (s & resp & _ & ->).
  set (c := if String.eqb s "" then "No content returned from tool" else s).
  assert (c ≠ "") as Hc.
  { subst c. by destruct (String.eqb_spec s ""). }
  eexists _, c. split; [reflexivity|]. split; [reflexivity|].
  split; [done|].
  erewrite convertMessage_run; [|reflexivity..].
  cbn. destruct (String.eqb_spec X "") as [->|HX]; cbn.
  - by destruct (String.eqb_spec c "").
  - unfold openai_provider.extractContent.
    destruct (String.eqb_spec c ""); [done|]. cbn.
    by destruct (String.eqb_spec c "").
Qed.

Lemma X13_openai_tool_result_round_trip_witness :
  ∃ msg,
    @openai_provider.CreateToolResponse sample.libraries
      {| openai_provider.model := "gpt-4o" |} "call_1" (AString "22C")
    = (Some msg, None)
    ∧ @openai_provider.convertMessage sample.libraries msg 0%nat
      = Some (inl {| openai.Role := "tool"; openai.Content := Some "22C";
                     openai.ToolCalls := []; openai.ToolCallID := "call_1" |},
              0%nat).
Proof.
  eexists. split; [reflexivity|].
  destruct (@X13_openai_tool_result_round_trip sample.libraries
              {| openai_provider.model := "gpt-4o" |} "call_1" (AString "22C")
              _ 0%nat eq_refl)
    as (om & c & Hom & _ & _ & Hrun).
  injection Hom as <-. exact Hrun.
Defined.

Lemma convertMessages_returns `{Libraries} (messages : list llm.Message) :
  Forall hasContent messages →
  returns (openai_provider.convertMessages messages).
Proof.
  induction 1 as [|msg messages Hmsg _ IH];
    cbn [openai_provider.convertMessages].
  - apply returns_ret.
  - pose proof (convertMessage_returns msg Hmsg). solve_returns.
Qed.

(** X14: the OpenAI adapter converts the prior messages without
    failing: to an error, which [SendMessage] then returns without
    calling the transport, or to one message per prior message.  In the
    second case the request holds these messages, followed by the prompt
    as a user message exactly when the prompt is not empty, the model of
    the provider, a limit of 4096 tokens, the temperature 0.7 and one
    function tool per tool, whose parameters are the type, the
    properties and the required names of its schema.  An error of the
    transport is returned as it is; a response without choices is the
    error "no choices in response"; otherwise the answer is the first
    choice.  Every outcome is a message or an error, never both and
    never neither. *)
Theorem X14_openai_SendMessage `{Libraries} (p : openai_provider.Provider)
    (prompt : string) (messages : list llm.Message)
    (tools : list llm_types.Tool) (t : nat) :
  Forall hasContent messages →
  ∃ r t',
    openai_provider.convertMessages messages t = Some (r, t')
    ∧ match r with
      | inr err =>
          ∀ transport,
            openai_provider.SendMessage p transport prompt messages tools t
            = Some ((None, Some err), t')
      | inl params =>
          length params = length messages
          ∧ ∃ req,
              openai_provider.Messages req
              = params ++ (if String.eqb prompt "" then []
                           else [{| openai.Role := "user";
                                    openai.Content := Some prompt;
                                    openai.ToolCalls := [];
                                    openai.ToolCallID := "" |}])
              ∧ openai_provider.Model req = openai_provider.model p
              ∧ openai_provider.MaxTokens req = 4096
              ∧ openai_provider.Temperature req = (7, 10)
              ∧ Forall2
                  (λ tool ot,
                     openai_provider.Type_ ot = "function"
                     ∧ openai_provider.Name (openai_provider.Function ot)
                       = llm_types.Name tool
                     ∧ openai_provider.Description
                         (openai_provider.Function ot)
                       = llm_types.Description tool
                     ∧ map_to_list
                         (openai_provider.Parameters
                            (openai_provider.Function ot))
                       ≡ₚ [("type",
                            AString
                              (llm_types.Type_ (llm_types.InputSchema tool)));
                           ("properties",
                            AMap (llm_types.Properties
                                    (llm_types.InputSchema tool)));
                           ("required",
                            AStrings (llm_types.Required
                                        (llm_types.InputSchema tool)))])
                  tools (openai_provider.Tools req)
              ∧ ∀ transport,
                  ∃ out,
                    openai_provider.SendMessage p transport prompt messages
                      tools t
                    = Some (out, t')
                    ∧ out
                      = match transport req with
                        | inr err => (None, Some err)
                        | inl resp =>
                            match openai.Choices resp with
                            | [] => (None, Some "no choices in response")
                            | choice :: _ =>
                                (Some (llm.OpenAIMessage
                                         {| openai.Resp := resp;
                                            openai.Choice_ := choice |}),
                                 None)
                            end
                        end
                    ∧ (is_Some (fst out) ↔ snd out = None)
      end.
Proof.
  intros Hc.
  destruct (convertMessages_returns messages Hc t) as [[r t'] Hrun].
  exists r, t'. split; [done|]. destruct r as [params|err].
  - split.
    { symmetry. eapply Forall2_length, convertMessages_Forall2, Hrun. }
    eexists {| openai_provider.Model := _ |}.
    cbn [openai_provider.Messages openai_provider.Model
         openai_provider.MaxTokens openai_provider.Temperature
         openai_provider.Tools].
    split; [reflexivity|]. split; [reflexivity|]. split; [reflexivity|].
    split; [reflexivity|]. split.
    { instantiate (1 := openai_provider.convertTool <$> tools).
      clear. induction tools as [|tool tools IH]; constructor; [|done].
      cbn. split; [done|]. split; [done|]. split; [done|].
      unfold openai_provider.convertSchema.
      rewrite !map_to_list_insert, map_to_list_empty; [done|..];
        by rewrite ?lookup_insert_ne, ?lookup_empty. }
    intros transport. unfold openai_provider.SendMessage.
    erewrite go_bind_run by exact Hrun.
    destruct (String.eqb prompt ""); cbn [negb];
      rewrite ?app_nil_r;
      (destruct (transport _) as [resp|err];
       [destruct (openai.Choices resp)|]);
      eexists; (split; [reflexivity|]); (split; [reflexivity|]); cbn;
      split; (try done); (try by intros [? ?]); by eexists.
  - intros transport. unfold openai_provider.SendMessage.
    by erewrite go_bind_run by exact Hrun.
Qed.

Lemma X14_openai_SendMessage_witness :
  ∃ r t',
    @openai_provider.convertMessages sample.libraries [userToolUse] 0%nat
    = Some (r, t')
    ∧ ∃ params, r = inl params ∧ length params = 1%nat.
Proof.
  destruct (@X14_openai_SendMessage sample.libraries
              {| openai_provider.model := "gpt-4o" |} "hello" [userToolUse]
              [] 0%nat)
    as (r & t' & Hrun & Hr).
  - repeat constructor.
  - exists r, t'. split; [exact Hrun|].
    vm_compute in Hrun. injection Hrun as <- _.
    destruct Hr as [Hlen _]. eexists. split; [reflexivity|exact Hlen].
Defined.

(** ** The Google adapter: schemas, history and state *)

Lemma toType_not_numeric (typ : string) :
  google_provider.toType typ ≠ genai.TypeNumber
  ∧ google_provider.toType typ ≠ genai.TypeInteger.
Proof.
  unfold google_provider.toType.
  repeat match goal with
         | |- context [String.eqb typ ?s] => destruct (String.eqb typ s)
         end; by split.
Qed.

Lemma propertyToGoogleSchema_bare (properties : gmap string any)
    (s : genai.Schema) :
  google_provider.propertyToGoogleSchema properties = Some s →
  bareSchema s.
Proof.
  remember (any_size (AMap properties)) as n eqn:Hn.
  revert properties s Hn. induction (lt_wf n) as [n _ IH].
  intros properties s -> Hs.
  rewrite propertyToGoogleSchema_unfold in Hs.
  destruct (asString (index properties "type")) as [typ|] eqn:Htyp; [|done].
  cbn in Hs. destruct (toType_not_numeric typ) as [Hnum Hint].
  destruct (google_provider.toType typ) eqn:Hty.
  3: by destruct Hnum.
  3: by destruct Hint.
  1-3: injection Hs as <-; constructor; cbn;
    try reflexivity; try discriminate;
    intros ? ?; rewrite lookup_empty; discriminate.
  - destruct (asMap (index properties "items")) as [items|] eqn:Hitems;
      [|discriminate Hs].
    apply asMap_index in Hitems. cbn in Hs.
    destruct (google_provider.propertyToGoogleSchema items) as [si|] eqn:Hsi;
      [|discriminate Hs].
    injection Hs as <-. constructor; cbn;
      try reflexivity; try discriminate.
    intros ? [= <-].
    eapply (IH (any_size (AMap items))); [|reflexivity|exact Hsi].
    by apply (any_size_lookup properties "items").
  - destruct (asMap (index properties "properties")) as [ops|] eqn:Hops;
      [|discriminate Hs].
    apply asMap_index in Hops. cbn in Hs.
    destruct (google_provider.rangeMap _) as [props|] eqn:Hprops;
      [|discriminate Hs].
    injection Hs as <-. constructor; cbn;
      try reflexivity; try discriminate.
    intros name property Hname.
    rewrite (rangeMap_fmap_lookup _ _ _ name Hprops) in Hname.
    destruct (ops !! name) as [[| | | | | | |m|]|] eqn:Hop;
      try discriminate Hname.
    cbn in Hname.
    eapply (IH (any_size (AMap m))); [|reflexivity|exact Hname].
    etrans; [by apply (any_size_lookup ops name)|].
    by apply (any_size_lookup properties "properties").
Qed.

(** X15: the schema the Google adapter makes of a property never has a
    numeric type (a "number" or an "integer" becomes the unspecified
    type), and at no depth a format, an enum, a list of required names
    or the nullable flag: of a property only the type, the description,
    the items and the nested properties are translated.  The schema of a
    tool keeps the required names of the tool; its properties are the
    translated ones, and the injected "unused" property appears only
    when the tool has no property. *)
Theorem X15_google_schema_shape (schema : llm_types.Schema)
    (s : genai.Schema) :
  google_provider.translateToGoogleSchema schema = Some s →
  genai.Type__ s = google_provider.toType (llm_types.Type_ schema)
  ∧ genai.Type__ s ≠ genai.TypeNumber
  ∧ genai.Type__ s ≠ genai.TypeInteger
  ∧ genai.Required s = llm_types.Required schema
  ∧ genai.Items s = None
  ∧ genai.Enum s = []
  ∧ ∀ name property,
      genai.Properties s !! name = Some property →
      (llm_types.Properties schema = ∅
       ∧ name = "unused" ∧ property = google_provider.unused)
      ∨ (llm_types.Properties schema ≠ ∅
         ∧ is_Some (llm_types.Properties schema !! name)
         ∧ bareSchema property).
Proof.
  intros Hs.
  destruct (toType_not_numeric (llm_types.Type_ schema)) as [Hnum Hint].
  unfold google_provider.translateToGoogleSchema in Hs.
  destruct (google_provider.rangeMap _) as [props|] eqn:Hprops;
    [|discriminate Hs].
  cbn in Hs.
  assert (∀ name property,
            props !! name = Some property →
            is_Some (llm_types.Properties schema !! name)
            ∧ bareSchema property) as Hbare.
  { intros name property Hname.
    rewrite (rangeMap_fmap_lookup _ _ _ name Hprops) in Hname.
    destruct (llm_types.Properties schema !! name) as [prop|];
      [|discriminate Hname].
    split; [eexists; reflexivity|].
    cbn in Hname. rewrite propertyOf_asMap in Hname.
    destruct (asMap prop) as [m|]; [|discriminate Hname].
    exact (propertyToGoogleSchema_bare m property Hname). }
  assert (props = ∅ ↔ llm_types.Properties schema = ∅) as Hempty.
  { apply rangeMap_Some in Hprops. split.
    - intros ->. rewrite fmap_empty in Hprops.
      exact (fmap_empty_inv _ _ Hprops).
    - intros Hnone. rewrite Hnone, fmap_empty in Hprops.
      symmetry in Hprops. exact (fmap_empty_inv _ _ Hprops). }
  clear Hprops.
  destruct (Z.eqb_spec (len (map_to_list props)) 0) as [Hlen|Hlen];
    injection Hs as <-; cbn;
    (split; [reflexivity|]); (split; [exact Hnum|]);
    (split; [exact Hint|]); (split; [reflexivity|]);
    (split; [reflexivity|]); (split; [reflexivity|]);
    intros name property Hname.
  - apply len_zero, map_to_list_empty_iff in Hlen. subst props.
    left. split; [apply Hempty; reflexivity|].
    apply lookup_insert_Some in Hname as [[<- <-]|[_ Hname]].
    + split; reflexivity.
    + rewrite lookup_empty in Hname. discriminate Hname.
  - right. destruct (Hbare name property Hname) as [Hin Hb].
    split; [|split; [exact Hin|exact Hb]].
    intros Hnone. apply Hempty in Hnone. subst props.
    apply Hlen. reflexivity.
Qed.

Lemma X15_google_schema_shape_witness :
  ∃ s,
    google_provider.translateToGoogleSchema nestedSchema = Some s
    ∧ genai.Required s = llm_types.Required nestedSchema
    ∧ genai.Items s = None.
Proof.
  destruct (proj2 (translateToGoogleSchema_total nestedSchema)
              wellFormedSchema_nested) as [s Hs].
  exists s. split; [exact Hs|].
  destruct (X15_google_schema_shape nestedSchema s Hs)
    as (_ & _ & _ & Hreq & Hitems & _).
  split; [exact Hreq|exact Hitems].
Defined.

Lemma go_mapM_pure {A B} (g : A → Go B) (f : A → B) (l : list A) (t : nat) :
  (∀ a t, g a t = Some (f a, t)) → go_mapM g l t = Some (f <$> l, t).
Proof.
  intros Hg. induction l as [|a l IH]; [done|].
  cbn [go_mapM]. erewrite go_bind_run by apply Hg.
  by erewrite go_bind_run by exact IH.
Qed.

(** The history turns the Google adapter makes of a prior message. *)
Lemma google_historyOf_run `{Libraries} (msg : llm.Message) (t : nat) :
  hasContent msg →
  ∃ t',
    google_provider.historyOf msg t
    = Some (((λ shape,
                {| genai.Role := roleOf msg;
                   genai.Parts :=
                     [genai.PartFunctionCall
                        {| genai.Name := shape.1;
                           genai.Args := shape.2 |}] |})
               <$> callShapesOf msg)
            ++ (if snd (toolResponseOf msg) then
                  match msg with
                  | llm.HistoryMessage historyMsg =>
                      (λ block,
                         {| genai.Role := roleOf msg;
                            genai.Parts :=
                              [genai.Text (history.Text block)] |})
                        <$> filter
                              (λ block, history.Type_ block = "tool_result")
                              (history.AContent historyMsg)
                  | _ => []
                  end
                else [])
            ++ (if String.eqb (strings.TrimSpace (contentOf msg)) "" then []
                else [{| genai.Role := roleOf msg;
                         genai.Parts :=
                           [genai.Text
                              (strings.TrimSpace (contentOf msg))] |}]),
            t').
Proof.
  intros Hc.
  destruct (Message_ToolCalls_run msg t) as (calls & t' & Hrun & Hshapes).
  exists t'. unfold google_provider.historyOf.
  erewrite go_bind_run by exact Hrun.
  erewrite go_bind_run; cycle 1.
  { apply (go_mapM_pure _
             (λ call,
                {| genai.Role := roleOf msg;
                   genai.Parts :=
                     [genai.PartFunctionCall
                        {| genai.Name := llm.ToolCall_Name call;
                           genai.Args := llm.ToolCall_Arguments call |}] |})).
    intros call t1. by rewrite Message_Role_value. }
  rewrite IsToolResponse_value, go_bind_ret_l by done.
  erewrite go_bind_run; cycle 1.
  { instantiate (1 := t').
    instantiate (1 :=
      if snd (toolResponseOf msg) then
        match msg with
        | llm.HistoryMessage historyMsg =>
            (λ block,
               {| genai.Role := roleOf msg;
                  genai.Parts := [genai.Text (history.Text block)] |})
              <$> filter (λ block, history.Type_ block = "tool_result")
                    (history.AContent historyMsg)
        | _ => []
        end
      else []).
    destruct (snd (toolResponseOf msg)); [|done].
    destruct msg; try done.
    apply go_mapM_pure. intros block t1. by rewrite Message_Role_value. }
  rewrite Message_Content_value, go_bind_ret_l by done.
  rewrite Message_Role_value by done.
  rewrite <- Hshapes, <- list_fmap_compose.
  by destruct (String.eqb (strings.TrimSpace (contentOf msg)) "").
Qed.

(** X16: of a prior message the Google adapter makes history turns that
    all carry the role of the message and hold one part each: first one
    function-call turn for each tool call, with its name and its
    arguments; then, when the message is a stored tool response, one
    text turn for each of its tool_result blocks, with the text of the
    block; and last a text turn with [Content()] trimmed, when that is
    not empty.  No tool-call id is part of the history. *)
Theorem X16_google_history_turns `{Libraries} (msg : llm.Message) (t : nat) :
  hasContent msg →
  ∃ hist t',
    google_provider.historyOf msg t = Some (hist, t')
    ∧ Forall (λ turn, genai.Role turn = roleOf msg
                      ∧ length (genai.Parts turn) = 1%nat) hist
    ∧ hist
      = ((λ shape,
            {| genai.Role := roleOf msg;
               genai.Parts :=
                 [genai.PartFunctionCall
                    {| genai.Name := shape.1; genai.Args := shape.2 |}] |})
           <$> callShapesOf msg)
        ++ (if snd (toolResponseOf msg) then
              match msg with
              | llm.HistoryMessage historyMsg =>
                  (λ block,
                     {| genai.Role := roleOf msg;
                        genai.Parts := [genai.Text (history.Text block)] |})
                    <$> filter (λ block, history.Type_ block = "tool_result")
                          (history.AContent historyMsg)
              | _ => []
              end
            else [])
        ++ (if String.eqb (strings.TrimSpace (contentOf msg)) "" then []
            else [{| genai.Role := roleOf msg;
                     genai.Parts :=
                       [genai.Text (strings.TrimSpace (contentOf msg))] |}]).
Proof.
  intros Hc. destruct (google_historyOf_run msg t Hc) as [t' Hrun].
  eexists _, t'. split; [exact Hrun|]. split; [|done].
  rewrite !Forall_app. split; [|split].
  - apply Forall_fmap, Forall_forall. by intros.
  - destruct (snd (toolResponseOf msg)); [|done].
    destruct msg; try done. apply Forall_fmap, Forall_forall. by intros.
  - destruct (String.eqb _ ""); [done|]. by repeat constructor.
Qed.

Lemma X16_google_history_turns_witness :
  ∃ t',
    @google_provider.historyOf sample.libraries userToolUse 0%nat
    = Some ([{| genai.Role := "user";
                genai.Parts :=
                  [genai.PartFunctionCall
                     {| genai.Name := "get_weather";
                        genai.Args :=
                          @llm.ToolCall_Arguments sample.libraries
                            (llm.HistoryToolCall
                               {| history.id := "call_1";
                                  history.name := "get_weather";
                                  history.args := sample.paris |}) |}] |}],
            t').
Proof.
  destruct (@X16_google_history_turns sample.libraries userToolUse 0%nat I)
    as (hist & t' & Hrun & _ & Hhist).
  exists t'. rewrite Hrun, Hhist. reflexivity.
Defined.

(** X17: the Google adapter does not send the prompt: what it installs,
    what it asks of the chat session and what it answers depend on the
    prior messages and the tools only.  It replaces the tools and the
    history of the provider, of whose state only the tool-call counter
    is read; it installs one tool per tool, each with one function
    declaration of the name of the tool, and the concatenated turns of
    the prior messages as the history.  The outcome is a message or an
    error, never both and never neither. *)
Theorem X17_google_SendMessage `{Libraries} (p : google_provider.Provider)
    chat (prompt : string) (messages : list llm.Message)
    (tools : list llm_types.Tool) (t t' : nat)
    (p' : google_provider.Provider)
    (out : option llm.Message * option error) :
  google_provider.SendMessage p chat prompt messages tools t
  = Some ((p', out), t') →
  (∀ prompt',
     google_provider.SendMessage p chat prompt' messages tools t
     = Some ((p', out), t'))
  ∧ (∀ p0,
       google_provider.toolCallID p0 = google_provider.toolCallID p →
       google_provider.SendMessage p0 chat prompt messages tools t
       = Some ((p', out), t'))
  ∧ (λ tool, genai.Name__ <$> genai.FunctionDeclarations tool)
      <$> google_provider.model_Tools p'
    = (λ tool, [llm_types.Name tool]) <$> tools
  ∧ (∃ hists,
       go_mapM google_provider.historyOf messages t = Some (hists, t')
       ∧ google_provider.chat_History p' = concat hists)
  ∧ (is_Some (fst out) ↔ snd out = None).
Proof.
  intros Hrun. split; [intros prompt'; exact Hrun|].
  split.
  { intros p0 Hid. unfold google_provider.SendMessage in *.
    by rewrite Hid. }
  unfold google_provider.SendMessage in Hrun.
  apply go_bind_Some in Hrun as (hists & t1 & Hhists & Hrun).
  apply go_bind_Some in Hrun as (modelTools & t2 & Htools & Hrun).
  apply must_Some in Htools as [Htools ->].
  apply go_ret_Some in Hrun as [Hrun ->].
  assert ((λ tool, genai.Name__ <$> genai.FunctionDeclarations tool)
            <$> modelTools
          = (λ tool, [llm_types.Name tool]) <$> tools) as Hnames.
  { clear -Htools. revert modelTools Htools.
    induction tools as [|tool tools IH]; intros modelTools Htools.
    - injection Htools as <-. reflexivity.
    - cbn in Htools.
      destruct (google_provider.toolOf tool) as [gt|] eqn:Htool;
        [|discriminate Htools].
      cbn in Htools.
      destruct (mapM google_provider.toolOf tools) as [gts|];
        [|discriminate Htools].
      injection Htools as <-. rewrite !fmap_cons, (IH gts eq_refl).
      unfold google_provider.toolOf in Htool.
      destruct (google_provider.translateToGoogleSchema _);
        [|discriminate Htool].
      injection Htool as <-. reflexivity. }
  unfold google_provider.decodeResponse in Hrun.
  destruct (chat modelTools (concat hists)) as [resp|err].
  - destruct (genai.Candidates resp) as [|candidate rest];
      injection Hrun as <- <-; cbn;
      (split; [done|]); (split; [by eexists|]);
      split; (try done); (try by intros [? ?]); by eexists.
  - injection Hrun as <- <-. cbn.
    split; [done|]. split; [by eexists|]. split; [by intros [? ?]|done].
Qed.

Lemma X17_google_SendMessage_witness :
  ∃ p' out t',
    @google_provider.SendMessage sample.libraries google_provider.NewProvider
      (λ _ _, inr "no session") "hello" [userToolUse] [] 0%nat
    = Some ((p', out), t')
    ∧ @google_provider.SendMessage sample.libraries
        google_provider.NewProvider
        (λ _ _, inr "no session") "" [userToolUse] [] 0%nat
      = Some ((p', out), t').
Proof.
  destruct (@google_SendMessage_total sample.libraries
              google_provider.NewProvider (λ _ _, inr "no session") "hello"
              [userToolUse] []) with (t := 0%nat) as [[[p' out] t'] Hrun].
  - repeat constructor.
  - constructor.
  - exists p', out, t'. split; [exact Hrun|].
    exact (proj1 (@X17_google_SendMessage sample.libraries _ _ _ _ _ _ _ _ _
                    Hrun) "").
Defined.

(** ** Prior messages the adapters cannot convert *)

(** X18: each of the four adapters converts a prior message without a
    panic exactly when the message carries its content: the only message
    on which a conversion panics is a decoded Google message whose
    candidate has no content, whose [Role()], [Content()] and
    [ToolResponse()] dereference the nil content; its [ToolCalls()]
    still returns, with no call. *)
Theorem X18_conversion_returns_iff_content `{Libraries} (msg : llm.Message)
    (t : nat) :
  (is_Some (openai_provider.convertMessage msg t) ↔ hasContent msg)
  ∧ (is_Some (anthropic_send.convertMessage msg t) ↔ hasContent msg)
  ∧ (is_Some (ollama_send.convertMessage msg t) ↔ hasContent msg)
  ∧ (is_Some (google_provider.historyOf msg t) ↔ hasContent msg)
  ∧ (¬ hasContent msg → llm.Message_ToolCalls msg t = Some ([], t)).
Proof.
  assert (hasContent msg →
          (is_Some (openai_provider.convertMessage msg t) ↔ hasContent msg)
          ∧ (is_Some (anthropic_send.convertMessage msg t) ↔ hasContent msg)
          ∧ (is_Some (ollama_send.convertMessage msg t) ↔ hasContent msg)
          ∧ (is_Some (google_provider.historyOf msg t) ↔ hasContent msg)
          ∧ (¬ hasContent msg
             → llm.Message_ToolCalls msg t = Some ([], t)))
    as Hpos.
  { intros Hc.
    split; [split; [done|intros _; by apply convertMessage_returns]|].
    split;
      [split; [done|intros _; by apply anthropic_convertMessage_returns]|].
    split; [split; [done|intros _; by apply ollama_convertMessage_returns]|].
    split; [split; [done|intros _; by apply historyOf_returns]|].
    by intros []. }
  destruct msg as [m|m|m|m|m]; try (apply Hpos; exact I).
  destruct m as [[index [content|]] id]; [apply Hpos; by eexists|].
  clear Hpos.
  assert (∀ A (o : option A),
            o = None →
            is_Some o
            ↔ hasContent
                (llm.GoogleMessage
                   {| google.Candidate :=
                        {| genai.Index := index; genai.Content_ := None |};
                      google.toolCallID_ := id |})) as Hnone.
  { intros A o ->. split; [by intros [? ?]|by intros [? ?]]. }
  split; [by apply Hnone|]. split; [by apply Hnone|].
  split; [by apply Hnone|]. split; [by apply Hnone|].
  intros _. reflexivity.
Qed.

(** ** The OpenAI adapter: the text of an array result *)

Lemma blockTexts_loop `{Libraries} (items : list any) (texts : list string) :
  Forall (λ item, ∀ block, item = AMap block →
                           is_Some (asString (index block "text"))) items →
  fold_left openai_provider.blockTexts items texts
  = texts ++ omap (λ item, block ← asMap item;
                           asString (index block "text")) items.
Proof.
  intros Hitems. revert texts.
  induction Hitems as [|item items Hitem _ IH]; intros texts;
    cbn [fold_left omap list_omap].
  - by rewrite app_nil_r.
  - rewrite IH. unfold openai_provider.blockTexts.
    destruct item as [| | | | | | |block|]; cbn; try done.
    destruct (Hitem block eq_refl) as [text ->]. cbn.
    by rewrite <- app_assoc.
Qed.

(** X19: of a tool result that is an array whose object items each hold
    a string under "text", the OpenAI adapter's [CreateToolResponse]
    makes a tool message whose text is these strings, in order, joined
    by line breaks; items that are no objects are passed over.  Only
    when that text is empty is the array encoded as JSON instead. *)
Theorem X19_openai_array_result `{Libraries} (p : openai_provider.Provider)
    (X : string) (items : list any) :
  Forall (λ item, ∀ block, item = AMap block →
                           is_Some (asString (index block "text"))) items →
  let texts := omap (λ item, block ← asMap item;
                             asString (index block "text")) items in
  let text := strings.Join texts newline in
  text ≠ "" →
  openai_provider.contentString (ASlice items) = inl text
  ∧ ∃ om,
      openai_provider.CreateToolResponse p X (ASlice items)
      = (Some (llm.OpenAIMessage om), None)
      ∧ openai.Message_ (openai.Choice_ om)
        = {| openai.Role := "tool"; openai.Content := Some text;
             openai.ToolCalls := []; openai.ToolCallID := X |}.
Proof.
  intros Hitems texts text Htext.
  assert (openai_provider.contentString (ASlice items) = inl text) as Hcs.
  { unfold openai_provider.contentString.
    rewrite blockTexts_loop by done. cbn [app]. fold texts. fold text.
    by destruct (String.eqb_spec text ""). }
  split; [done|].
  unfold openai_provider.CreateToolResponse. rewrite Hcs.
  destruct (String.eqb_spec text ""); [done|].
  eexists. split; reflexivity.
Qed.

Lemma X19_openai_array_result_witness :
  @openai_provider.contentString sample.libraries
    (ASlice [AMap {["text" := AString "22C"]}; AString "skipped";
             AMap {["text" := AString "sunny"]}])
  = inl ("22C" +:+ newline +:+ "sunny").
Proof.
  refine (proj1 (@X19_openai_array_result sample.libraries
                   {| openai_provider.model := "gpt-4o" |} "call_1"
                   [AMap {["text" := AString "22C"]}; AString "skipped";
                    AMap {["text" := AString "sunny"]}] _ _)).
  - repeat constructor; intros block [= <-]; vm_compute; by eexists.
  - vm_compute. discriminate.
Defined.

(** ** The tool-call ids of an Ollama message *)

Lemma ollama_ToolCalls_ids `{Libraries} (calls : list api.ToolCall)
    (t : nat) :
  ∃ stamped,
    go_mapM ollama.NewOllamaToolCall calls t
    = Some (stamped, (t + length calls)%nat)
    ∧ ollama.call <$> stamped = calls
    ∧ ∀ i c,
        stamped !! i = Some c →
        ollama.OllamaToolCall_ID c
        = "tc_" +:+ ollama.OllamaToolCall_Name c +:+ "_"
            +:+ fmt_d (time_UnixNano (t + i)).
Proof.
  revert t. induction calls as [|call calls IH]; intros t.
  - exists []. cbn. unfold go_ret. rewrite Nat.add_0_r.
    split; [done|]. split; [done|]. by intros i c.
  - destruct (IH (S t)) as (stamped & Hrun & Hcalls & Hids).
    eexists. cbn [go_mapM]. unfold go_bind.
    rewrite NewOllamaToolCall_run, Hrun. unfold go_ret.
    split; [do 2 f_equal; cbn; lia|].
    split; [cbn; by rewrite Hcalls|].
    intros [|i] c Hc.
    + injection Hc as <-. cbn. by rewrite Nat.add_0_r.
    + cbn in Hc. rewrite (Hids i c Hc).
      by replace (S t + i)%nat with (t + S i)%nat by lia.
Qed.

(** X20: [ToolCalls()] of an Ollama message reads the clock once for
    each tool call of the message and returns the calls in order, each
    with its name and arguments and with the id "tc_", the name, "_" and
    the reading taken for it.  The ids are made anew at every call of
    [ToolCalls()]: they are those of an earlier call only as far as the
    clock readings repeat. *)
Theorem X20_ollama_tool_call_ids `{Libraries} (m : ollama.OllamaMessage)
    (t : nat) :
  ∃ calls,
    ollama.OllamaMessage_ToolCalls m t
    = Some (calls, (t + length (api.ToolCalls (ollama.Message m)))%nat)
    ∧ ollama.call <$> calls = api.ToolCalls (ollama.Message m)
    ∧ ∀ i c,
        calls !! i = Some c →
        ollama.OllamaToolCall_ID c
        = "tc_" +:+ ollama.OllamaToolCall_Name c +:+ "_"
            +:+ fmt_d (time_UnixNano (t + i)).
Proof. apply ollama_ToolCalls_ids. Qed.
